(** * The scan pipeline of uxvision (src/app/api/scan/route.ts)

    A shallow embedding of the route handler [POST], of [performUXAnalysis]
    and of [captureElementScreenshot], with the properties the specification
    states about them; then the script run in the page, the history route
    (src/app/api/scans/route.ts) and the grouping of the report page
    (src/app/dashboard/page.tsx), with properties read off the code.

    Modelling conventions.
    - A string is a sequence of 8-bit code units ([string]): the JavaScript
      strings whose characters lie in U+0000..U+00FF.  On these strings
      [toLowerCase], [trim] and [substring] are the host functions, the length
      is the host length, and a character of the range U+0080..U+00FF is the
      code unit of the same number.
    - JavaScript numbers are integers ([Z]): scores, lengths and pixel
      coordinates (the page script rounds every coordinate with Math.round).
    - Values that come out of the reasoning service are dynamically typed
      ([JsValue]); a property read on null or undefined, and a method call on
      a value that has no such method, raise a TypeError as in the host.
    - The members [issues] and [recommendations] of a parsed analysis are
      arrays when they are truthy; array-likes of other types are outside the
      model.
    - Every awaited call to an external system (browser, reasoning service,
      image codec, storage) is an oracle of the environment and may fail. *)

From Stdlib Require Import String Ascii List ZArith Bool Lia Permutation.
Import ListNotations.

Open Scope string_scope.
Open Scope Z_scope.

Set Implicit Arguments.
Set Warnings "-register-all".

(** ** Exceptions and the result of a computation that may throw *)

Inductive exn : Type :=
| Error (message : string)
| TypeError.

Inductive result (A : Type) : Type :=
| Ok (a : A)
| Throw (e : exn).

Arguments Ok {A} a.
Arguments Throw {A} e.

Definition bind {A B : Type} (r : result A) (k : A -> result B) : result B :=
  match r with
  | Ok a => k a
  | Throw e => Throw e
  end.

Notation "x <- r ;; k" := (bind r (fun x => k))
  (at level 61, r at next level, right associativity).

(** [arr.map(f)] for a callback that may throw: the first exception aborts
    the traversal. *)
Fixpoint mapM {A B : Type} (f : A -> result B) (l : list A) : result (list B) :=
  match l with
  | [] => Ok []
  | a :: l' => b <- f a ;; bs <- mapM f l' ;; Ok (b :: bs)
  end.

(** ** Strings *)

(** The upper-case letters of the range: A to Z, and U+00C0 to U+00DE
    without the multiplication sign U+00D7; each has its lower-case letter 32
    places further. *)
Definition is_upper (c : ascii) : bool :=
  let n := nat_of_ascii c in
  ((Nat.leb 65 n && Nat.leb n 90)
   || (Nat.leb 192 n && Nat.leb n 222 && negb (Nat.eqb n 215)))%bool.

Definition lower_char (c : ascii) : ascii :=
  if is_upper c then ascii_of_nat (nat_of_ascii c + 32) else c.

(** String.prototype.toLowerCase *)
Fixpoint toLowerCase (s : string) : string :=
  match s with
  | EmptyString => EmptyString
  | String c r => String (lower_char c) (toLowerCase r)
  end.

(** The white space and the line terminators of the range: TAB, LF, VT, FF,
    CR, SPACE and the no-break space U+00A0. *)
Definition is_space (c : ascii) : bool :=
  let n := nat_of_ascii c in
  ((Nat.leb 9 n && Nat.leb n 13) || Nat.eqb n 32 || Nat.eqb n 160)%bool.

Fixpoint trimStart (s : string) : string :=
  match s with
  | EmptyString => EmptyString
  | String c r => if is_space c then trimStart r else s
  end.

Fixpoint trimEnd (s : string) : string :=
  match s with
  | EmptyString => EmptyString
  | String c r =>
      match trimEnd r with
      | EmptyString => if is_space c then EmptyString else String c EmptyString
      | r' => String c r'
      end
  end.

(** String.prototype.trim *)
Definition trim (s : string) : string := trimEnd (trimStart s).

(** String.prototype.includes *)
Fixpoint includes (needle s : string) : bool :=
  (String.prefix needle s ||
   match s with
   | EmptyString => false
   | String _ r => includes needle r
   end)%bool.

(** Array.prototype.includes on an array of strings *)
Fixpoint array_includes (l : list string) (s : string) : bool :=
  match l with
  | [] => false
  | x :: l' => (String.eqb x s || array_includes l' s)%bool
  end.

(** ** Extraction of the JSON text: [analysisContent.match(/\{[\s\S]*\}/)]

    The pattern is an opening brace, any characters (greedy, line breaks
    included) and a closing brace: the match starts at the first opening brace
    that has a closing brace after it and ends at the last closing brace of
    the text. *)

Definition open_brace : ascii := "{"%char.
Definition close_brace : ascii := "}"%char.

(** The longest prefix of [s] that ends with a closing brace. *)
Fixpoint upto_last_close (s : string) : option string :=
  match s with
  | EmptyString => None
  | String c r =>
      match upto_last_close r with
      | Some p => Some (String c p)
      | None => if Ascii.eqb c close_brace then Some (String c EmptyString) else None
      end
  end.

Fixpoint match_braces (s : string) : option string :=
  match s with
  | EmptyString => None
  | String c r =>
      if Ascii.eqb c open_brace then
        match upto_last_close r with
        | Some p => Some (String c p)
        | None => None
        end
      else match_braces r
  end.

(** ** Dynamically typed values *)

Inductive JsValue : Type :=
| JUndefined
| JNull
| JBool (b : bool)
| JNum (n : Z)
| JStr (s : string)
| JArr (items : list JsValue)
| JObj (fields : list (string * JsValue)).

(** ToBoolean *)
Definition truthy (v : JsValue) : bool :=
  match v with
  | JUndefined | JNull => false
  | JBool b => b
  | JNum n => negb (n =? 0)
  | JStr s => negb (String.eqb s EmptyString)
  | JArr _ | JObj _ => true
  end.

(** [a || b] *)
Definition js_or (a b : JsValue) : JsValue := if truthy a then a else b.

Fixpoint lookup (k : string) (fs : list (string * JsValue)) : JsValue :=
  match fs with
  | [] => JUndefined
  | (k', v) :: r => if String.eqb k' k then v else lookup k r
  end.

(** [v.k] for the member names the handler reads (none of them is [length] or
    an index, so primitives and arrays answer undefined). *)
Definition get (v : JsValue) (k : string) : result JsValue :=
  match v with
  | JUndefined | JNull => Throw TypeError
  | JObj fs => Ok (lookup k fs)
  | _ => Ok JUndefined
  end.

(** [v?.k] *)
Definition get_opt (v : JsValue) (k : string) : JsValue :=
  match v with
  | JObj fs => lookup k fs
  | _ => JUndefined
  end.

(** [obj.k = x] on an object: an existing member keeps its place, a new one is
    added last. *)
Fixpoint set_field (fs : list (string * JsValue)) (k : string) (x : JsValue)
  : list (string * JsValue) :=
  match fs with
  | [] => [(k, x)]
  | (k', v) :: r => if String.eqb k' k then (k', x) :: r else (k', v) :: set_field r k x
  end.

(** [v.toLowerCase().trim()]: only a string has the method. *)
Definition lower_trim (v : JsValue) : result string :=
  match v with
  | JStr s => Ok (trim (toLowerCase s))
  | _ => Throw TypeError
  end.

(** ** Page data and rectangles *)

Record Bounds : Type := { bx : Z; by_ : Z; bwidth : Z; bheight : Z }.

Record Viewport : Type := { vwidth : Z; vheight : Z }.

Record ElementBounds : Type := {
  navigation : option Bounds;
  header : option Bounds;
  footer : option Bounds;
  mainContent : option Bounds;
  primaryCTA : option Bounds;
  forms : option Bounds
}.

(** The part of [pageData] that is read after the reasoning service has
    answered.  [elementBounds] is absent in the data substituted when the
    extraction in the page fails. *)
Record PageData : Type := {
  viewport : Viewport;
  elementBounds : option ElementBounds
}.

Definition minimal_pageData : PageData :=
  {| viewport := {| vwidth := 1920; vheight := 1080 |}; elementBounds := None |}.

(** [pageData.elementBounds?.f] *)
Definition landmark (pd : PageData) (f : ElementBounds -> option Bounds) : option Bounds :=
  match elementBounds pd with
  | Some eb => f eb
  | None => None
  end.

(** [a || b] on two rectangles or null: an object is always truthy. *)
Definition or_else (a b : option Bounds) : option Bounds :=
  match a with
  | Some _ => a
  | None => b
  end.

Definition bounds_value (b : Bounds) : JsValue :=
  JObj [("x", JNum (bx b)); ("y", JNum (by_ b));
        ("width", JNum (bwidth b)); ("height", JNum (bheight b))].

(** ** Region Cropper: [captureElementScreenshot] *)

Record Region : Type := { left : Z; top : Z; width : Z; height : Z }.

Definition padding : Z := 20.
Definition max_crop_height : Z := 400.

Definition crop_region (b : Bounds) (vp : Viewport) : Region :=
  let cropX := Z.max 0 (bx b - padding) in
  let cropY := Z.max 0 (by_ b - padding) in
  let cropWidth := Z.min (vwidth vp - cropX) (bwidth b + padding * 2) in
  let cropHeight := Z.min (bheight b + padding * 2) max_crop_height in
  {| left := cropX; top := cropY; width := cropWidth; height := cropHeight |}.

Section Pipeline.

(** The image codec: decoding the full-page image, [extract], [png] and
    [toBuffer], then the base64 encoding.  [None] is a rejected promise. *)
Variable sharp_extract : string -> Region -> option string.

(** The whole body is inside try/catch and the handler returns null. *)
Definition captureElementScreenshot (fullPageScreenshot : string)
    (b : Bounds) (vp : Viewport) : option string :=
  sharp_extract fullPageScreenshot (crop_region b vp).


(** ** The analysis object and the crop stage of [performUXAnalysis] *)

(** The object [analysis]: the four members the function reads.  [None] in
    [issues] or [recommendations] is a falsy member (absent, null). *)
Record Analysis : Type := {
  score : JsValue;
  issues : option (list JsValue);
  recommendations : option (list JsValue);
  summary : JsValue
}.

Record UXAnalysisResult : Type := {
  r_score : JsValue;
  r_issues : list JsValue;
  r_recommendations : list JsValue;
  r_summary : JsValue
}.

(** The switch on [issue.category] (strict equality on the raw value). *)
Definition issue_bounds (pd : PageData) (category : JsValue) : option Bounds :=
  match category with
  | JStr c =>
      if String.eqb c "layout" then
        or_else (landmark pd navigation) (landmark pd header)
      else if String.eqb c "conversion" then
        or_else (landmark pd primaryCTA) (landmark pd forms)
      else if String.eqb c "accessibility" then
        or_else (landmark pd navigation) (landmark pd mainContent)
      else if String.eqb c "mobile" then
        or_else (landmark pd header) (landmark pd navigation)
      else if String.eqb c "performance" then
        Some {| bx := 0; by_ := 0; bwidth := vwidth (viewport pd); bheight := 400 |}
      else None
  | _ => None
  end.

(** [elementBounds && elementBounds.width > 0 && elementBounds.height > 0] *)
Definition croppable (b : option Bounds) : option Bounds :=
  match b with
  | Some r => if ((0 <? bwidth r) && (0 <? bheight r))%bool then Some r else None
  | None => None
  end.

(** The guarded call of the cropper; an empty string is falsy and is not
    attached. *)
Definition element_screenshot (shot : string) (pd : PageData) (b : option Bounds)
  : option (string * Bounds) :=
  match croppable b with
  | Some r =>
      match captureElementScreenshot shot r (viewport pd) with
      | Some img => if String.eqb img EmptyString then None else Some (img, r)
      | None => None
      end
  | None => None
  end.

(** One turn of the loop over [analysis.issues]. *)
Definition crop_issue (shot : string) (pd : PageData) (issue : JsValue) : result JsValue :=
  match issue with
  | JUndefined | JNull => Throw TypeError
  | JObj fs =>
      match element_screenshot shot pd (issue_bounds pd (lookup "category" fs)) with
      | Some (img, r) =>
          Ok (JObj (set_field (set_field fs "screenshot" (JStr img)) "bounds" (bounds_value r)))
      | None => Ok issue
      end
  | _ => Ok issue
  end.

(** The keyword match on [rec.title.toLowerCase()]. *)
Definition recommendation_bounds (pd : PageData) (title : string) : option Bounds :=
  let t := toLowerCase title in
  if (includes "button" t || includes "cta" t)%bool then landmark pd primaryCTA
  else if (includes "navigation" t || includes "nav" t)%bool then landmark pd navigation
  else if includes "form" t then landmark pd forms
  else if includes "header" t then landmark pd header
  else None.

(** One turn of the loop over the recommendations. *)
Definition crop_recommendation (shot : string) (pd : PageData) (rec : JsValue)
  : result JsValue :=
  title <- get rec "title" ;;
  match title with
  | JStr t =>
      match rec with
      | JObj fs =>
          match element_screenshot shot pd (recommendation_bounds pd t) with
          | Some (img, _) => Ok (JObj (set_field fs "screenshot" (JStr img)))
          | None => Ok rec
          end
      | _ => Ok rec
      end
  | _ => Throw TypeError
  end.

(** [for (let i = 0; i < Math.min(analysis.recommendations.length, 3); i++)] *)
Definition crop_recommendations (shot : string) (pd : PageData) (recs : list JsValue)
  : result (list JsValue) :=
  done <- mapM (crop_recommendation shot pd) (firstn 3 recs) ;;
  Ok (done ++ skipn 3 recs)%list.

(** Lines 545-622: the loop over the recommendations is inside the branch
    taken when there is a screenshot and at least one issue. *)
Definition crop_stage (screenshot : option string) (pd : PageData) (a : Analysis)
  : result Analysis :=
  match screenshot, issues a with
  | Some shot, Some (i :: l) =>
      if String.eqb shot EmptyString then Ok a else
      is' <- mapM (crop_issue shot pd) (i :: l) ;;
      match recommendations a with
      | Some (r :: rs) =>
          rs' <- crop_recommendations shot pd (r :: rs) ;;
          Ok {| score := score a; issues := Some is';
                recommendations := Some rs'; summary := summary a |}
      | _ =>
          Ok {| score := score a; issues := Some is';
                recommendations := recommendations a; summary := summary a |}
      end
  | _, _ => Ok a
  end.

Definition default_summary : string :=
  "Analysis completed with some limitations due to page loading issues.".

Definition or_empty (l : option (list JsValue)) : list JsValue :=
  match l with
  | Some x => x
  | None => []
  end.

(** The return statement, lines 624-629. *)
Definition finish (a : Analysis) : UXAnalysisResult :=
  {| r_score := js_or (score a) (JNum 70);
     r_issues := or_empty (issues a);
     r_recommendations := or_empty (recommendations a);
     r_summary := js_or (summary a) (JStr default_summary) |}.

(** ** [performUXAnalysis] *)

(** What the external systems answer during one call.  A [false] flag or a
    [None] is a rejected promise. *)
Record Env : Type := {
  launch : bool;                        (* puppeteer.launch *)
  page_setup : bool;                    (* newPage, setViewport, setUserAgent *)
  goto_networkidle2 : bool;             (* page.goto, 45 s *)
  goto_domcontentloaded : bool;         (* page.goto, 30 s *)
  goto_load : bool;                     (* page.goto, 20 s *)
  page_screenshot : option string;      (* page.screenshot, base64 *)
  page_evaluate : option PageData;      (* page.evaluate *)
  completion : option (option string);  (* choices[0]?.message?.content *)
  browser_close : bool                  (* browser.close, in the finally block *)
}.

(** JSON.parse on the extracted text, seen through the members that are read
    afterwards.  [None] is a SyntaxError. *)
Variable JSON_parse : string -> option Analysis.

(** The analysis substituted when JSON.parse throws, lines 518-541. *)
Definition parse_fallback : Analysis :=
  {| score := JNum 70;
     issues := Some [JObj [
       ("category", JStr "performance");
       ("severity", JStr "medium");
       ("title", JStr "Analysis Timeout");
       ("description", JStr "The website took too long to load completely, which may indicate performance issues.");
       ("element", JStr "Page load");
       ("impact", JStr "Users may experience slow loading times")]];
     recommendations := Some [JObj [
       ("priority", JStr "medium");
       ("title", JStr "Optimize Page Load Speed");
       ("description", JStr "Improve website performance to reduce loading times");
       ("implementation", JStr "Optimize images, minify CSS/JS, use CDN, enable compression");
       ("expectedImpact", JStr "Faster loading times and better user experience");
       ("effort", JStr "medium")]];
     summary := JStr "Analysis was partially successful. The website appears to have some performance considerations that should be addressed." |}.

(** The result returned by the catch clause, lines 635-658. *)
Definition failure_result : UXAnalysisResult :=
  {| r_score := JNum 65;
     r_issues := [JObj [
       ("category", JStr "performance");
       ("severity", JStr "high");
       ("title", JStr "Website Loading Issues");
       ("description", JStr "The website failed to load properly during analysis, indicating potential performance or accessibility problems.");
       ("element", JStr "Page load");
       ("impact", JStr "Users may be unable to access the website or experience significant delays")]];
     r_recommendations := [JObj [
       ("priority", JStr "high");
       ("title", JStr "Investigate Loading Issues");
       ("description", JStr "Debug why the website fails to load reliably");
       ("implementation", JStr "Check server response times, fix broken resources, optimize critical path");
       ("expectedImpact", JStr "Improved reliability and accessibility");
       ("effort", JStr "high")]];
     r_summary := JStr "Website analysis could not be completed due to loading issues. This suggests fundamental performance problems that should be addressed." |}.

(** The three navigation attempts; the result is [pageLoaded]. *)
Definition navigate (env : Env) : result bool :=
  if goto_networkidle2 env then Ok true
  else if goto_domcontentloaded env then Ok true
  else if goto_load env then Ok true
  else Throw (Error "Failed to load page after multiple attempts").

Definition no_json_found : exn := Error "Could not extract JSON from OpenAI response".

(** Lines 504-629: from the text of the reasoning service to the result. *)
Definition synthesize (screenshot : option string) (pageData : PageData)
    (analysisContent : string) : result UXAnalysisResult :=
  match match_braces analysisContent with
  | None => Throw no_json_found
  | Some jsonMatch =>
      let analysis :=
        match JSON_parse jsonMatch with
        | Some a => a
        | None => parse_fallback
        end in
      a <- crop_stage screenshot pageData analysis ;;
      Ok (finish a)
  end.

(** The try block, lines 219-629. *)
Definition analyze_page (env : Env) : result UXAnalysisResult :=
  if negb (launch env) then Throw (Error "puppeteer.launch") else
  if negb (page_setup env) then Throw (Error "browser.newPage") else
  pageLoaded <- navigate env ;;
  if negb pageLoaded then Throw (Error "Page failed to load with all strategies") else
  let screenshot := page_screenshot env in
  let pageData :=
    match page_evaluate env with
    | Some pd => pd
    | None => minimal_pageData
    end in
  match completion env with
  | None => Throw (Error "openai.chat.completions.create")
  | Some None => Throw (Error "No analysis content received from OpenAI")
  | Some (Some analysisContent) =>
      if String.eqb analysisContent EmptyString then
        Throw (Error "No analysis content received from OpenAI")
      else synthesize screenshot pageData analysisContent
  end.

(** try / catch / finally: the catch clause returns [failure_result]; the
    finally clause closes the browser when [launch] had assigned it, and an
    exception raised there replaces the returned value. *)
Definition performUXAnalysis (env : Env) : result UXAnalysisResult :=
  let r :=
    match analyze_page env with
    | Ok r => r
    | Throw _ => failure_result
    end in
  if launch env then
    if browser_close env then Ok r else Throw (Error "browser.close")
  else Ok r.

(** ** Result Validator: the two map/filter chains of [POST] *)

Definition validCategories : list string :=
  ["layout"; "accessibility"; "conversion"; "mobile"; "performance"].
Definition validSeverities : list string := ["high"; "medium"; "low"].
Definition validPriorities : list string := ["high"; "medium"; "low"].
Definition validEfforts : list string := ["low"; "medium"; "high"].

(** [valid.includes(v.toLowerCase().trim()) ? v.toLowerCase().trim() : d] *)
Definition normalize_enum (valid : list string) (d : string) (v : JsValue)
  : result JsValue :=
  s <- lower_trim v ;;
  Ok (JStr (if array_includes valid s then s else d)).

(** The callback of [analysisResult.issues.map]. *)
Definition validate_issue (scan_id : string) (issue : JsValue) : result JsValue :=
  category0 <- get issue "category" ;;
  category <- normalize_enum validCategories "layout" category0 ;;
  severity0 <- get issue "severity" ;;
  severity <- normalize_enum validSeverities "medium" severity0 ;;
  title <- get issue "title" ;;
  description <- get issue "description" ;;
  element <- get issue "element" ;;
  impact <- get issue "impact" ;;
  screenshot <- get issue "screenshot" ;;
  bounds <- get issue "bounds" ;;
  Ok (JObj [
    ("scan_id", JStr scan_id);
    ("category", category);
    ("severity", severity);
    ("title", js_or title (JStr "UX Issue"));
    ("description", js_or description (JStr "No description provided"));
    ("element", js_or element JNull);
    ("impact", js_or impact (JStr "Impact on user experience"));
    ("screenshot", js_or screenshot JNull);
    ("bounds_x", js_or (get_opt bounds "x") JNull);
    ("bounds_y", js_or (get_opt bounds "y") JNull);
    ("bounds_width", js_or (get_opt bounds "width") JNull);
    ("bounds_height", js_or (get_opt bounds "height") JNull)]).

(** [issue => issue.title && issue.description] *)
Definition issue_complete (v : JsValue) : bool :=
  (truthy (get_opt v "title") && truthy (get_opt v "description"))%bool.

Definition normalize_issues (scan_id : string) (l : list JsValue)
  : result (list JsValue) :=
  vs <- mapM (validate_issue scan_id) l ;;
  Ok (filter issue_complete vs).

(** The callback of [analysisResult.recommendations.map]. *)
Definition validate_recommendation (scan_id : string) (rec : JsValue) : result JsValue :=
  priority0 <- get rec "priority" ;;
  priority <- normalize_enum validPriorities "medium" priority0 ;;
  title <- get rec "title" ;;
  description <- get rec "description" ;;
  implementation <- get rec "implementation" ;;
  expectedImpact <- get rec "expectedImpact" ;;
  effort0 <- get rec "effort" ;;
  effort <- normalize_enum validEfforts "medium" effort0 ;;
  screenshot <- get rec "screenshot" ;;
  Ok (JObj [
    ("scan_id", JStr scan_id);
    ("priority", priority);
    ("title", js_or title (JStr "UX Recommendation"));
    ("description", js_or description (JStr "No description provided"));
    ("implementation", js_or implementation (JStr "Implementation details not provided"));
    ("expected_impact", js_or expectedImpact (JStr "Expected improvement in user experience"));
    ("effort", effort);
    ("screenshot", js_or screenshot JNull)]).

(** [rec => rec.title && rec.description && rec.implementation] *)
Definition recommendation_complete (v : JsValue) : bool :=
  (truthy (get_opt v "title") && truthy (get_opt v "description")
   && truthy (get_opt v "implementation"))%bool.

Definition normalize_recommendations (scan_id : string) (l : list JsValue)
  : result (list JsValue) :=
  vs <- mapM (validate_recommendation scan_id) l ;;
  Ok (filter recommendation_complete vs).

(** ** Scan Orchestrator: [POST] *)

Inductive Status : Type := pending | completed | failed.

(** The writes the storage accepted, oldest first. *)
Inductive Write : Type :=
| InsertScan (id : string) (user_id url : JsValue) (status : Status)
| UpdateCompleted (id : string) (score : JsValue) (issues_found recommendations_count : nat)
    (summary : JsValue)
| UpdateFailed (id : string)
| InsertIssues (rows : list JsValue)
| InsertRecommendations (rows : list JsValue).

Record Request : Type := { req_url : JsValue; req_userId : JsValue }.

(** The answers of the request body, of the authentication service and of
    the storage. *)
Record Services : Type := {
  request_json : option Request;        (* request.json() *)
  create_client : bool;                 (* createClient() *)
  auth_error : bool;                    (* error of auth.getUser() *)
  auth_user : option string;            (* user.id *)
  insert_scan : option string;          (* id of the new row, or scanError *)
  update_completed : bool;
  insert_issues : bool;
  insert_recommendations : bool;
  update_failed : bool
}.

Inductive Response : Type :=
| ErrorResponse (http_status : Z) (message : string)
| CompletedResponse (id : string) (url score : JsValue)
    (issuesFound recommendations : nat) (summary : JsValue)
| FailedResponse (id : string).

Definition accepted (ok : bool) (w : Write) : list Write := if ok then [w] else [].

(** Lines 108-178: the two validation blocks; the state is the list of writes. *)
Definition store_issues (sv : Services) (id : string) (r : UXAnalysisResult)
  : result (list Write) :=
  match r_issues r with
  | [] => Ok []
  | _ :: _ =>
      validatedIssues <- normalize_issues id (r_issues r) ;;
      match validatedIssues with
      | [] => Ok []
      | _ :: _ => Ok (accepted (insert_issues sv) (InsertIssues validatedIssues))
      end
  end.

Definition store_recommendations (sv : Services) (id : string) (r : UXAnalysisResult)
  : result (list Write) :=
  match r_recommendations r with
  | [] => Ok []
  | _ :: _ =>
      validatedRecommendations <- normalize_recommendations id (r_recommendations r) ;;
      match validatedRecommendations with
      | [] => Ok []
      | _ :: _ =>
          Ok (accepted (insert_recommendations sv)
                (InsertRecommendations validatedRecommendations))
      end
  end.

(** The inner try block, lines 87-188, after the scan row exists: the writes
    made before an exception stay in the storage. *)
Definition run_scan (sv : Services) (env : Env) (id : string) (url : JsValue)
  : list Write * result Response :=
  match performUXAnalysis env with
  | Throw e => ([], Throw e)
  | Ok r =>
      let n_issues := List.length (r_issues r) in
      let n_recs := List.length (r_recommendations r) in
      let w1 := accepted (update_completed sv)
                  (UpdateCompleted id (r_score r) n_issues n_recs (r_summary r)) in
      match store_issues sv id r with
      | Throw e => (w1, Throw e)
      | Ok w2 =>
          match store_recommendations sv id r with
          | Throw e => ((w1 ++ w2)%list, Throw e)
          | Ok w3 =>
              ((w1 ++ w2 ++ w3)%list,
               Ok (CompletedResponse id url (r_score r) n_issues n_recs (r_summary r)))
          end
      end
  end.

Definition user_matches (u : option string) (userId : JsValue) : bool :=
  match u, userId with
  | Some uid, JStr s => String.eqb uid s
  | _, _ => false
  end.

Definition POST (sv : Services) (env : Env) : list Write * Response :=
  match request_json sv with
  | None => ([], ErrorResponse 500 "Internal server error")
  | Some req =>
      if negb (truthy (req_url req) && truthy (req_userId req)) then
        ([], ErrorResponse 400 "URL and userId are required")
      else if negb (create_client sv) then
        ([], ErrorResponse 500 "Internal server error")
      else if (auth_error sv || negb (user_matches (auth_user sv) (req_userId req)))%bool then
        ([], ErrorResponse 401 "Unauthorized")
      else
        match insert_scan sv with
        | None => ([], ErrorResponse 500 "Failed to create scan")
        | Some id =>
            let w0 := InsertScan id (req_userId req) (req_url req) pending in
            match run_scan sv env id (req_url req) with
            | (ws, Ok resp) => (w0 :: ws, resp)
            | (ws, Throw _) =>
                ((w0 :: ws) ++ accepted (update_failed sv) (UpdateFailed id),
                 FailedResponse id)%list
            end
        end
  end.

(** The successive statuses of the scan row [id] in a list of writes. *)
Fixpoint statuses (id : string) (ws : list Write) : list Status :=
  match ws with
  | [] => []
  | InsertScan i _ _ s :: r => if String.eqb i id then s :: statuses id r else statuses id r
  | UpdateCompleted i _ _ _ _ :: r =>
      if String.eqb i id then completed :: statuses id r else statuses id r
  | UpdateFailed i :: r => if String.eqb i id then failed :: statuses id r else statuses id r
  | _ :: r => statuses id r
  end.

End Pipeline.

(** ** The extraction as the specification words it

    "The first balanced span": from an opening brace to the closing brace
    that brings the nesting depth back to zero, for the first opening brace
    at which such a span exists.  [depth] counts the braces opened after the
    first one and not yet closed. *)

Fixpoint balanced_rest (depth : nat) (s : string) : option string :=
  match s with
  | EmptyString => None
  | String c r =>
      if Ascii.eqb c open_brace then option_map (String c) (balanced_rest (S depth) r)
      else if Ascii.eqb c close_brace then
        match depth with
        | O => Some (String c EmptyString)
        | S d => option_map (String c) (balanced_rest d r)
        end
      else option_map (String c) (balanced_rest depth r)
  end.

Fixpoint first_balanced_span (s : string) : option string :=
  match s with
  | EmptyString => None
  | String c r =>
      if Ascii.eqb c open_brace then
        match balanced_rest 0 r with
        | Some p => Some (String c p)
        | None => first_balanced_span r
        end
      else first_balanced_span r
  end.

(** ** Sample inputs *)

(** JSON texts are written with apostrophes in place of the double quotes. *)
Definition double_quote : ascii := ascii_of_nat 34.

Fixpoint json_text (s : string) : string :=
  match s with
  | EmptyString => EmptyString
  | String c r =>
      String (if Ascii.eqb c "'"%char then double_quote else c) (json_text r)
  end.

(** A full-page image of 1920 x 1080 pixels: [extract] succeeds on a
    non-empty region inside the image and rejects any other. *)
Definition sample_extract (img : string) (r : Region) : option string :=
  if ((0 <=? left r) && (0 <=? top r) && (0 <? width r) && (0 <? height r)
      && (left r + width r <=? 1920) && (top r + height r <=? 1080))%bool
  then Some "iVBORw0KGgoAAAANSUhEUgAA" else None.

Definition missing_title_text : string :=
  json_text "{'score':0,'issues':[{'category':'layout'}],'recommendations':[{'priority':'high'}]}".

Definition missing_category_text : string :=
  json_text "{'score':80,'issues':[{'title':'Low contrast','description':'Grey on white'}],'recommendations':[],'summary':'One issue.'}".

Definition no_issues_text : string :=
  json_text "{'score':90,'issues':[],'recommendations':[{'priority':'high','title':'Enlarge the button','description':'d','implementation':'i','expectedImpact':'e','effort':'low'}],'summary':'s'}".

Definition clean_page_text : string :=
  json_text "{'score':85,'issues':[],'recommendations':[],'summary':'Clean page.'}".

Definition zero_score_text : string :=
  json_text "{'score':0,'issues':[],'recommendations':[],'summary':''}".

Definition two_objects_text : string := json_text "{'a':1} and {'b':2}".

(** JSON.parse on the sample texts; every other text of the examples is not
    JSON. *)
Definition sample_parse (s : string) : option Analysis :=
  if String.eqb s missing_title_text then
    Some {| score := JNum 0;
            issues := Some [JObj [("category", JStr "layout")]];
            recommendations := Some [JObj [("priority", JStr "high")]];
            summary := JUndefined |}
  else if String.eqb s missing_category_text then
    Some {| score := JNum 80;
            issues := Some [JObj [("title", JStr "Low contrast");
                                  ("description", JStr "Grey on white")]];
            recommendations := Some [];
            summary := JStr "One issue." |}
  else if String.eqb s no_issues_text then
    Some {| score := JNum 90;
            issues := Some [];
            recommendations := Some [JObj [
              ("priority", JStr "high"); ("title", JStr "Enlarge the button");
              ("description", JStr "d"); ("implementation", JStr "i");
              ("expectedImpact", JStr "e"); ("effort", JStr "low")]];
            summary := JStr "s" |}
  else if String.eqb s clean_page_text then
    Some {| score := JNum 85; issues := Some []; recommendations := Some [];
            summary := JStr "Clean page." |}
  else if String.eqb s zero_score_text then
    Some {| score := JNum 0; issues := Some []; recommendations := Some [];
            summary := JStr EmptyString |}
  else None.

Definition sample_page : PageData :=
  {| viewport := {| vwidth := 1920; vheight := 1080 |};
     elementBounds := Some {|
       navigation := Some {| bx := 0; by_ := 0; bwidth := 1920; bheight := 80 |};
       header := Some {| bx := 0; by_ := 0; bwidth := 1920; bheight := 120 |};
       footer := None;
       mainContent := Some {| bx := 0; by_ := 120; bwidth := 1920; bheight := 900 |};
       primaryCTA := Some {| bx := 860; by_ := 400; bwidth := 200; bheight := 48 |};
       forms := None |} |}.

(** Every external call succeeds and the reasoning service answers [text]. *)
Definition env_answering (text : string) : Env :=
  {| launch := true; page_setup := true;
     goto_networkidle2 := true; goto_domcontentloaded := true; goto_load := true;
     page_screenshot := Some "iVBORw0KGgoAAAANSUhEUgAAB4A";
     page_evaluate := Some sample_page;
     completion := Some (Some text);
     browser_close := true |}.

(** No navigation attempt succeeds. *)
Definition env_unreachable (close : bool) : Env :=
  {| launch := true; page_setup := true;
     goto_networkidle2 := false; goto_domcontentloaded := false; goto_load := false;
     page_screenshot := None; page_evaluate := None; completion := None;
     browser_close := close |}.

(** An authenticated request, and a storage that accepts every write. *)
Definition sample_services : Services :=
  {| request_json := Some {| req_url := JStr "https://example.com";
                             req_userId := JStr "user-1" |};
     create_client := true; auth_error := false; auth_user := Some "user-1";
     insert_scan := Some "scan-1";
     update_completed := true; insert_issues := true;
     insert_recommendations := true; update_failed := true |}.

(** The no-break space U+00A0. *)
Definition nbsp : string := String (ascii_of_nat 160) EmptyString.

(** An answer with two issues: the enum members of the first are strings,
    the category of the second is null. *)
Definition null_category_text : string :=
  json_text "{'score':72,'issues':[{'category':' Mobile ','severity':'HIGH','title':'Menu overlaps the logo','description':'On a narrow screen'},{'category':null,'severity':'low','title':'Low contrast','description':'Grey on white'}],'recommendations':[],'summary':'Two issues.'}".

Definition spaced_issue : JsValue :=
  JObj [("category", JStr " Mobile "); ("severity", JStr "HIGH");
        ("title", JStr "Menu overlaps the logo");
        ("description", JStr "On a narrow screen")].

Definition null_category_issue : JsValue :=
  JObj [("category", JNull); ("severity", JStr "low");
        ("title", JStr "Low contrast"); ("description", JStr "Grey on white")].

(** A recommendation whose effort is a number. *)
Definition numeric_effort_recommendation : JsValue :=
  JObj [("priority", JStr "High"); ("title", JStr "Enlarge the button");
        ("description", JStr "The button is hard to hit");
        ("implementation", JStr "Raise the height to 48 pixels");
        ("expectedImpact", JStr "More conversions"); ("effort", JNum 2)].

(** JSON.parse on [null_category_text]. *)
Definition parse_null_category (s : string) : option Analysis :=
  if String.eqb s null_category_text then
    Some {| score := JNum 72;
            issues := Some [spaced_issue; null_category_issue];
            recommendations := Some [];
            summary := JStr "Two issues." |}
  else None.

(** A page whose first submit button lies to the right of the full-page
    image, 1920 pixels wide. *)
Definition offscreen_button_page : PageData :=
  {| viewport := {| vwidth := 1920; vheight := 1080 |};
     elementBounds := Some {|
       navigation := Some {| bx := 0; by_ := 0; bwidth := 1920; bheight := 0 |};
       header := None; footer := None; mainContent := None;
       primaryCTA := Some {| bx := 2000; by_ := 400; bwidth := 200; bheight := 48 |};
       forms := None |} |}.

(** ** Auxiliary predicates for the statements *)

Fixpoint has_char (c : ascii) (s : string) : bool :=
  match s with
  | EmptyString => false
  | String c' r => (Ascii.eqb c' c || has_char c r)%bool
  end.

Definition throws {A : Type} (r : result A) : bool :=
  match r with
  | Ok _ => false
  | Throw _ => true
  end.

(** The string value of a member belongs to a closed set. *)
Definition member_in (k : string) (valid : list string) (x : JsValue) : Prop :=
  exists s, get_opt x k = JStr s /\ In s valid.

(** Two values that differ at most in the members the crop stage writes. *)
Definition crop_equiv (x y : JsValue) : Prop :=
  forall k, k <> "screenshot" -> k <> "bounds" -> get x k = get y k.

(** Two computations that both throw, or both return related values. *)
Definition result_rel {A : Type} (R : A -> A -> Prop) (r1 r2 : result A) : Prop :=
  match r1, r2 with
  | Ok a, Ok b => R a b
  | Throw _, Throw _ => True
  | _, _ => False
  end.

Definition analysis_equiv (a b : Analysis) : Prop :=
  score a = score b /\ summary a = summary b /\
  Forall2 crop_equiv (or_empty (issues a)) (or_empty (issues b)) /\
  Forall2 crop_equiv (or_empty (recommendations a)) (or_empty (recommendations b)).

Definition outcome_equiv (a b : UXAnalysisResult) : Prop :=
  r_score a = r_score b /\ r_summary a = r_summary b /\
  Forall2 crop_equiv (r_issues a) (r_issues b) /\
  Forall2 crop_equiv (r_recommendations a) (r_recommendations b).

(** Both enum members of an issue, or of a recommendation, are strings. *)
Definition is_string (v : JsValue) : bool :=
  match v with
  | JStr _ => true
  | _ => false
  end.

Definition issue_enums_typed (x : JsValue) : bool :=
  (is_string (get_opt x "category") && is_string (get_opt x "severity"))%bool.

Definition recommendation_enums_typed (x : JsValue) : bool :=
  (is_string (get_opt x "priority") && is_string (get_opt x "effort"))%bool.

(** What a loop turn does when no image is attached. *)
Definition untouched_issue (issue : JsValue) : result JsValue :=
  match issue with
  | JUndefined | JNull => Throw TypeError
  | _ => Ok issue
  end.

Definition untouched_recommendation (rec : JsValue) : result JsValue :=
  title <- get rec "title" ;;
  match title with
  | JStr _ => Ok rec
  | _ => Throw TypeError
  end.

(** Every finding of a result has string-valued enum members. *)
Definition findings_typed (r : UXAnalysisResult) : bool :=
  (forallb issue_enums_typed (r_issues r)
   && forallb recommendation_enums_typed (r_recommendations r))%bool.

(** The request passes the input validation and the authentication, and the
    storage creates the scan row: the identifier of the row and the request. *)
Definition admitted (sv : Services) : option (string * Request) :=
  match request_json sv with
  | Some req =>
      if (truthy (req_url req) && truthy (req_userId req) && create_client sv
          && negb (auth_error sv) && user_matches (auth_user sv) (req_userId req))%bool
      then match insert_scan sv with
           | Some id => Some (id, req)
           | None => None
           end
      else None
  | None => None
  end.

(** The run gets as far as the answer [text] of the reasoning service. *)
Definition reaches_synthesis (env : Env) (text : string) : Prop :=
  launch env = true /\ page_setup env = true /\
  (goto_networkidle2 env = true \/ goto_domcontentloaded env = true
   \/ goto_load env = true) /\
  completion env = Some (Some text) /\ text <> EmptyString.

Definition pageData_of (env : Env) : PageData :=
  match page_evaluate env with
  | Some pd => pd
  | None => minimal_pageData
  end.

Definition is_nullish (v : JsValue) : bool :=
  match v with
  | JUndefined | JNull => true
  | _ => false
  end.

Definition has_string_title (r : JsValue) : bool := is_string (get_opt r "title").

(** The crop stage is skipped, or no issue is null and each of the first
    three recommendations has a string for title. *)
Definition crop_stage_completes (screenshot : option string) (a : Analysis) : bool :=
  match screenshot, issues a with
  | Some shot, Some (i :: l) =>
      (String.eqb shot EmptyString
       || (forallb (fun x => negb (is_nullish x)) (i :: l)
           && match recommendations a with
              | Some (r :: rs) => forallb has_string_title (firstn 3 (r :: rs))
              | _ => true
              end))%bool
  | _, _ => true
  end.

(** A validated issue whose four [bounds_] members are null, and a validated
    recommendation whose [expected_impact] is the placeholder. *)
Definition reset_bounds (v : JsValue) : JsValue :=
  match v with
  | JObj fs =>
      JObj (set_field (set_field (set_field (set_field fs
              "bounds_x" JNull) "bounds_y" JNull) "bounds_width" JNull)
              "bounds_height" JNull)
  | _ => v
  end.

Definition reset_expected_impact (v : JsValue) : JsValue :=
  match v with
  | JObj fs =>
      JObj (set_field fs "expected_impact"
              (JStr "Expected improvement in user experience"))
  | _ => v
  end.

(** The value an enum member takes: lower-cased and trimmed when that is a
    member of the closed set, the default otherwise. *)
Definition normalized (valid : list string) (d : string) (s : string) : string :=
  let n := trim (toLowerCase s) in
  if array_includes valid n then n else d.

(** ** The script run in the page: the callback of [page.evaluate]

    The coordinates of a DOM rectangle are host numbers; [Math.round] takes
    them to integers.  A string member that the script reads through
    [x || ''] is a string here, the empty string standing for a missing
    value.  [querySelector] is the first element of [querySelectorAll].  The
    selectors are written with apostrophes in place of the double quotes. *)

Section PageScript.

Variable num : Type.
Variable Math_round : num -> Z.

Record DomRect : Type := { rect_x : num; rect_y : num; rect_width : num; rect_height : num }.

Record DomElement : Type := {
  tagName : string;
  textContent : string;
  el_id : string;
  className : string;
  href : string;
  getBoundingClientRect : DomRect
}.

Record Document : Type := {
  doc_title : string;
  location_href : string;
  querySelectorAll : string -> option (list DomElement);  (* [None]: throws *)
  innerWidth : Z;
  innerHeight : Z;
  body_innerText : string
}.

Record ElementInfo : Type := {
  info_tagName : string;
  info_text : string;
  info_id : string;
  info_class : string;
  info_href : string;
  info_bounds : Bounds
}.

Definition round_rect (r : DomRect) : Bounds :=
  {| bx := Math_round (rect_x r); by_ := Math_round (rect_y r);
     bwidth := Math_round (rect_width r); bheight := Math_round (rect_height r) |}.

Definition element_info (el : DomElement) : ElementInfo :=
  {| info_tagName := tagName el;
     info_text := trim (substring 0 100 (textContent el));
     info_id := el_id el;
     info_class := substring 0 100 (className el);
     info_href := href el;
     info_bounds := round_rect (getBoundingClientRect el) |}.

(** At most the first 20 matches; an exception gives the empty array. *)
Definition getElementInfo (d : Document) (selector : string) : list ElementInfo :=
  match querySelectorAll d selector with
  | Some elements => map element_info (firstn 20 elements)
  | None => []
  end.

(** The rounded rectangle of the first match, or null. *)
Definition getElementBounds (d : Document) (selector : string) : option Bounds :=
  match querySelectorAll d selector with
  | Some (element :: _) => Some (round_rect (getBoundingClientRect element))
  | _ => None
  end.

(** [!!document.querySelector(selector)], outside any try block. *)
Definition has_match (d : Document) (selector : string) : result bool :=
  match querySelectorAll d selector with
  | Some (_ :: _) => Ok true
  | Some [] => Ok false
  | None => Throw (Error "querySelector")
  end.

Record ExtractedPage : Type := {
  pd_title : string;
  pd_url : string;
  pd_headings : list ElementInfo;
  pd_buttons : list ElementInfo;
  pd_links : list ElementInfo;
  pd_forms : list ElementInfo;
  pd_images : list ElementInfo;
  pd_viewport : Viewport;
  pd_bodyText : string;
  pd_hasNavigation : bool;
  pd_hasHeader : bool;
  pd_hasFooter : bool;
  pd_hasSidebar : bool;
  pd_elementBounds : option ElementBounds
}.

Definition navigation_selector : string :=
  json_text "nav, [role='navigation'], .navbar, .nav".
Definition header_selector : string := json_text "header, [role='banner'], .header".
Definition footer_selector : string :=
  json_text "footer, [role='contentinfo'], .footer".
Definition sidebar_selector : string :=
  json_text "aside, [role='complementary'], .sidebar".

(** The object returned by the callback, lines 357-383. *)
Definition page_script (d : Document) : result ExtractedPage :=
  let title := if String.eqb (doc_title d) EmptyString then "No title" else doc_title d in
  let headings := getElementInfo d "h1, h2, h3" in
  let buttons := getElementInfo d (json_text "button, [role='button'], input[type='submit'], .btn") in
  let links := getElementInfo d "a[href]" in
  let forms_ := getElementInfo d "form" in
  let images := getElementInfo d "img" in
  hasNavigation <- has_match d navigation_selector ;;
  hasHeader <- has_match d header_selector ;;
  hasFooter <- has_match d footer_selector ;;
  hasSidebar <- has_match d sidebar_selector ;;
  Ok {| pd_title := title;
        pd_url := location_href d;
        pd_headings := headings;
        pd_buttons := buttons;
        pd_links := links;
        pd_forms := forms_;
        pd_images := images;
        pd_viewport := {| vwidth := innerWidth d; vheight := innerHeight d |};
        pd_bodyText := substring 0 2000 (body_innerText d);
        pd_hasNavigation := hasNavigation;
        pd_hasHeader := hasHeader;
        pd_hasFooter := hasFooter;
        pd_hasSidebar := hasSidebar;
        pd_elementBounds := Some {|
          navigation := getElementBounds d navigation_selector;
          header := getElementBounds d header_selector;
          footer := getElementBounds d footer_selector;
          mainContent := getElementBounds d (json_text "main, [role='main'], .main-content");
          primaryCTA :=
            getElementBounds d (json_text "button[type='submit'], .btn-primary, .cta-button");
          forms := getElementBounds d "form:first-of-type" |} |}.

(** The data substituted when [page.evaluate] rejects, lines 389-403. *)
Definition fallback_page (url : string) : ExtractedPage :=
  {| pd_title := "Analysis Error";
     pd_url := url;
     pd_headings := []; pd_buttons := []; pd_links := []; pd_forms := []; pd_images := [];
     pd_viewport := {| vwidth := 1920; vheight := 1080 |};
     pd_bodyText := "Unable to extract page content";
     pd_hasNavigation := false; pd_hasHeader := false;
     pd_hasFooter := false; pd_hasSidebar := false;
     pd_elementBounds := None |}.

(** Lines 310-404; [None] is a page in which the script could not run. *)
Definition extract_page (url : string) (page : option Document) : ExtractedPage :=
  match page with
  | Some d =>
      match page_script d with
      | Ok pd => pd
      | Throw _ => fallback_page url
      end
  | None => fallback_page url
  end.

(** The part of the page data that the crop stage reads. *)
Definition crop_view (pd : ExtractedPage) : PageData :=
  {| viewport := pd_viewport pd; elementBounds := pd_elementBounds pd |}.

(** The four element lists written into the prompt, lines 419-422:
    [pageData.headings.slice(0, 5)], [pageData.buttons.slice(0, 5)],
    [pageData.links.slice(0, 5)] and [pageData.forms], which is not sliced. *)
Record PromptLists : Type := {
  prompt_headings : list ElementInfo;
  prompt_buttons : list ElementInfo;
  prompt_links : list ElementInfo;
  prompt_forms : list ElementInfo
}.

Definition prompt_lists (pd : ExtractedPage) : PromptLists :=
  {| prompt_headings := firstn 5 (pd_headings pd);
     prompt_buttons := firstn 5 (pd_buttons pd);
     prompt_links := firstn 5 (pd_links pd);
     prompt_forms := pd_forms pd |}.

End PageScript.

(** The caps of an element collection. *)
Definition bounded_info (i : ElementInfo) : Prop :=
  (String.length (info_text i) <= 100)%nat /\ (String.length (info_class i) <= 100)%nat.

Definition bounded_collection (l : list ElementInfo) : Prop :=
  (List.length l <= 20)%nat /\ Forall bounded_info l.

(** A page with one navigation element and nothing else; its coordinates
    are integers already. *)
Definition sample_document : Document Z :=
  {| doc_title := "Home"; location_href := "https://example.com/";
     querySelectorAll := fun sel =>
       if String.eqb sel navigation_selector then
         Some [{| tagName := "NAV"; textContent := "Home About"; el_id := EmptyString;
                  className := "navbar"; href := EmptyString;
                  getBoundingClientRect :=
                    {| rect_x := 0; rect_y := 0; rect_width := 1280; rect_height := 64 |} |}]
       else Some [];
     innerWidth := 1280; innerHeight := 720;
     body_innerText := "Home About" |}.

(** ** The history route: [GET] of src/app/api/scans/route.ts

    A number that may be NaN is an [option Z], [None] being NaN: a sum with
    NaN is NaN and a comparison with NaN is false. *)

Definition nan_add (a b : option Z) : option Z :=
  match a, b with
  | Some x, Some y => Some (x + y)
  | _, _ => None
  end.

Definition nan_gt (a b : option Z) : bool :=
  match a, b with
  | Some x, Some y => y <? x
  | _, _ => false
  end.

(** [v || d] on a string or null *)
Definition string_or (v : option string) (d : string) : string :=
  match v with
  | Some s => if String.eqb s EmptyString then d else s
  | None => d
  end.

Section ScansRoute.

Variable Row : Type.

(** The host function [parseInt], with one argument. *)
Variable parseInt : string -> option Z.

(** The query string, the authentication service and the storage.
    [select_scans from to] is the query ordered by creation date and
    restricted by [range(from, to)]: [None] is an error, [Some None] a null
    [data].  [count_scans] is the [count] of the second query, null when the
    query fails. *)
Record ScansServices : Type := {
  q_userId : option string;
  q_limit : option string;
  q_offset : option string;
  q_create_client : bool;
  q_auth_error : bool;
  q_auth_user : option string;
  select_scans : option Z -> option Z -> option (option (list Row));
  count_scans : option Z
}.

Inductive ScansResponse : Type :=
| ScansError (http_status : Z) (message : string)
| ScansPage (scans : list Row) (total : Z) (limit offset : option Z) (hasMore : bool).

Definition page_limit (sv : ScansServices) : option Z :=
  parseInt (string_or (q_limit sv) "10").

Definition page_offset (sv : ScansServices) : option Z :=
  parseInt (string_or (q_offset sv) "0").

(** The arguments of [range]: [offset] and [offset + limit - 1]. *)
Definition requested_range (sv : ScansServices) : option Z * option Z :=
  (page_offset sv, nan_add (nan_add (page_offset sv) (page_limit sv)) (Some (-1))).

Definition GET (sv : ScansServices) : ScansResponse :=
  let limit := page_limit sv in
  let offset := page_offset sv in
  match q_userId sv with
  | None => ScansError 400 "userId is required"
  | Some userId =>
      if String.eqb userId EmptyString then ScansError 400 "userId is required"
      else if negb (q_create_client sv) then ScansError 500 "Internal server error"
      else if (q_auth_error sv
               || negb match q_auth_user sv with
                       | Some uid => String.eqb uid userId
                       | None => false
                       end)%bool
      then ScansError 401 "Unauthorized"
      else
        match select_scans sv (fst (requested_range sv)) (snd (requested_range sv)) with
        | None => ScansError 500 "Failed to fetch scans"
        | Some data =>
            let total := match count_scans sv with
                         | Some c => c
                         | None => 0
                         end in
            ScansPage match data with Some scans => scans | None => [] end
              total limit offset
              (nan_gt (Some total) (nan_add offset limit))
        end
  end.

End ScansRoute.

(** A reading of decimal numerals, for the examples: on a string of decimal
    digits it is what [parseInt] returns. *)
Fixpoint decimal_digits (acc : Z) (s : string) : option Z :=
  match s with
  | EmptyString => Some acc
  | String c r =>
      let n := nat_of_ascii c in
      if (Nat.leb 48 n && Nat.leb n 57)%bool
      then decimal_digits (10 * acc + Z.of_nat (n - 48)) r
      else None
  end.

Definition sample_parseInt (s : string) : option Z :=
  match s with
  | EmptyString => None
  | _ => decimal_digits 0 s
  end.

(** A history with three scans, a count of 25 and no paging parameter. *)
Definition sample_history : ScansServices nat :=
  {| q_userId := Some "user-1"; q_limit := None; q_offset := Some EmptyString;
     q_create_client := true; q_auth_error := false; q_auth_user := Some "user-1";
     select_scans := fun _ _ => Some (Some [3; 2; 1]%nat);
     count_scans := Some 25 |}.

(** ** The report page: the two [reduce] calls of [ScanDetailPage]

    The accumulator is a plain object: a key that names a member of
    Object.prototype is found there, is truthy and has no [push], so the
    callback throws a TypeError.  The object is kept as an association list;
    the order in which the host enumerates the keys is not modelled. *)

Definition object_prototype_names : list string :=
  ["constructor"; "hasOwnProperty"; "isPrototypeOf"; "propertyIsEnumerable";
   "toLocaleString"; "toString"; "valueOf"; "__proto__";
   "__defineGetter__"; "__defineSetter__"; "__lookupGetter__"; "__lookupSetter__"].

Section Grouping.

Variable A : Type.
Variable key : A -> string.

(** [if (!acc[k]) acc[k] = []; acc[k].push(x)] on own keys *)
Fixpoint push_group (k : string) (x : A) (acc : list (string * list A))
  : list (string * list A) :=
  match acc with
  | [] => [(k, [x])]
  | (k', l) :: r =>
      if String.eqb k' k then (k', (l ++ [x])%list) :: r
      else (k', l) :: push_group k x r
  end.

Definition group_step (acc : result (list (string * list A))) (x : A)
  : result (list (string * list A)) :=
  a <- acc ;;
  if array_includes object_prototype_names (key x) then Throw TypeError
  else Ok (push_group (key x) x a).

(** [rows.reduce((acc, x) => ..., {})] *)
Definition group_by (rows : list A) : result (list (string * list A)) :=
  fold_left group_step rows (Ok []).

(** [groups[k] || []] *)
Fixpoint group_of (k : string) (groups : list (string * list A)) : list A :=
  match groups with
  | [] => []
  | (k', l) :: r => if String.eqb k' k then l else group_of k r
  end.

(** The recommendations as the page lists them: the groups high, medium and
    low, in this order. *)
Definition displayed_by_priority (groups : list (string * list A)) : list A :=
  (group_of "high" groups ++ group_of "medium" groups ++ group_of "low" groups)%list.

End Grouping.

(** Four stored recommendations, as pairs of a priority and a title. *)
Definition sample_recommendation_rows : list (string * string) :=
  [("low", "Compress the images"); ("high", "Enlarge the button");
   ("medium", "Shorten the form"); ("high", "Fix the contrast")].

(** * Properties *)

(** ** Region Cropper *)

Lemma crop_region_padded (b : Bounds) (vp : Viewport) :
  20 <= bx b -> 20 <= by_ b ->
  bwidth b + 40 <= vwidth vp - (bx b - 20) -> bheight b + 40 <= 400 ->
  let r := crop_region b vp in
  left r = bx b - 20 /\ top r = by_ b - 20 /\
  left r + width r = bx b + bwidth b + 20 /\
  top r + height r = by_ b + bheight b + 20.
Proof.
  intros Hx Hy Hw Hh. unfold crop_region, padding, max_crop_height. simpl.
  rewrite (Z.max_r 0 (bx b - 20)) by lia.
  rewrite (Z.max_r 0 (by_ b - 20)) by lia.
  rewrite Z.min_r by lia. rewrite Z.min_l by lia. lia.
Qed.

(** C7: the cropper pads the rectangle by 20 pixels, clamps the origin to
    non-negative coordinates, the width to at most viewport.width - cropX and
    the height to the smaller of height + 40 and 400; where nothing is
    clamped the region is the rectangle widened by 20 pixels on every side;
    the rectangle x=-10, y=0, width=50, height=500 in a viewport 1920 wide
    gives origin x=0 and height 400. *)
Theorem C7_crop_region_clamps (b : Bounds) (vp : Viewport) :
  let r := crop_region b vp in
  padding = 20 /\
  left r = Z.max 0 (bx b - padding) /\
  top r = Z.max 0 (by_ b - padding) /\
  0 <= left r /\ 0 <= top r /\
  width r = Z.min (vwidth vp - left r) (bwidth b + 2 * padding) /\
  width r <= vwidth vp - left r /\
  height r = Z.min (bheight b + 2 * padding) 400 /\
  height r <= 400 /\
  (20 <= bx b -> 20 <= by_ b ->
   bwidth b + 40 <= vwidth vp - (bx b - 20) -> bheight b + 40 <= 400 ->
   left r = bx b - 20 /\ top r = by_ b - 20 /\
   left r + width r = bx b + bwidth b + 20 /\
   top r + height r = by_ b + bheight b + 20) /\
  (forall extract img,
     captureElementScreenshot extract img b vp = extract img r) /\
  (forall h,
     let r' := crop_region {| bx := -10; by_ := 0; bwidth := 50; bheight := 500 |}
                           {| vwidth := 1920; vheight := h |} in
     left r' = 0 /\ top r' = 0 /\ height r' = 400).
Proof.
  cbv zeta.
  split; [reflexivity|].
  split; [reflexivity|].
  split; [reflexivity|].
  split; [apply Z.le_max_l|].
  split; [apply Z.le_max_l|].
  split; [unfold crop_region, padding; simpl; f_equal; lia|].
  split; [unfold crop_region; simpl; apply Z.le_min_l|].
  split; [unfold crop_region, padding, max_crop_height; simpl; f_equal; lia|].
  split; [unfold crop_region, max_crop_height; simpl; apply Z.le_min_r|].
  split; [apply crop_region_padded|].
  split; [reflexivity|].
  intros h. repeat split.
Qed.

Lemma C7_crop_region_clamps_witness :
  let r := crop_region {| bx := 100; by_ := 200; bwidth := 300; bheight := 50 |}
                       {| vwidth := 1920; vheight := 1080 |} in
  left r = 80 /\ top r = 180 /\ left r + width r = 420 /\ top r + height r = 270.
Proof.
  cbv zeta.
  apply (C7_crop_region_clamps
           {| bx := 100; by_ := 200; bwidth := 300; bheight := 50 |}
           {| vwidth := 1920; vheight := 1080 |}); simpl; lia.
Defined.

(** ** Relating two runs that differ only in the codec *)

Lemma crop_equiv_refl (x : JsValue) : crop_equiv x x.
Proof. intros k _ _. reflexivity. Qed.

Lemma crop_equiv_sym (x y : JsValue) : crop_equiv x y -> crop_equiv y x.
Proof. intros H k H1 H2. symmetry. apply H; assumption. Qed.

Lemma crop_equiv_trans (x y z : JsValue) :
  crop_equiv x y -> crop_equiv y z -> crop_equiv x z.
Proof. intros H H' k H1 H2. rewrite H by assumption. apply H'; assumption. Qed.

Lemma result_rel_sym {A : Type} (R : A -> A -> Prop) (r1 r2 : result A) :
  (forall a b, R a b -> R b a) -> result_rel R r1 r2 -> result_rel R r2 r1.
Proof. intros HR. destruct r1, r2; simpl; auto. Qed.

Lemma result_rel_trans {A : Type} (R : A -> A -> Prop) (r1 r2 r3 : result A) :
  (forall a b c, R a b -> R b c -> R a c) ->
  result_rel R r1 r2 -> result_rel R r2 r3 -> result_rel R r1 r3.
Proof.
  intros HR. destruct r1, r2, r3; simpl; try tauto. apply HR.
Qed.

Lemma Forall2_crop_equiv_refl (l : list JsValue) : Forall2 crop_equiv l l.
Proof. induction l; constructor; auto using crop_equiv_refl. Qed.

Lemma mapM_rel {A : Type} (R : A -> A -> Prop) (f g : A -> result A) (l : list A) :
  (forall x, result_rel R (f x) (g x)) ->
  result_rel (Forall2 R) (mapM f l) (mapM g l).
Proof.
  intros H. induction l as [|a l IH]; simpl.
  - constructor.
  - specialize (H a). destruct (f a), (g a); simpl in *; try tauto.
    destruct (mapM f l), (mapM g l); simpl in *; try tauto.
    constructor; assumption.
Qed.

Lemma lookup_set_field_other (fs : list (string * JsValue)) (k k' : string) (x : JsValue) :
  k <> k' -> lookup k (set_field fs k' x) = lookup k fs.
Proof.
  intros Hk. induction fs as [|[k0 v] fs IH]; simpl.
  - destruct (String.eqb k' k) eqn:E; [|reflexivity].
    apply String.eqb_eq in E. congruence.
  - destruct (String.eqb k0 k') eqn:E; simpl.
    + apply String.eqb_eq in E. subst k0.
      destruct (String.eqb k' k) eqn:E'; [|reflexivity].
      apply String.eqb_eq in E'. congruence.
    + rewrite IH. reflexivity.
Qed.

Section CropStage.

Variable extract : string -> Region -> option string.

Lemma element_screenshot_guard (shot : string) (pd : PageData) (b : Bounds) :
  bwidth b <= 0 \/ bheight b <= 0 ->
  element_screenshot extract shot pd (Some b) = None.
Proof.
  intros H. unfold element_screenshot, croppable.
  destruct (0 <? bwidth b) eqn:Hw; destruct (0 <? bheight b) eqn:Hh;
    simpl; try reflexivity.
  apply Z.ltb_lt in Hw, Hh. lia.
Qed.

Lemma element_screenshot_failure (shot : string) (pd : PageData) (b : Bounds) :
  extract shot (crop_region b (viewport pd)) = None ->
  element_screenshot extract shot pd (Some b) = None.
Proof.
  intros H. unfold element_screenshot, croppable, captureElementScreenshot.
  destruct ((0 <? bwidth b) && (0 <? bheight b))%bool; [|reflexivity].
  rewrite H. reflexivity.
Qed.

Lemma crop_issue_untouched (shot : string) (pd : PageData) (issue : JsValue) :
  result_rel crop_equiv (crop_issue extract shot pd issue) (untouched_issue issue).
Proof.
  destruct issue; simpl; try apply crop_equiv_refl; try exact I.
  destruct (element_screenshot extract shot pd _) as [[img r]|]; simpl.
  - intros k H1 H2. simpl.
    rewrite !lookup_set_field_other by assumption. reflexivity.
  - apply crop_equiv_refl.
Qed.

Lemma crop_recommendation_untouched (shot : string) (pd : PageData) (rec : JsValue) :
  result_rel crop_equiv (crop_recommendation extract shot pd rec)
    (untouched_recommendation rec).
Proof.
  unfold crop_recommendation, untouched_recommendation.
  destruct rec; simpl; try exact I.
  destruct (lookup "title" fields); simpl; try exact I.
  destruct (element_screenshot extract shot pd _) as [[img r]|]; simpl.
  - intros k H1 H2. simpl.
    rewrite lookup_set_field_other by assumption. reflexivity.
  - apply crop_equiv_refl.
Qed.

End CropStage.

Section TwoCodecs.

Variables e1 e2 : string -> Region -> option string.

Lemma crop_issue_rel (shot : string) (pd : PageData) (issue : JsValue) :
  result_rel crop_equiv (crop_issue e1 shot pd issue) (crop_issue e2 shot pd issue).
Proof.
  apply result_rel_trans with (r2 := untouched_issue issue).
  - apply crop_equiv_trans.
  - apply crop_issue_untouched.
  - apply result_rel_sym; [apply crop_equiv_sym | apply crop_issue_untouched].
Qed.

Lemma crop_recommendation_rel (shot : string) (pd : PageData) (rec : JsValue) :
  result_rel crop_equiv (crop_recommendation e1 shot pd rec)
    (crop_recommendation e2 shot pd rec).
Proof.
  apply result_rel_trans with (r2 := untouched_recommendation rec).
  - apply crop_equiv_trans.
  - apply crop_recommendation_untouched.
  - apply result_rel_sym; [apply crop_equiv_sym | apply crop_recommendation_untouched].
Qed.

Lemma crop_recommendations_rel (shot : string) (pd : PageData) (recs : list JsValue) :
  result_rel (Forall2 crop_equiv) (crop_recommendations e1 shot pd recs)
    (crop_recommendations e2 shot pd recs).
Proof.
  unfold crop_recommendations.
  pose proof (mapM_rel crop_equiv _ _ (firstn 3 recs)
                (crop_recommendation_rel shot pd)) as H.
  destruct (mapM (crop_recommendation e1 shot pd) (firstn 3 recs)),
           (mapM (crop_recommendation e2 shot pd) (firstn 3 recs));
    simpl in *; try tauto.
  apply Forall2_app; [assumption | apply Forall2_crop_equiv_refl].
Qed.

Lemma analysis_equiv_refl (a : Analysis) : analysis_equiv a a.
Proof.
  repeat split; apply Forall2_crop_equiv_refl.
Qed.

Lemma crop_stage_rel (screenshot : option string) (pd : PageData) (a : Analysis) :
  result_rel analysis_equiv (crop_stage e1 screenshot pd a) (crop_stage e2 screenshot pd a).
Proof.
  unfold crop_stage.
  destruct screenshot as [shot|]; [|apply analysis_equiv_refl].
  destruct (issues a) as [[|i l]|] eqn:Hi; try apply analysis_equiv_refl.
  destruct (String.eqb shot EmptyString); [apply analysis_equiv_refl|].
  pose proof (mapM_rel crop_equiv _ _ (i :: l) (crop_issue_rel shot pd)) as H.
  destruct (mapM (crop_issue e1 shot pd) (i :: l)) as [l1|],
           (mapM (crop_issue e2 shot pd) (i :: l)) as [l2|];
    simpl in H; try tauto; simpl.
  destruct (recommendations a) as [[|r rs]|] eqn:Hr; simpl.
  - repeat split; simpl; try assumption; constructor.
  - pose proof (crop_recommendations_rel shot pd (r :: rs)) as H'.
    destruct (crop_recommendations e1 shot pd (r :: rs)),
             (crop_recommendations e2 shot pd (r :: rs)); simpl in H'; try tauto.
    simpl. repeat split; simpl; assumption.
  - repeat split; simpl; try assumption; constructor.
Qed.

Lemma finish_equiv (a b : Analysis) : analysis_equiv a b -> outcome_equiv (finish a) (finish b).
Proof.
  intros (Hs & Hm & Hi & Hr). unfold finish, outcome_equiv; simpl.
  rewrite Hs, Hm. auto.
Qed.

Lemma outcome_equiv_refl (r : UXAnalysisResult) : outcome_equiv r r.
Proof. repeat split; apply Forall2_crop_equiv_refl. Qed.

Variable parse : string -> option Analysis.

Lemma synthesize_rel (screenshot : option string) (pd : PageData) (text : string) :
  result_rel outcome_equiv (synthesize e1 parse screenshot pd text)
    (synthesize e2 parse screenshot pd text).
Proof.
  unfold synthesize. destruct (match_braces text) as [json|]; simpl; [|exact I].
  set (a := match parse json with Some a => a | None => parse_fallback end).
  pose proof (crop_stage_rel screenshot pd a) as H.
  destruct (crop_stage e1 screenshot pd a), (crop_stage e2 screenshot pd a);
    simpl in *; try tauto.
  apply finish_equiv; assumption.
Qed.

Lemma analyze_page_rel (env : Env) :
  result_rel outcome_equiv (analyze_page e1 parse env) (analyze_page e2 parse env).
Proof.
  unfold analyze_page.
  destruct (launch env); simpl; [|exact I].
  destruct (page_setup env); simpl; [|exact I].
  destruct (navigate env) as [[|]|]; simpl; try exact I.
  destruct (completion env) as [[text|]|]; simpl; try exact I.
  destruct (String.eqb text EmptyString); simpl; [exact I|].
  apply synthesize_rel.
Qed.

Lemma performUXAnalysis_rel (env : Env) :
  result_rel outcome_equiv (performUXAnalysis e1 parse env) (performUXAnalysis e2 parse env).
Proof.
  unfold performUXAnalysis.
  pose proof (analyze_page_rel env) as H.
  destruct (analyze_page e1 parse env), (analyze_page e2 parse env);
    simpl in H; try tauto;
    destruct (launch env); simpl; try destruct (browser_close env); simpl;
    auto using outcome_equiv_refl.
Qed.

End TwoCodecs.

(** ** When the validator throws *)

Lemma mapM_throws {A B : Type} (f : A -> result B) (p : A -> bool) (l : list A) :
  (forall x, throws (f x) = negb (p x)) ->
  throws (mapM f l) = negb (forallb p l).
Proof.
  intros H. induction l as [|a l IH]; simpl; [reflexivity|].
  specialize (H a). destruct (f a); simpl in *.
  - destruct (p a); [|discriminate]. simpl.
    destruct (mapM f l); simpl in *; assumption.
  - destruct (p a); [discriminate|]. reflexivity.
Qed.

Lemma validate_issue_throws (id : string) (x : JsValue) :
  throws (validate_issue id x) = negb (issue_enums_typed x).
Proof.
  unfold validate_issue, issue_enums_typed.
  destruct x; simpl; try reflexivity.
  destruct (lookup "category" fields); simpl; try reflexivity.
  destruct (lookup "severity" fields); simpl; reflexivity.
Qed.

Lemma validate_recommendation_throws (id : string) (x : JsValue) :
  throws (validate_recommendation id x) = negb (recommendation_enums_typed x).
Proof.
  unfold validate_recommendation, recommendation_enums_typed.
  destruct x; simpl; try reflexivity.
  destruct (lookup "priority" fields); simpl; try reflexivity.
  destruct (lookup "effort" fields); simpl; reflexivity.
Qed.

Lemma get_opt_get (x : JsValue) (k : string) :
  get_opt x k = match get x k with Ok v => v | Throw _ => JUndefined end.
Proof. destruct x; reflexivity. Qed.

Lemma crop_equiv_get_opt (x y : JsValue) (k : string) :
  crop_equiv x y -> k <> "screenshot" -> k <> "bounds" -> get_opt x k = get_opt y k.
Proof.
  intros H H1 H2. rewrite !get_opt_get. rewrite (H k H1 H2). reflexivity.
Qed.

Lemma crop_equiv_issue_typed (x y : JsValue) :
  crop_equiv x y -> issue_enums_typed x = issue_enums_typed y.
Proof.
  intros H. unfold issue_enums_typed.
  rewrite (crop_equiv_get_opt (k := "category") H) by discriminate.
  rewrite (crop_equiv_get_opt (k := "severity") H) by discriminate.
  reflexivity.
Qed.

Lemma crop_equiv_recommendation_typed (x y : JsValue) :
  crop_equiv x y -> recommendation_enums_typed x = recommendation_enums_typed y.
Proof.
  intros H. unfold recommendation_enums_typed.
  rewrite (crop_equiv_get_opt (k := "priority") H) by discriminate.
  rewrite (crop_equiv_get_opt (k := "effort") H) by discriminate.
  reflexivity.
Qed.

Lemma Forall2_forallb {A : Type} (R : A -> A -> Prop) (p : A -> bool) (l1 l2 : list A) :
  (forall x y, R x y -> p x = p y) -> Forall2 R l1 l2 -> forallb p l1 = forallb p l2.
Proof.
  intros H HF. induction HF; simpl; [reflexivity|].
  rewrite (H _ _ H0), IHHF. reflexivity.
Qed.

Lemma outcome_equiv_typed (a b : UXAnalysisResult) :
  outcome_equiv a b -> findings_typed a = findings_typed b.
Proof.
  intros (_ & _ & Hi & Hr). unfold findings_typed.
  rewrite (Forall2_forallb _ crop_equiv_issue_typed Hi).
  rewrite (Forall2_forallb _ crop_equiv_recommendation_typed Hr).
  reflexivity.
Qed.

Lemma store_issues_throws (sv : Services) (id : string) (r : UXAnalysisResult) :
  throws (store_issues sv id r) = negb (forallb issue_enums_typed (r_issues r)).
Proof.
  unfold store_issues, normalize_issues.
  destruct (r_issues r) as [|x l] eqn:E; [reflexivity|].
  rewrite <- (mapM_throws (validate_issue id) issue_enums_typed (x :: l)
                (validate_issue_throws id)).
  destruct (mapM (validate_issue id) (x :: l)) as [vs|]; simpl; [|reflexivity].
  destruct (filter issue_complete vs); reflexivity.
Qed.

Lemma store_recommendations_throws (sv : Services) (id : string) (r : UXAnalysisResult) :
  throws (store_recommendations sv id r)
  = negb (forallb recommendation_enums_typed (r_recommendations r)).
Proof.
  unfold store_recommendations, normalize_recommendations.
  destruct (r_recommendations r) as [|x l] eqn:E; [reflexivity|].
  rewrite <- (mapM_throws (validate_recommendation id) recommendation_enums_typed (x :: l)
                (validate_recommendation_throws id)).
  destruct (mapM (validate_recommendation id) (x :: l)) as [vs|]; simpl; [|reflexivity].
  destruct (filter recommendation_complete vs); reflexivity.
Qed.

(** ** The statuses written by [POST] *)

Lemma statuses_app (id : string) (a b : list Write) :
  statuses id (a ++ b) = (statuses id a ++ statuses id b)%list.
Proof.
  induction a as [|w a IH]; simpl; [reflexivity|].
  destruct w; try assumption;
    destruct (String.eqb _ id); simpl; rewrite IH; reflexivity.
Qed.

Lemma store_issues_statuses (sv : Services) (id id' : string) (r : UXAnalysisResult)
    (w : list Write) :
  store_issues sv id r = Ok w -> statuses id' w = [].
Proof.
  unfold store_issues. destruct (r_issues r); [intros H; inversion H; reflexivity|].
  destruct (normalize_issues id (j :: l)) as [vs|]; simpl; [|discriminate].
  destruct vs; intros H; inversion H; [reflexivity|].
  destruct (insert_issues sv); reflexivity.
Qed.

Lemma store_recommendations_statuses (sv : Services) (id id' : string)
    (r : UXAnalysisResult) (w : list Write) :
  store_recommendations sv id r = Ok w -> statuses id' w = [].
Proof.
  unfold store_recommendations.
  destruct (r_recommendations r); [intros H; inversion H; reflexivity|].
  destruct (normalize_recommendations id (j :: l)) as [vs|]; simpl; [|discriminate].
  destruct vs; intros H; inversion H; [reflexivity|].
  destruct (insert_recommendations sv); reflexivity.
Qed.

Section Orchestrator.

Variable extract : string -> Region -> option string.
Variable parse : string -> option Analysis.

Lemma run_scan_statuses (sv : Services) (env : Env) (id : string) (url : JsValue) :
  statuses id (fst (run_scan extract parse sv env id url)) =
  match performUXAnalysis extract parse env with
  | Throw _ => []
  | Ok _ => if update_completed sv then [completed] else []
  end.
Proof.
  unfold run_scan. destruct (performUXAnalysis extract parse env) as [r|]; [|reflexivity].
  assert (Hw : forall s n m t,
             statuses id (accepted (update_completed sv) (UpdateCompleted id s n m t))
             = if update_completed sv then [completed] else []).
  { intros. destruct (update_completed sv); simpl; [|reflexivity].
    rewrite String.eqb_refl. reflexivity. }
  destruct (store_issues sv id r) as [w2|] eqn:E2; simpl; [|apply Hw].
  destruct (store_recommendations sv id r) as [w3|] eqn:E3; simpl.
  - rewrite !statuses_app, Hw.
    rewrite (store_issues_statuses _ _ id _ E2).
    rewrite (store_recommendations_statuses _ _ id _ E3).
    rewrite !app_nil_r. reflexivity.
  - rewrite statuses_app, Hw, (store_issues_statuses _ _ id _ E2).
    rewrite app_nil_r. reflexivity.
Qed.

Lemma run_scan_throws (sv : Services) (env : Env) (id : string) (url : JsValue) :
  throws (snd (run_scan extract parse sv env id url)) =
  match performUXAnalysis extract parse env with
  | Throw _ => true
  | Ok r => negb (findings_typed r)
  end.
Proof.
  unfold run_scan, findings_typed.
  destruct (performUXAnalysis extract parse env) as [r|]; [|reflexivity].
  pose proof (store_issues_throws sv id r) as H2.
  pose proof (store_recommendations_throws sv id r) as H3.
  destruct (store_issues sv id r); simpl in *.
  - destruct (forallb issue_enums_typed (r_issues r)); [|discriminate].
    destruct (store_recommendations sv id r); simpl in *; assumption.
  - destruct (forallb issue_enums_typed (r_issues r)); [discriminate|]. reflexivity.
Qed.

Lemma POST_admitted (sv : Services) (env : Env) (id : string) (req : Request) :
  admitted sv = Some (id, req) ->
  POST extract parse sv env =
  match run_scan extract parse sv env id (req_url req) with
  | (ws, Ok resp) => (InsertScan id (req_userId req) (req_url req) pending :: ws, resp)
  | (ws, Throw _) =>
      ((InsertScan id (req_userId req) (req_url req) pending :: ws)
         ++ accepted (update_failed sv) (UpdateFailed id), FailedResponse id)%list
  end.
Proof.
  unfold admitted, POST. destruct (request_json sv) as [r|]; [|discriminate].
  destruct (truthy (req_url r)), (truthy (req_userId r)), (create_client sv),
    (auth_error sv), (user_matches (auth_user sv) (req_userId r));
    simpl; try discriminate.
  destruct (insert_scan sv); [|discriminate].
  intros H; inversion H; subst. reflexivity.
Qed.

Lemma POST_rejected (sv : Services) (env : Env) :
  admitted sv = None -> fst (POST extract parse sv env) = [].
Proof.
  unfold admitted, POST. destruct (request_json sv) as [r|]; [|reflexivity].
  destruct (truthy (req_url r)), (truthy (req_userId r)), (create_client sv),
    (auth_error sv), (user_matches (auth_user sv) (req_userId r));
    simpl; try reflexivity.
  destruct (insert_scan sv); [discriminate|reflexivity].
Qed.

Lemma POST_statuses (sv : Services) (env : Env) (id : string) (req : Request) :
  admitted sv = Some (id, req) ->
  statuses id (fst (POST extract parse sv env)) =
  pending ::
  match performUXAnalysis extract parse env with
  | Throw _ => if update_failed sv then [failed] else []
  | Ok r =>
      ((if update_completed sv then [completed] else [])
       ++ (if findings_typed r then []
           else if update_failed sv then [failed] else []))%list
  end.
Proof.
  intros H. rewrite (POST_admitted sv env H).
  pose proof (run_scan_statuses sv env id (req_url req)) as Hs.
  pose proof (run_scan_throws sv env id (req_url req)) as Ht.
  assert (Hf : statuses id (accepted (update_failed sv) (UpdateFailed id))
               = if update_failed sv then [failed] else []).
  { destruct (update_failed sv); simpl; [|reflexivity].
    rewrite String.eqb_refl. reflexivity. }
  destruct (run_scan extract parse sv env id (req_url req)) as [ws [resp|e]];
    simpl in *; rewrite String.eqb_refl.
  - rewrite Hs. destruct (performUXAnalysis extract parse env) as [r|]; [|discriminate].
    destruct (findings_typed r); [|discriminate]. rewrite app_nil_r. reflexivity.
  - f_equal. rewrite statuses_app, Hs, Hf.
    destruct (performUXAnalysis extract parse env) as [r|]; [|reflexivity].
    destruct (findings_typed r); [discriminate|]. reflexivity.
Qed.

End Orchestrator.

Lemma result_rel_throws {A : Type} (R : A -> A -> Prop) (r1 r2 : result A) :
  result_rel R r1 r2 -> throws r1 = throws r2.
Proof. destruct r1, r2; simpl; tauto. Qed.

(** [captureElementScreenshot] has no test of its own on the size of the
    rectangle: the test is the condition of its two call sites, lines 572 and
    606.  Applied to a rectangle of width zero it would ask for a region 40
    pixels wide. *)
Lemma captureElementScreenshot_relies_on_the_guard :
  let b := {| bx := 0; by_ := 0; bwidth := 0; bheight := 100 |} in
  crop_region b {| vwidth := 1920; vheight := 1080 |}
  = {| left := 0; top := 0; width := 40; height := 140 |} /\
  captureElementScreenshot sample_extract "iVBORw0KGgoAAAANSUhEUgAAB4A" b
    {| vwidth := 1920; vheight := 1080 |} = Some "iVBORw0KGgoAAAANSUhEUgAA" /\
  element_screenshot sample_extract "iVBORw0KGgoAAAANSUhEUgAAB4A" sample_page (Some b)
  = None.
Proof. repeat split. Qed.

Lemma element_screenshot_absent (extract : string -> Region -> option string)
    (shot : string) (pd : PageData) (b : Bounds) :
  bwidth b <= 0 \/ bheight b <= 0 \/ extract shot (crop_region b (viewport pd)) = None ->
  element_screenshot extract shot pd (Some b) = None.
Proof.
  intros [H|[H|H]].
  - apply element_screenshot_guard. left. exact H.
  - apply element_screenshot_guard. right. exact H.
  - apply element_screenshot_failure. exact H.
Qed.

Lemma element_screenshot_codec_down (extract : string -> Region -> option string)
    (shot : string) (pd : PageData) (b : option Bounds) :
  (forall r, extract shot r = None) -> element_screenshot extract shot pd b = None.
Proof.
  intros H. destruct b as [b|]; [|reflexivity].
  apply element_screenshot_failure, H.
Qed.

Lemma mapM_unchanged {A : Type} (f : A -> result A) (l l' : list A) :
  (forall x y, f x = Ok y -> y = x) -> mapM f l = Ok l' -> l' = l.
Proof.
  intros Hf. revert l'. induction l as [|a l IH]; simpl; intros l' H.
  - injection H as <-. reflexivity.
  - destruct (f a) as [b|] eqn:E; simpl in H; [|discriminate].
    destruct (mapM f l) as [bs|]; simpl in H; [|discriminate].
    injection H as <-. rewrite (Hf _ _ E), (IH bs eq_refl). reflexivity.
Qed.

Lemma crop_issue_codec_down (extract : string -> Region -> option string)
    (shot : string) (pd : PageData) (x y : JsValue) :
  (forall r, extract shot r = None) -> crop_issue extract shot pd x = Ok y -> y = x.
Proof.
  intros H. destruct x; simpl; try discriminate;
    try (intros E; injection E as <-; reflexivity).
  rewrite element_screenshot_codec_down by exact H.
  intros E; injection E as <-; reflexivity.
Qed.

Lemma crop_recommendation_codec_down (extract : string -> Region -> option string)
    (shot : string) (pd : PageData) (x y : JsValue) :
  (forall r, extract shot r = None) ->
  crop_recommendation extract shot pd x = Ok y -> y = x.
Proof.
  intros H. unfold crop_recommendation.
  destruct x; simpl; try discriminate;
    try (intros E; injection E as <-; reflexivity).
  destruct (lookup "title" fields); try discriminate.
  rewrite element_screenshot_codec_down by exact H.
  intros E; injection E as <-; reflexivity.
Qed.

Lemma crop_stage_codec_down (extract : string -> Region -> option string)
    (shot : string) (pd : PageData) (a a' : Analysis) :
  (forall r, extract shot r = None) ->
  crop_stage extract (Some shot) pd a = Ok a' -> a' = a.
Proof.
  intros H. unfold crop_stage. destruct a as [sc [is_|] rs sm];
    cbn [issues recommendations score summary];
    [|intros E; injection E as <-; reflexivity].
  destruct is_ as [|i l]; [intros E; injection E as <-; reflexivity|].
  destruct (String.eqb shot EmptyString); [intros E; injection E as <-; reflexivity|].
  destruct (mapM (crop_issue extract shot pd) (i :: l)) as [is'|] eqn:Ei;
    cbn [bind]; [|discriminate].
  apply mapM_unchanged in Ei;
    [|intros x y; apply crop_issue_codec_down; exact H].
  subst is'.
  destruct rs as [[|r rs]|]; try (intros E; injection E as <-; reflexivity).
  unfold crop_recommendations.
  destruct (mapM (crop_recommendation extract shot pd) (firstn 3 (r :: rs)))
    as [done|] eqn:Er; cbn [bind]; [|discriminate].
  apply mapM_unchanged in Er;
    [|intros x y; apply crop_recommendation_codec_down; exact H].
  subst done. rewrite firstn_skipn.
  intros E; injection E as <-; reflexivity.
Qed.

(** C8: a crop request is the guarded call of [captureElementScreenshot]
    made for a finding at lines 572-578 and 606-612 ([element_screenshot]).
    A request whose rectangle has a width or a height of zero (or below), and
    a request at which the decode/encode step fails, gives no image and no
    exception.  The finding the request was made for, an issue or one of the
    first three recommendations, is then returned exactly as it was; when the
    request gives an image, the issue gets the image and the rectangle and the
    recommendation gets the image, and nothing else of the finding changes.
    When the codec fails at every region the crop stage returns the analysis
    it was given.  Neither an exception of the crop stage, nor an exception of
    [performUXAnalysis], nor the statuses written to the scan row depend on
    what the codec answers. *)
Theorem C8_crop_is_best_effort
    (extract : string -> Region -> option string)
    (parse : string -> option Analysis) :
  (forall img b vp,
     extract img (crop_region b vp) = None ->
     captureElementScreenshot extract img b vp = None) /\
  (forall shot pd b,
     bwidth b <= 0 \/ bheight b <= 0 ->
     element_screenshot extract shot pd (Some b) = None) /\
  (forall shot pd b,
     extract shot (crop_region b (viewport pd)) = None ->
     element_screenshot extract shot pd (Some b) = None) /\
  (forall shot pd fs b,
     issue_bounds pd (lookup "category" fs) = Some b ->
     bwidth b <= 0 \/ bheight b <= 0
     \/ extract shot (crop_region b (viewport pd)) = None ->
     crop_issue extract shot pd (JObj fs) = Ok (JObj fs)) /\
  (forall shot pd fs t b,
     lookup "title" fs = JStr t ->
     recommendation_bounds pd t = Some b ->
     bwidth b <= 0 \/ bheight b <= 0
     \/ extract shot (crop_region b (viewport pd)) = None ->
     crop_recommendation extract shot pd (JObj fs) = Ok (JObj fs)) /\
  (forall shot pd fs img r,
     element_screenshot extract shot pd (issue_bounds pd (lookup "category" fs))
     = Some (img, r) ->
     crop_issue extract shot pd (JObj fs)
     = Ok (JObj (set_field (set_field fs "screenshot" (JStr img))
                   "bounds" (bounds_value r)))) /\
  (forall shot pd fs t img r,
     lookup "title" fs = JStr t ->
     element_screenshot extract shot pd (recommendation_bounds pd t) = Some (img, r) ->
     crop_recommendation extract shot pd (JObj fs)
     = Ok (JObj (set_field fs "screenshot" (JStr img)))) /\
  (forall shot pd fs,
     (forall r, extract shot r = None) ->
     crop_issue extract shot pd (JObj fs) = Ok (JObj fs)) /\
  (forall shot pd fs t,
     (forall r, extract shot r = None) ->
     lookup "title" fs = JStr t ->
     crop_recommendation extract shot pd (JObj fs) = Ok (JObj fs)) /\
  (forall shot pd a a',
     (forall r, extract shot r = None) ->
     crop_stage extract (Some shot) pd a = Ok a' -> a' = a) /\
  (forall extract' screenshot pd a,
     throws (crop_stage extract screenshot pd a)
     = throws (crop_stage extract' screenshot pd a)) /\
  (forall extract' env,
     throws (performUXAnalysis extract parse env)
     = throws (performUXAnalysis extract' parse env)) /\
  (forall extract' sv env id req,
     admitted sv = Some (id, req) ->
     statuses id (fst (POST extract parse sv env))
     = statuses id (fst (POST extract' parse sv env))).
Proof.
  split; [intros img b vp H; exact H|].
  split; [intros; apply element_screenshot_guard; assumption|].
  split; [intros; apply element_screenshot_failure; assumption|].
  split.
  { intros shot pd fs b Hb H. simpl. rewrite Hb.
    rewrite (element_screenshot_absent extract shot pd b H). reflexivity. }
  split.
  { intros shot pd fs t b Ht Hb H. unfold crop_recommendation. simpl.
    rewrite Ht. simpl. rewrite Hb.
    rewrite (element_screenshot_absent extract shot pd b H). reflexivity. }
  split.
  { intros shot pd fs img r H. simpl. rewrite H. reflexivity. }
  split.
  { intros shot pd fs t img r Ht H. unfold crop_recommendation. simpl.
    rewrite Ht. simpl. rewrite H. reflexivity. }
  split.
  { intros shot pd fs H. simpl.
    rewrite element_screenshot_codec_down by exact H. reflexivity. }
  split.
  { intros shot pd fs t H Ht. unfold crop_recommendation. simpl.
    rewrite Ht. simpl.
    rewrite element_screenshot_codec_down by exact H. reflexivity. }
  split.
  { intros shot pd a a' H. apply crop_stage_codec_down. exact H. }
  split.
  { intros. apply result_rel_throws with (R := analysis_equiv).
    apply crop_stage_rel. }
  split.
  { intros. apply result_rel_throws with (R := outcome_equiv). apply performUXAnalysis_rel. }
  intros extract' sv env id req H.
  rewrite (POST_statuses extract parse sv env H).
  rewrite (POST_statuses extract' parse sv env H).
  pose proof (performUXAnalysis_rel extract extract' parse env) as Hr.
  destruct (performUXAnalysis extract parse env) as [r1|],
           (performUXAnalysis extract' parse env) as [r2|];
    simpl in Hr; try tauto.
  rewrite (outcome_equiv_typed Hr). reflexivity.
Qed.

(** A recommendation about a button that lies outside the full-page image, so
    that the codec rejects the region, and an issue about a navigation bar of
    height zero: both findings come back as they were. *)
Lemma C8_crop_is_best_effort_witness :
  let shot := "iVBORw0KGgoAAAANSUhEUgAAB4A" in
  let rec := [("priority", JStr "high"); ("title", JStr "Enlarge the button")] in
  let issue := [("category", JStr "layout"); ("title", JStr "Menu overlaps the logo")] in
  sample_extract shot
    (crop_region {| bx := 2000; by_ := 400; bwidth := 200; bheight := 48 |}
       (viewport offscreen_button_page)) = None /\
  crop_recommendation sample_extract shot offscreen_button_page (JObj rec)
  = Ok (JObj rec) /\
  crop_issue sample_extract shot offscreen_button_page (JObj issue) = Ok (JObj issue).
Proof.
  cbv zeta.
  pose proof (C8_crop_is_best_effort sample_extract sample_parse)
    as (_ & _ & _ & Hi & Hr & _).
  split; [reflexivity|]. split.
  - apply (Hr "iVBORw0KGgoAAAANSUhEUgAAB4A" offscreen_button_page
             [("priority", JStr "high"); ("title", JStr "Enlarge the button")]
             "Enlarge the button"
             {| bx := 2000; by_ := 400; bwidth := 200; bheight := 48 |});
      [reflexivity | reflexivity | right; right; reflexivity].
  - apply (Hi "iVBORw0KGgoAAAANSUhEUgAAB4A" offscreen_button_page
             [("category", JStr "layout"); ("title", JStr "Menu overlaps the logo")]
             {| bx := 0; by_ := 0; bwidth := 1920; bheight := 0 |});
      [reflexivity | right; left; simpl; lia].
Defined.

(** ** Extraction of the JSON text *)

Lemma upto_last_close_none (r : string) :
  upto_last_close r = None <-> has_char close_brace r = false.
Proof.
  induction r as [|c r IH]; simpl; [tauto|].
  destruct (upto_last_close r) as [p|].
  - split; [discriminate|]. intros H. apply orb_false_iff in H.
    destruct H as [_ H]. apply IH in H. discriminate.
  - destruct (Ascii.eqb c close_brace); simpl; [split; discriminate|].
    split; intros _; [apply IH|]; reflexivity.
Qed.

Lemma upto_last_close_some (r p : string) :
  upto_last_close r = Some p ->
  exists mid post,
    p = mid ++ String close_brace EmptyString /\ r = p ++ post /\
    has_char close_brace post = false.
Proof.
  revert p. induction r as [|c r IH]; simpl; intros p H; [discriminate|].
  destruct (upto_last_close r) as [p'|] eqn:E.
  - inversion H; subst p. destruct (IH p' eq_refl) as (mid & post & Hp & Hr & Hc).
    exists (String c mid), post. simpl. rewrite <- Hp, <- Hr. auto.
  - destruct (Ascii.eqb c close_brace) eqn:Ec; [|discriminate].
    inversion H; subst p. apply Ascii.eqb_eq in Ec. subst c.
    exists EmptyString, r. simpl. repeat split. apply upto_last_close_none, E.
Qed.

Lemma match_braces_some (t span : string) :
  match_braces t = Some span ->
  exists pre mid post,
    t = pre ++ span ++ post /\
    span = String open_brace (mid ++ String close_brace EmptyString) /\
    has_char open_brace pre = false /\ has_char close_brace post = false.
Proof.
  revert span. induction t as [|c t IH]; simpl; intros span H; [discriminate|].
  destruct (Ascii.eqb c open_brace) eqn:Ec.
  - apply Ascii.eqb_eq in Ec. subst c.
    destruct (upto_last_close t) as [p|] eqn:E; [|discriminate].
    inversion H; subst span.
    destruct (upto_last_close_some _ E) as (mid & post & Hp & Hr & Hc).
    exists EmptyString, mid, post. simpl. rewrite <- Hp, <- Hr. auto.
  - destruct (IH span H) as (pre & mid & post & Ht & Hs & Ho & Hc).
    exists (String c pre), mid, post. simpl. rewrite Ec, <- Ht. auto.
Qed.

Lemma match_braces_has_close (t : string) :
  match_braces t <> None -> has_char close_brace t = true.
Proof.
  induction t as [|c t IH]; simpl; [congruence|].
  destruct (Ascii.eqb c open_brace).
  - destruct (upto_last_close t) eqn:E; [|congruence]. intros _.
    destruct (has_char close_brace t) eqn:Eh; [apply orb_true_r|].
    apply upto_last_close_none in Eh. congruence.
  - intros H. rewrite (IH H). apply orb_true_r.
Qed.

Lemma balanced_rest_has_close (d : nat) (r p : string) :
  balanced_rest d r = Some p -> has_char close_brace r = true.
Proof.
  revert d p. induction r as [|c r IH]; simpl; intros d p H; [discriminate|].
  destruct (Ascii.eqb c close_brace) eqn:Ec; [reflexivity|]. simpl.
  destruct (Ascii.eqb c open_brace).
  - destruct (balanced_rest (S d) r) eqn:E; [|discriminate]. apply (IH _ _ E).
  - destruct (balanced_rest d r) eqn:E; [|discriminate]. apply (IH _ _ E).
Qed.

Lemma open_is_not_close : Ascii.eqb open_brace close_brace = false.
Proof. reflexivity. Qed.

Lemma has_close_first_balanced (r : string) :
  has_char close_brace r = true -> first_balanced_span (String open_brace r) <> None.
Proof.
  induction r as [|c r IH]; simpl; [discriminate|].
  destruct (Ascii.eqb c open_brace) eqn:Eo.
  - apply Ascii.eqb_eq in Eo. subst c. rewrite open_is_not_close. simpl.
    intros H. specialize (IH H). simpl in IH.
    destruct (balanced_rest 1 r); simpl; [discriminate|]. exact IH.
  - destruct (Ascii.eqb c close_brace) eqn:Ec; simpl; [discriminate|].
    intros H. specialize (IH H). simpl in IH.
    destruct (balanced_rest 0 r); simpl; [discriminate|]. exact IH.
Qed.

Lemma match_braces_none_iff (t : string) :
  match_braces t = None <-> first_balanced_span t = None.
Proof.
  induction t as [|c t IH]; simpl; [tauto|].
  destruct (Ascii.eqb c open_brace) eqn:Eo; [|exact IH].
  apply Ascii.eqb_eq in Eo. subst c.
  pose proof (has_close_first_balanced t) as Hf. simpl in Hf.
  destruct (upto_last_close t) as [p|] eqn:E.
  - split; [discriminate|]. intros H. exfalso. apply Hf; [|exact H].
    destruct (has_char close_brace t) eqn:Eh; [reflexivity|].
    apply upto_last_close_none in Eh. congruence.
  - split; [|reflexivity]. intros _.
    apply upto_last_close_none in E.
    destruct (balanced_rest 0 t) as [q|] eqn:Eb.
    + apply balanced_rest_has_close in Eb. congruence.
    + apply IH. destruct (match_braces t) eqn:Em; [|reflexivity].
      assert (Hm : match_braces t <> None) by congruence.
      apply match_braces_has_close in Hm. congruence.
Qed.

(** ** [performUXAnalysis]: the guarded region and the release of the browser *)

Section Synthesizer.

Variable extract : string -> Region -> option string.
Variable parse : string -> option Analysis.

Lemma navigate_loaded (env : Env) :
  goto_networkidle2 env = true \/ goto_domcontentloaded env = true
  \/ goto_load env = true ->
  navigate env = Ok true.
Proof.
  unfold navigate. intros [H|[H|H]]; rewrite H;
    destruct (goto_networkidle2 env); try reflexivity;
    destruct (goto_domcontentloaded env); reflexivity.
Qed.

Lemma analyze_page_reaches (env : Env) (text : string) :
  reaches_synthesis env text ->
  analyze_page extract parse env
  = synthesize extract parse (page_screenshot env) (pageData_of env) text.
Proof.
  intros (Hl & Hs & Hn & Hc & Ht). unfold analyze_page.
  rewrite Hl, Hs, (navigate_loaded env Hn), Hc. simpl.
  destruct (String.eqb text EmptyString) eqn:E; [|reflexivity].
  apply String.eqb_eq in E. contradiction.
Qed.

Lemma performUXAnalysis_released (env : Env) :
  launch env = false \/ browser_close env = true ->
  performUXAnalysis extract parse env =
  Ok match analyze_page extract parse env with
     | Ok r => r
     | Throw _ => failure_result
     end.
Proof.
  unfold performUXAnalysis. intros [H|H]; rewrite H; [reflexivity|].
  destruct (launch env); reflexivity.
Qed.

Lemma performUXAnalysis_throws (env : Env) :
  throws (performUXAnalysis extract parse env)
  = (launch env && negb (browser_close env))%bool.
Proof.
  unfold performUXAnalysis.
  destruct (launch env), (browser_close env); reflexivity.
Qed.

Lemma analyze_page_unreachable (env : Env) :
  launch env = true -> page_setup env = true ->
  goto_networkidle2 env = false -> goto_domcontentloaded env = false ->
  goto_load env = false ->
  analyze_page extract parse env
  = Throw (Error "Failed to load page after multiple attempts").
Proof.
  intros H1 H2 H3 H4 H5. unfold analyze_page, navigate.
  rewrite H1, H2, H3, H4, H5. reflexivity.
Qed.

Lemma synthesize_no_span (screenshot : option string) (pd : PageData) (text : string) :
  match_braces text = None ->
  synthesize extract parse screenshot pd text = Throw no_json_found.
Proof. unfold synthesize. intros H. rewrite H. reflexivity. Qed.

Lemma synthesize_span (screenshot : option string) (pd : PageData) (text span : string) :
  match_braces text = Some span ->
  synthesize extract parse screenshot pd text =
  (a <- crop_stage extract screenshot pd
          match parse span with Some a => a | None => parse_fallback end ;;
   Ok (finish a)).
Proof. unfold synthesize. intros H. rewrite H. reflexivity. Qed.

End Synthesizer.

(** C2, as stated, fails: on a text that holds two objects the extracted span
    runs to the last closing brace, it is not the first balanced span. *)
Lemma C2_greedy_span_is_not_first_balanced :
  match_braces two_objects_text = Some two_objects_text /\
  first_balanced_span two_objects_text = Some (json_text "{'a':1}") /\
  match_braces two_objects_text <> first_balanced_span two_objects_text.
Proof. repeat split. discriminate. Qed.

(** C2 (amended): the span handed to JSON.parse runs from the first opening
    brace of the response text to its last closing brace; a text has such a
    span exactly when it has a balanced span; for a text with none the
    extraction raises the error "Could not extract JSON from OpenAI response",
    which [performUXAnalysis] catches itself: the caller receives the result
    of the catch clause, not an error. *)
Theorem C2_extraction_first_open_to_last_close
    (extract : string -> Region -> option string)
    (parse : string -> option Analysis) (text : string) :
  (forall span, match_braces text = Some span ->
     (exists pre mid post,
        text = pre ++ span ++ post /\
        span = String open_brace (mid ++ String close_brace EmptyString) /\
        has_char open_brace pre = false /\ has_char close_brace post = false) /\
     forall screenshot pd,
       synthesize extract parse screenshot pd text =
       (a <- crop_stage extract screenshot pd
               match parse span with Some a => a | None => parse_fallback end ;;
        Ok (finish a))) /\
  (match_braces text = None <-> first_balanced_span text = None) /\
  (match_braces text = None ->
     (forall screenshot pd,
        synthesize extract parse screenshot pd text = Throw no_json_found) /\
     forall env, reaches_synthesis env text -> browser_close env = true ->
        performUXAnalysis extract parse env = Ok failure_result).
Proof.
  split.
  { intros span H. split; [apply match_braces_some, H|].
    intros. apply synthesize_span, H. }
  split; [apply match_braces_none_iff|].
  intros H. split; [intros; apply synthesize_no_span, H|].
  intros env Hr Hc.
  rewrite performUXAnalysis_released by (right; exact Hc).
  rewrite (analyze_page_reaches extract parse Hr).
  rewrite synthesize_no_span by exact H. reflexivity.
Qed.

Lemma C2_extraction_first_open_to_last_close_witness :
  performUXAnalysis sample_extract sample_parse (env_answering "not json at all")
  = Ok failure_result.
Proof.
  apply (proj2 (proj2 (C2_extraction_first_open_to_last_close
                         sample_extract sample_parse "not json at all"))).
  - reflexivity.
  - unfold reaches_synthesis; simpl. repeat split; auto. discriminate.
  - reflexivity.
Defined.

(** C3, as stated, fails: when no navigation attempt succeeds and closing the
    browser in the finally clause fails as well, the error of
    [browser.close] reaches the caller. *)
Lemma C3_close_failure_propagates :
  analyze_page sample_extract sample_parse (env_unreachable false)
  = Throw (Error "Failed to load page after multiple attempts") /\
  performUXAnalysis sample_extract sample_parse (env_unreachable false)
  = Throw (Error "browser.close").
Proof. split; reflexivity. Qed.

(** C3 (amended): for every exception raised inside the try block (a failure
    of the renderer, of the reasoning service or of the synthesis), and
    provided the release of the browser in the finally clause does not itself
    fail, [performUXAnalysis] returns the result of the catch clause: score
    65, exactly one issue of category performance and severity high, exactly
    one recommendation of priority high; no error reaches the caller. *)
Theorem C3_failure_gives_failure_result
    (extract : string -> Region -> option string)
    (parse : string -> option Analysis) (env : Env) (e : exn) :
  analyze_page extract parse env = Throw e ->
  launch env = false \/ browser_close env = true ->
  exists r issue rec,
    performUXAnalysis extract parse env = Ok r /\
    r_score r = JNum 65 /\
    r_issues r = [issue] /\
    get_opt issue "category" = JStr "performance" /\
    get_opt issue "severity" = JStr "high" /\
    r_recommendations r = [rec] /\
    get_opt rec "priority" = JStr "high" /\
    truthy (r_summary r) = true.
Proof.
  intros H Hc. rewrite (performUXAnalysis_released extract parse env Hc), H.
  eexists _, _, _. repeat split.
Qed.

Lemma C3_failure_gives_failure_result_witness :
  exists r issue rec,
    performUXAnalysis sample_extract sample_parse (env_unreachable true) = Ok r /\
    r_score r = JNum 65 /\
    r_issues r = [issue] /\
    get_opt issue "category" = JStr "performance" /\
    get_opt issue "severity" = JStr "high" /\
    r_recommendations r = [rec] /\
    get_opt rec "priority" = JStr "high" /\
    truthy (r_summary r) = true.
Proof.
  apply (C3_failure_gives_failure_result sample_extract sample_parse
           (env_unreachable true)
           (e := Error "Failed to load page after multiple attempts")).
  - reflexivity.
  - right. reflexivity.
Defined.

(** ** The analysis substituted when the span is not JSON *)

Lemma crop_stage_parse_fallback
    (extract : string -> Region -> option string)
    (screenshot : option string) (pd : PageData) :
  exists a' issue rec,
    crop_stage extract screenshot pd parse_fallback = Ok a' /\
    score a' = JNum 70 /\
    issues a' = Some [issue] /\
    get_opt issue "category" = JStr "performance" /\
    get_opt issue "severity" = JStr "medium" /\
    recommendations a' = Some [rec] /\
    get_opt rec "priority" = JStr "medium" /\
    get_opt rec "effort" = JStr "medium".
Proof.
  unfold crop_stage.
  destruct screenshot as [shot|]; [|eexists _, _, _; repeat split].
  change (issues parse_fallback) with (Some [JObj [
       ("category", JStr "performance");
       ("severity", JStr "medium");
       ("title", JStr "Analysis Timeout");
       ("description", JStr "The website took too long to load completely, which may indicate performance issues.");
       ("element", JStr "Page load");
       ("impact", JStr "Users may experience slow loading times")]]).
  cbv iota beta.
  destruct (String.eqb shot EmptyString); [eexists _, _, _; repeat split|].
  unfold mapM, crop_issue.
  match goal with
  | |- context [element_screenshot ?e ?s ?p ?b] =>
      destruct (element_screenshot e s p b) as [[img r]|]
  end; eexists _, _, _; (split; [reflexivity|]); repeat split.
Qed.

(** C1, as stated, fails on its own example: the text "not json at all" has
    no brace, the extraction raises, and the catch clause answers with score
    65 and a finding of severity high, not with the score-70 fallback. *)
Lemma C1_not_json_at_all_gives_score_65 :
  match_braces "not json at all" = None /\
  exists r issue,
    performUXAnalysis sample_extract sample_parse (env_answering "not json at all")
    = Ok r /\
    r_score r = JNum 65 /\ r_score r <> JNum 70 /\
    r_issues r = [issue] /\ get_opt issue "severity" = JStr "high".
Proof.
  split; [reflexivity|]. eexists _, _. split; [reflexivity|].
  repeat split. discriminate.
Qed.

(** C1 (amended): for every response whose extracted brace span is not valid
    JSON, and provided the release of the browser does not fail,
    [performUXAnalysis] returns the fixed fallback: score 70, exactly one
    issue of category performance and severity medium, exactly one
    recommendation of priority medium and effort medium; a response with no
    brace span (such as "not json at all") gets the result of the catch
    clause instead (score 65). *)
Theorem C1_unparsable_span_gives_parse_fallback
    (extract : string -> Region -> option string)
    (parse : string -> option Analysis) (env : Env) (text : string) :
  reaches_synthesis env text ->
  browser_close env = true ->
  (forall span,
     match_braces text = Some span -> parse span = None ->
     exists r issue rec,
       performUXAnalysis extract parse env = Ok r /\
       r_score r = JNum 70 /\
       r_issues r = [issue] /\
       get_opt issue "category" = JStr "performance" /\
       get_opt issue "severity" = JStr "medium" /\
       r_recommendations r = [rec] /\
       get_opt rec "priority" = JStr "medium" /\
       get_opt rec "effort" = JStr "medium") /\
  (match_braces text = None ->
   performUXAnalysis extract parse env = Ok failure_result).
Proof.
  intros Hr Hc. split.
  - intros span Hm Hp.
    rewrite performUXAnalysis_released by (right; exact Hc).
    rewrite (analyze_page_reaches extract parse Hr).
    rewrite (synthesize_span extract parse _ _ _ Hm), Hp.
    destruct (crop_stage_parse_fallback extract (page_screenshot env) (pageData_of env))
      as (a' & issue & rec & Ha & Hs & Hi & Hic & His & Hrs & Hrp & Hre).
    rewrite Ha. simpl. exists (finish a'), issue, rec.
    unfold finish; simpl. rewrite Hs, Hi, Hrs. simpl. auto 10.
  - intros Hm.
    rewrite performUXAnalysis_released by (right; exact Hc).
    rewrite (analyze_page_reaches extract parse Hr).
    rewrite synthesize_no_span by exact Hm. reflexivity.
Qed.

Lemma C1_unparsable_span_gives_parse_fallback_witness :
  exists r issue rec,
    performUXAnalysis sample_extract sample_parse (env_answering "{not json at all}")
    = Ok r /\
    r_score r = JNum 70 /\
    r_issues r = [issue] /\
    get_opt issue "category" = JStr "performance" /\
    get_opt issue "severity" = JStr "medium" /\
    r_recommendations r = [rec] /\
    get_opt rec "priority" = JStr "medium" /\
    get_opt rec "effort" = JStr "medium".
Proof.
  apply (proj1 (C1_unparsable_span_gives_parse_fallback sample_extract sample_parse
                  (env := env_answering "{not json at all}")
                  (text := "{not json at all}")
                  ltac:(unfold reaches_synthesis; simpl; repeat split; auto; discriminate)
                  eq_refl)
               "{not json at all}"); reflexivity.
Defined.

(** ** When the crop stage throws *)

Section CropStageThrows.

Variable extract : string -> Region -> option string.

Lemma crop_issue_throws (shot : string) (pd : PageData) (x : JsValue) :
  throws (crop_issue extract shot pd x) = negb (negb (is_nullish x)).
Proof.
  rewrite (@result_rel_throws _ _ _ _ (crop_issue_untouched extract shot pd x)).
  destruct x; reflexivity.
Qed.

Lemma crop_recommendation_throws (shot : string) (pd : PageData) (x : JsValue) :
  throws (crop_recommendation extract shot pd x) = negb (has_string_title x).
Proof.
  rewrite (@result_rel_throws _ _ _ _ (crop_recommendation_untouched extract shot pd x)).
  unfold untouched_recommendation, has_string_title.
  destruct x; simpl; try reflexivity.
  destruct (lookup "title" fields); reflexivity.
Qed.

Lemma crop_recommendations_throws (shot : string) (pd : PageData) (l : list JsValue) :
  throws (crop_recommendations extract shot pd l)
  = negb (forallb has_string_title (firstn 3 l)).
Proof.
  unfold crop_recommendations.
  rewrite <- (mapM_throws (crop_recommendation extract shot pd) has_string_title
                (firstn 3 l) (crop_recommendation_throws shot pd)).
  destruct (mapM (crop_recommendation extract shot pd) (firstn 3 l)); reflexivity.
Qed.

Lemma crop_stage_throws (screenshot : option string) (pd : PageData) (a : Analysis) :
  throws (crop_stage extract screenshot pd a) = negb (crop_stage_completes screenshot a).
Proof.
  unfold crop_stage, crop_stage_completes.
  destruct screenshot as [shot|]; [|reflexivity].
  destruct (issues a) as [[|i l]|]; try reflexivity.
  destruct (String.eqb shot EmptyString); [reflexivity|]. cbv beta iota. rewrite orb_false_l.
  pose proof (mapM_throws (crop_issue extract shot pd) (fun x => negb (is_nullish x))
                (i :: l) (crop_issue_throws shot pd)) as H.
  destruct (mapM (crop_issue extract shot pd) (i :: l)) as [is'|];
    cbn [throws bind] in *.
  - destruct (forallb (fun x => negb (is_nullish x)) (i :: l)); [|discriminate].
    rewrite andb_true_l.
    destruct (recommendations a) as [[|r rs]|]; try reflexivity.
    pose proof (crop_recommendations_throws shot pd (r :: rs)) as H'.
    destruct (crop_recommendations extract shot pd (r :: rs)); exact H'.
  - destruct (forallb (fun x => negb (is_nullish x)) (i :: l)); [discriminate|].
    reflexivity.
Qed.

Lemma crop_stage_keeps_score (screenshot : option string) (pd : PageData)
    (a a' : Analysis) :
  crop_stage extract screenshot pd a = Ok a' ->
  score a' = score a /\ summary a' = summary a.
Proof.
  unfold crop_stage.
  destruct screenshot as [shot|]; [|intros H; inversion H; auto].
  destruct (issues a) as [[|i l]|]; try (intros H; inversion H; auto; fail).
  destruct (String.eqb shot EmptyString); [intros H; inversion H; auto|].
  destruct (mapM (crop_issue extract shot pd) (i :: l)) as [is'|]; simpl; [|discriminate].
  destruct (recommendations a) as [[|r rs]|];
    try (intros H; inversion H; auto; fail).
  destruct (crop_recommendations extract shot pd (r :: rs)); simpl; [|discriminate].
  intros H; inversion H; auto.
Qed.

End CropStageThrows.

(** C10, as stated, fails: a parsed analysis with score 0 whose
    recommendation has no title makes the crop stage throw, and the function
    returns the result of the catch clause, with score 65. *)
Lemma C10_zero_score_can_give_65 :
  match_braces missing_title_text = Some missing_title_text /\
  option_map score (sample_parse missing_title_text) = Some (JNum 0) /\
  exists r,
    performUXAnalysis sample_extract sample_parse (env_answering missing_title_text)
    = Ok r /\
    r_score r = JNum 65 /\ r_score r <> JNum 70.
Proof.
  split; [reflexivity|]. split; [reflexivity|].
  eexists. split; [reflexivity|]. split; [reflexivity|discriminate].
Qed.

(** C10 (amended): the defaults of the return statement apply to every falsy
    value: for every successfully parsed analysis whose score is 0, null or
    absent, [performUXAnalysis] returns score 70, and an empty or absent
    summary is replaced by the fixed sentence, whenever the crop stage between
    the parse and the return raises no exception (it is skipped, or no issue
    is null and each of the first three recommendations has a string for
    title) and the release of the browser does not fail. *)
Theorem C10_falsy_fields_take_defaults
    (extract : string -> Region -> option string)
    (parse : string -> option Analysis) (env : Env) (text span : string)
    (a : Analysis) :
  reaches_synthesis env text ->
  browser_close env = true ->
  match_braces text = Some span ->
  parse span = Some a ->
  crop_stage_completes (page_screenshot env) a = true ->
  exists r,
    performUXAnalysis extract parse env = Ok r /\
    r_score r = js_or (score a) (JNum 70) /\
    r_summary r = js_or (summary a) (JStr default_summary) /\
    (truthy (score a) = false -> r_score r = JNum 70) /\
    (score a = JNum 0 \/ score a = JNull \/ score a = JUndefined ->
     r_score r = JNum 70) /\
    (summary a = JStr EmptyString \/ summary a = JUndefined ->
     r_summary r = JStr default_summary).
Proof.
  intros Hr Hc Hm Hp Hs.
  rewrite performUXAnalysis_released by (right; exact Hc).
  rewrite (analyze_page_reaches extract parse Hr).
  rewrite (synthesize_span extract parse _ _ _ Hm), Hp.
  pose proof (crop_stage_throws extract (page_screenshot env) (pageData_of env) a) as Ht.
  rewrite Hs in Ht.
  destruct (crop_stage extract (page_screenshot env) (pageData_of env) a) as [a'|] eqn:E;
    [|discriminate].
  destruct (crop_stage_keeps_score _ _ _ _ E) as [H1 H2].
  simpl. exists (finish a'). unfold finish; simpl. rewrite H1, H2.
  split; [reflexivity|]. split; [reflexivity|]. split; [reflexivity|].
  split; [intros H; unfold js_or; rewrite H; reflexivity|].
  split.
  - intros [H|[H|H]]; rewrite H; reflexivity.
  - intros [H|H]; rewrite H; reflexivity.
Qed.

Lemma C10_falsy_fields_take_defaults_witness :
  exists r,
    performUXAnalysis sample_extract sample_parse (env_answering zero_score_text) = Ok r /\
    r_score r = JNum 70 /\ r_summary r = JStr default_summary.
Proof.
  destruct (C10_falsy_fields_take_defaults sample_extract sample_parse
              (env := env_answering zero_score_text) (text := zero_score_text)
              (span := zero_score_text)
              (a := {| score := JNum 0; issues := Some []; recommendations := Some [];
                       summary := JStr EmptyString |})
              ltac:(unfold reaches_synthesis; simpl; repeat split; auto; discriminate)
              eq_refl eq_refl eq_refl eq_refl)
    as (r & H & _ & _ & _ & Hs & Hm).
  exists r. split; [exact H|]. split; [apply Hs; left; reflexivity|].
  apply Hm; left; reflexivity.
Defined.

(** ** Which findings the crop stage visits *)

Lemma crop_stage_without_issues
    (extract : string -> Region -> option string)
    (screenshot : option string) (pd : PageData) (a : Analysis) :
  or_empty (issues a) = [] -> crop_stage extract screenshot pd a = Ok a.
Proof.
  unfold crop_stage. destruct screenshot; [|reflexivity].
  destruct (issues a) as [[|i l]|]; simpl; try reflexivity. discriminate.
Qed.

Lemma crop_stage_with_issues
    (extract : string -> Region -> option string)
    (shot : string) (pd : PageData) (a a' : Analysis) (i : JsValue) (l : list JsValue) :
  shot <> EmptyString -> issues a = Some (i :: l) ->
  crop_stage extract (Some shot) pd a = Ok a' ->
  (exists is', mapM (crop_issue extract shot pd) (i :: l) = Ok is' /\
               issues a' = Some is') /\
  (forall r rs, recommendations a = Some (r :: rs) ->
     exists rs', mapM (crop_recommendation extract shot pd) (firstn 3 (r :: rs)) = Ok rs' /\
                 recommendations a' = Some (rs' ++ skipn 3 (r :: rs))%list).
Proof.
  intros Hs Hi. unfold crop_stage. rewrite Hi.
  destruct (String.eqb shot EmptyString) eqn:E;
    [apply String.eqb_eq in E; contradiction|].
  destruct (mapM (crop_issue extract shot pd) (i :: l)) as [is'|];
    cbn [bind]; [|discriminate].
  destruct (recommendations a) as [[|r rs]|] eqn:Hr.
  - intros H; inversion H; simpl. split; [eauto|]. discriminate.
  - unfold crop_recommendations.
    destruct (mapM (crop_recommendation extract shot pd) (firstn 3 (r :: rs)))
      as [rs'|] eqn:Em; cbn [bind]; [|discriminate].
    intros H; inversion H; simpl. split; [eauto|].
    intros r0 rs0 H0. inversion H0; subst. exists rs'. split; [exact Em|reflexivity].
  - intros H; inversion H; simpl. split; [eauto|]. discriminate.
Qed.

(** C9: the code departs from the claim.  With a full-page image, no issue
    and one recommendation whose title names the button, the cropper run on
    that recommendation attaches an image, but [performUXAnalysis] returns
    the recommendation without one: the loop over the recommendations is
    inside the branch that needs at least one issue. *)
Theorem C9_recommendations_skipped_without_issues :
  let rec := JObj [("priority", JStr "high"); ("title", JStr "Enlarge the button");
                   ("description", JStr "d"); ("implementation", JStr "i");
                   ("expectedImpact", JStr "e"); ("effort", JStr "low")] in
  page_screenshot (env_answering no_issues_text) = Some "iVBORw0KGgoAAAANSUhEUgAAB4A" /\
  crop_recommendation sample_extract "iVBORw0KGgoAAAANSUhEUgAAB4A" sample_page rec
  = Ok (JObj [("priority", JStr "high"); ("title", JStr "Enlarge the button");
              ("description", JStr "d"); ("implementation", JStr "i");
              ("expectedImpact", JStr "e"); ("effort", JStr "low");
              ("screenshot", JStr "iVBORw0KGgoAAAANSUhEUgAA")]) /\
  performUXAnalysis sample_extract sample_parse (env_answering no_issues_text)
  = Ok {| r_score := JNum 90; r_issues := []; r_recommendations := [rec];
          r_summary := JStr "s" |}.
Proof. repeat split. Qed.

(** C4: the code departs from the claim.  The reasoning service answers with
    an issue that has no category; the analysis completes and the scan row is
    updated to completed with score 80; the validation of the issues then
    throws inside the same try block, and the catch clause updates the row to
    failed: the row goes pending, completed, failed and keeps its score. *)
Theorem C4_completed_scan_turns_failed :
  POST sample_extract sample_parse sample_services (env_answering missing_category_text)
  = ([InsertScan "scan-1" (JStr "user-1") (JStr "https://example.com") pending;
      UpdateCompleted "scan-1" (JNum 80) 1 0 (JStr "One issue.");
      UpdateFailed "scan-1"],
     FailedResponse "scan-1") /\
  statuses "scan-1"
    (fst (POST sample_extract sample_parse sample_services
            (env_answering missing_category_text)))
  = [pending; completed; failed].
Proof. split; reflexivity. Qed.

(** ** Result Validator *)

Lemma truthy_js_or (x d : JsValue) : truthy d = true -> truthy (js_or x d) = true.
Proof. intros H. unfold js_or. destruct (truthy x) eqn:E; assumption. Qed.

Lemma js_or_idempotent (x d : JsValue) : js_or (js_or x d) d = js_or x d.
Proof.
  unfold js_or. destruct (truthy x) eqn:E; [rewrite E; reflexivity|].
  destruct (truthy d); reflexivity.
Qed.

Lemma mapM_Forall2 {A B : Type} (f : A -> result B) (l : list A) (vs : list B) :
  mapM f l = Ok vs -> Forall2 (fun x v => f x = Ok v) l vs.
Proof.
  revert vs. induction l as [|a l IH]; simpl; intros vs H.
  - inversion H. constructor.
  - destruct (f a) as [b|] eqn:E; simpl in H; [|discriminate].
    destruct (mapM f l) as [bs|]; simpl in H; [|discriminate].
    inversion H. constructor; auto.
Qed.

Lemma filter_all {A : Type} (p : A -> bool) (l : list A) :
  Forall (fun x => p x = true) l -> filter p l = l.
Proof.
  induction 1 as [|x l Hx _ IH]; simpl; [reflexivity|]. rewrite Hx, IH. reflexivity.
Qed.

Lemma validate_issue_shape (id : string) (x v : JsValue) :
  validate_issue id x = Ok v ->
  exists fs c s,
    x = JObj fs /\ lookup "category" fs = JStr c /\ lookup "severity" fs = JStr s /\
    v = JObj [
      ("scan_id", JStr id);
      ("category", JStr (normalized validCategories "layout" c));
      ("severity", JStr (normalized validSeverities "medium" s));
      ("title", js_or (lookup "title" fs) (JStr "UX Issue"));
      ("description", js_or (lookup "description" fs) (JStr "No description provided"));
      ("element", js_or (lookup "element" fs) JNull);
      ("impact", js_or (lookup "impact" fs) (JStr "Impact on user experience"));
      ("screenshot", js_or (lookup "screenshot" fs) JNull);
      ("bounds_x", js_or (get_opt (lookup "bounds" fs) "x") JNull);
      ("bounds_y", js_or (get_opt (lookup "bounds" fs) "y") JNull);
      ("bounds_width", js_or (get_opt (lookup "bounds" fs) "width") JNull);
      ("bounds_height", js_or (get_opt (lookup "bounds" fs) "height") JNull)].
Proof.
  unfold validate_issue. destruct x; simpl; try discriminate.
  destruct (lookup "category" fields) eqn:Ec; simpl; try discriminate.
  destruct (lookup "severity" fields) eqn:Es; simpl; try discriminate.
  intros H. injection H as <-. exists fields, s, s0. repeat split; auto.
Qed.

Lemma validate_recommendation_shape (id : string) (x v : JsValue) :
  validate_recommendation id x = Ok v ->
  exists fs p e,
    x = JObj fs /\ lookup "priority" fs = JStr p /\ lookup "effort" fs = JStr e /\
    v = JObj [
      ("scan_id", JStr id);
      ("priority", JStr (normalized validPriorities "medium" p));
      ("title", js_or (lookup "title" fs) (JStr "UX Recommendation"));
      ("description", js_or (lookup "description" fs) (JStr "No description provided"));
      ("implementation",
       js_or (lookup "implementation" fs) (JStr "Implementation details not provided"));
      ("expected_impact",
       js_or (lookup "expectedImpact" fs) (JStr "Expected improvement in user experience"));
      ("effort", JStr (normalized validEfforts "medium" e));
      ("screenshot", js_or (lookup "screenshot" fs) JNull)].
Proof.
  unfold validate_recommendation. destruct x; simpl; try discriminate.
  destruct (lookup "priority" fields) eqn:Ep; simpl; try discriminate.
  destruct (lookup "effort" fields) eqn:Ee; simpl; try discriminate.
  intros H. injection H as <-. exists fields, s, s0. repeat split; auto.
Qed.

Lemma validate_issue_complete (id : string) (x v : JsValue) :
  validate_issue id x = Ok v -> issue_complete v = true.
Proof.
  intros H. destruct (validate_issue_shape _ _ H) as (fs & c & s & _ & _ & _ & Hv).
  subst v. unfold issue_complete. simpl.
  rewrite !truthy_js_or by reflexivity. reflexivity.
Qed.

Lemma validate_recommendation_complete (id : string) (x v : JsValue) :
  validate_recommendation id x = Ok v -> recommendation_complete v = true.
Proof.
  intros H. destruct (validate_recommendation_shape _ _ H) as (fs & p & e & _ & _ & _ & Hv).
  subst v. unfold recommendation_complete. simpl.
  rewrite !truthy_js_or by reflexivity. reflexivity.
Qed.

Lemma normalize_issues_mapM (id : string) (l vs : list JsValue) :
  normalize_issues id l = Ok vs <-> mapM (validate_issue id) l = Ok vs.
Proof.
  unfold normalize_issues.
  destruct (mapM (validate_issue id) l) as [ws|] eqn:E; simpl; [|tauto].
  rewrite filter_all; [tauto|].
  apply mapM_Forall2 in E. clear -E.
  induction E; constructor; eauto using validate_issue_complete.
Qed.

Lemma normalize_recommendations_mapM (id : string) (l vs : list JsValue) :
  normalize_recommendations id l = Ok vs <-> mapM (validate_recommendation id) l = Ok vs.
Proof.
  unfold normalize_recommendations.
  destruct (mapM (validate_recommendation id) l) as [ws|] eqn:E; simpl; [|tauto].
  rewrite filter_all; [tauto|].
  apply mapM_Forall2 in E. clear -E.
  induction E; constructor; eauto using validate_recommendation_complete.
Qed.

Lemma mapM_length {A B : Type} (f : A -> result B) (l : list A) (vs : list B) :
  mapM f l = Ok vs -> List.length vs = List.length l.
Proof.
  intros H. apply mapM_Forall2 in H. symmetry. exact (Forall2_length H).
Qed.

(** Where the enum members of a finding are strings, the validator
    lower-cases and trims category, severity, priority and effort and
    replaces a value outside the closed set by layout, medium, medium,
    medium; the finding is returned and passes the filter whatever the
    strings are, and a list of such findings keeps its length. *)
Lemma string_enum_members_normalised (id : string) :
  (forall x c s,
     get_opt x "category" = JStr c -> get_opt x "severity" = JStr s ->
     exists v,
       validate_issue id x = Ok v /\
       get_opt v "category" = JStr (normalized validCategories "layout" c) /\
       get_opt v "severity" = JStr (normalized validSeverities "medium" s) /\
       issue_complete v = true) /\
  (forall x p e,
     get_opt x "priority" = JStr p -> get_opt x "effort" = JStr e ->
     exists v,
       validate_recommendation id x = Ok v /\
       get_opt v "priority" = JStr (normalized validPriorities "medium" p) /\
       get_opt v "effort" = JStr (normalized validEfforts "medium" e) /\
       recommendation_complete v = true) /\
  (forall valid d s,
     normalized valid d s
     = if array_includes valid (trim (toLowerCase s)) then trim (toLowerCase s) else d) /\
  (forall l, forallb issue_enums_typed l = true ->
     exists vs, normalize_issues id l = Ok vs /\ List.length vs = List.length l) /\
  (forall l, forallb recommendation_enums_typed l = true ->
     exists vs, normalize_recommendations id l = Ok vs /\ List.length vs = List.length l) /\
  normalized validCategories "layout" "Layout " = "layout".
Proof.
  split.
  { intros x c s Hc Hs. destruct x; simpl in Hc, Hs; try discriminate.
    unfold validate_issue. simpl. rewrite Hc, Hs. simpl.
    eexists. split; [reflexivity|]. split; [reflexivity|]. split; [reflexivity|].
    unfold issue_complete. simpl. rewrite !truthy_js_or by reflexivity. reflexivity. }
  split.
  { intros x p e Hp He. destruct x; simpl in Hp, He; try discriminate.
    unfold validate_recommendation. simpl. rewrite Hp, He. simpl.
    eexists. split; [reflexivity|]. split; [reflexivity|]. split; [reflexivity|].
    unfold recommendation_complete. simpl.
    rewrite !truthy_js_or by reflexivity. reflexivity. }
  split; [reflexivity|].
  split.
  { intros l H.
    pose proof (mapM_throws (validate_issue id) issue_enums_typed l
                  (validate_issue_throws id)) as Ht.
    rewrite H in Ht. destruct (mapM (validate_issue id) l) as [vs|] eqn:E; [|discriminate].
    exists vs. split; [apply normalize_issues_mapM, E | apply (mapM_length _ _ E)]. }
  split.
  { intros l H.
    pose proof (mapM_throws (validate_recommendation id) recommendation_enums_typed l
                  (validate_recommendation_throws id)) as Ht.
    rewrite H in Ht.
    destruct (mapM (validate_recommendation id) l) as [vs|] eqn:E; [|discriminate].
    exists vs. split; [apply normalize_recommendations_mapM, E | apply (mapM_length _ _ E)]. }
  reflexivity.
Qed.

Lemma string_enum_members_normalised_example :
  exists v,
    validate_issue "scan-1"
      (JObj [("category", JStr "Layout "); ("severity", JStr "CRITICAL");
             ("title", JStr "Menu overlaps the logo")]) = Ok v /\
    get_opt v "category" = JStr "layout" /\
    get_opt v "severity" = JStr "medium" /\
    issue_complete v = true.
Proof.
  apply (proj1 (string_enum_members_normalised "scan-1")
           (JObj [("category", JStr "Layout "); ("severity", JStr "CRITICAL");
                  ("title", JStr "Menu overlaps the logo")])
           "Layout " "CRITICAL"); reflexivity.
Qed.

(** ** Applying the validator to its own output *)

Arguments normalized : simpl never.

Lemma array_includes_In (l : list string) (s : string) :
  array_includes l s = true -> In s l.
Proof.
  induction l as [|x l IH]; simpl; [discriminate|].
  intros H. apply orb_true_iff in H. destruct H as [H|H].
  - left. apply String.eqb_eq, H.
  - right. apply IH, H.
Qed.

Lemma normalized_member (valid : list string) (d s : string) :
  In d valid -> In (normalized valid d s) valid.
Proof.
  intros Hd. unfold normalized.
  destruct (array_includes valid (trim (toLowerCase s))) eqn:E; [|exact Hd].
  apply array_includes_In, E.
Qed.

Lemma normalized_stable (valid : list string) (d s : string) :
  In d valid -> (forall v, In v valid -> normalized valid d v = v) ->
  normalized valid d (normalized valid d s) = normalized valid d s.
Proof.
  intros Hd H. apply H, normalized_member, Hd.
Qed.

Lemma categories_fixed (v : string) :
  In v validCategories -> normalized validCategories "layout" v = v.
Proof. simpl. intros H. repeat (destruct H as [H|H]; [subst; reflexivity|]). contradiction. Qed.

Lemma severities_fixed (v : string) :
  In v validSeverities -> normalized validSeverities "medium" v = v.
Proof. simpl. intros H. repeat (destruct H as [H|H]; [subst; reflexivity|]). contradiction. Qed.

Lemma priorities_fixed (v : string) :
  In v validPriorities -> normalized validPriorities "medium" v = v.
Proof. simpl. intros H. repeat (destruct H as [H|H]; [subst; reflexivity|]). contradiction. Qed.

Lemma efforts_fixed (v : string) :
  In v validEfforts -> normalized validEfforts "medium" v = v.
Proof. simpl. intros H. repeat (destruct H as [H|H]; [subst; reflexivity|]). contradiction. Qed.

Lemma category_stable (s : string) :
  normalized validCategories "layout" (normalized validCategories "layout" s)
  = normalized validCategories "layout" s.
Proof. apply normalized_stable; [simpl; auto | apply categories_fixed]. Qed.

Lemma severity_stable (s : string) :
  normalized validSeverities "medium" (normalized validSeverities "medium" s)
  = normalized validSeverities "medium" s.
Proof. apply normalized_stable; [simpl; auto | apply severities_fixed]. Qed.

Lemma priority_stable (s : string) :
  normalized validPriorities "medium" (normalized validPriorities "medium" s)
  = normalized validPriorities "medium" s.
Proof. apply normalized_stable; [simpl; auto | apply priorities_fixed]. Qed.

Lemma effort_stable (s : string) :
  normalized validEfforts "medium" (normalized validEfforts "medium" s)
  = normalized validEfforts "medium" s.
Proof. apply normalized_stable; [simpl; auto | apply efforts_fixed]. Qed.

Lemma validate_issue_obj (id : string) (fs : list (string * JsValue)) (c s : string) :
  lookup "category" fs = JStr c -> lookup "severity" fs = JStr s ->
  validate_issue id (JObj fs) = Ok (JObj [
      ("scan_id", JStr id);
      ("category", JStr (normalized validCategories "layout" c));
      ("severity", JStr (normalized validSeverities "medium" s));
      ("title", js_or (lookup "title" fs) (JStr "UX Issue"));
      ("description", js_or (lookup "description" fs) (JStr "No description provided"));
      ("element", js_or (lookup "element" fs) JNull);
      ("impact", js_or (lookup "impact" fs) (JStr "Impact on user experience"));
      ("screenshot", js_or (lookup "screenshot" fs) JNull);
      ("bounds_x", js_or (get_opt (lookup "bounds" fs) "x") JNull);
      ("bounds_y", js_or (get_opt (lookup "bounds" fs) "y") JNull);
      ("bounds_width", js_or (get_opt (lookup "bounds" fs) "width") JNull);
      ("bounds_height", js_or (get_opt (lookup "bounds" fs) "height") JNull)]).
Proof.
  intros Hc Hs. unfold validate_issue. simpl. rewrite Hc, Hs. reflexivity.
Qed.

Lemma validate_recommendation_obj (id : string) (fs : list (string * JsValue))
    (p e : string) :
  lookup "priority" fs = JStr p -> lookup "effort" fs = JStr e ->
  validate_recommendation id (JObj fs) = Ok (JObj [
      ("scan_id", JStr id);
      ("priority", JStr (normalized validPriorities "medium" p));
      ("title", js_or (lookup "title" fs) (JStr "UX Recommendation"));
      ("description", js_or (lookup "description" fs) (JStr "No description provided"));
      ("implementation",
       js_or (lookup "implementation" fs) (JStr "Implementation details not provided"));
      ("expected_impact",
       js_or (lookup "expectedImpact" fs) (JStr "Expected improvement in user experience"));
      ("effort", JStr (normalized validEfforts "medium" e));
      ("screenshot", js_or (lookup "screenshot" fs) JNull)]).
Proof.
  intros Hp He. unfold validate_recommendation. simpl. rewrite Hp, He. reflexivity.
Qed.

Lemma validate_issue_again (id : string) (x v : JsValue) :
  validate_issue id x = Ok v -> validate_issue id v = Ok (reset_bounds v).
Proof.
  intros H. destruct (validate_issue_shape _ _ H) as (fs & c & s & _ & _ & _ & ->).
  erewrite validate_issue_obj by reflexivity. simpl.
  rewrite category_stable, severity_stable, !js_or_idempotent. reflexivity.
Qed.

Lemma validate_recommendation_again (id : string) (x v : JsValue) :
  validate_recommendation id x = Ok v ->
  validate_recommendation id v = Ok (reset_expected_impact v).
Proof.
  intros H.
  destruct (validate_recommendation_shape _ _ H) as (fs & p & e & _ & _ & _ & ->).
  erewrite validate_recommendation_obj by reflexivity. simpl.
  rewrite priority_stable, effort_stable, !js_or_idempotent. reflexivity.
Qed.

Lemma mapM_again {A : Type} (f : A -> result A) (g : A -> A) (l l1 : list A) :
  (forall x v, f x = Ok v -> f v = Ok (g v)) ->
  mapM f l = Ok l1 -> mapM f l1 = Ok (map g l1).
Proof.
  intros H Hm. apply mapM_Forall2 in Hm.
  induction Hm as [|x v l l1 Hx _ IH]; simpl; [reflexivity|].
  rewrite (H _ _ Hx), IH. reflexivity.
Qed.

Lemma mapM_Forall {A B : Type} (f : A -> result B) (P : B -> Prop) (l : list A)
    (vs : list B) :
  (forall x v, f x = Ok v -> P v) -> mapM f l = Ok vs -> Forall P vs.
Proof.
  intros H Hm. apply mapM_Forall2 in Hm.
  induction Hm; constructor; eauto.
Qed.

Lemma validate_issue_members (id : string) (x v : JsValue) :
  validate_issue id x = Ok v ->
  member_in "category" validCategories v /\ member_in "severity" validSeverities v.
Proof.
  intros H. destruct (validate_issue_shape _ _ H) as (fs & c & s & _ & _ & _ & ->).
  split; eexists; (split; [reflexivity|]); apply normalized_member; simpl; auto.
Qed.

Lemma validate_recommendation_members (id : string) (x v : JsValue) :
  validate_recommendation id x = Ok v ->
  member_in "priority" validPriorities v /\ member_in "effort" validEfforts v.
Proof.
  intros H.
  destruct (validate_recommendation_shape _ _ H) as (fs & p & e & _ & _ & _ & ->).
  split; eexists; (split; [reflexivity|]); apply normalized_member; simpl; auto.
Qed.

Lemma reset_bounds_other (v : JsValue) (k : string) :
  k <> "bounds_x" -> k <> "bounds_y" -> k <> "bounds_width" -> k <> "bounds_height" ->
  get_opt (reset_bounds v) k = get_opt v k.
Proof.
  intros H1 H2 H3 H4. destruct v; try reflexivity. simpl.
  rewrite !lookup_set_field_other by assumption. reflexivity.
Qed.

Lemma reset_expected_impact_other (v : JsValue) (k : string) :
  k <> "expected_impact" -> get_opt (reset_expected_impact v) k = get_opt v k.
Proof.
  intros H. destruct v; try reflexivity. simpl.
  rewrite lookup_set_field_other by assumption. reflexivity.
Qed.

(** C6, as stated, fails: the validator renames the members it reads
    ([bounds] into four [bounds_] columns, [expectedImpact] into
    [expected_impact]), so a second application finds no [bounds] and writes
    null where the first wrote the coordinates. *)
Lemma C6_second_application_differs :
  let x := JObj [("category", JStr "layout"); ("severity", JStr "high");
                 ("title", JStr "Menu overlaps the logo");
                 ("description", JStr "The menu covers the logo");
                 ("impact", JStr "Brand is hidden");
                 ("bounds", JObj [("x", JNum 10); ("y", JNum 20);
                                  ("width", JNum 300); ("height", JNum 40)])] in
  exists v1 v2,
    normalize_issues "scan-1" [x] = Ok [v1] /\
    normalize_issues "scan-1" [v1] = Ok [v2] /\
    get_opt v1 "bounds_x" = JNum 10 /\ get_opt v2 "bounds_x" = JNull /\
    [v2] <> [v1].
Proof.
  eexists _, _. split; [reflexivity|]. split; [reflexivity|].
  split; [reflexivity|]. split; [reflexivity|]. discriminate.
Qed.

(** C6 (amended): whenever the validator returns, the category, severity,
    priority and effort of every validated finding are members of their
    enumerated sets, and the normalisation of each of these members is
    idempotent; applying the validator to its own output returns the same
    records except that the four [bounds_] members of an issue become null
    and the [expected_impact] of a recommendation becomes the placeholder
    (every other member is unchanged), and from then on a further application
    changes nothing. *)
Theorem C6_normalize_stable_up_to_renamed_members (id : string) :
  (forall l l1, normalize_issues id l = Ok l1 ->
     Forall (member_in "category" validCategories) l1 /\
     Forall (member_in "severity" validSeverities) l1 /\
     normalize_issues id l1 = Ok (map reset_bounds l1) /\
     normalize_issues id (map reset_bounds l1) = Ok (map reset_bounds l1)) /\
  (forall l l1, normalize_recommendations id l = Ok l1 ->
     Forall (member_in "priority" validPriorities) l1 /\
     Forall (member_in "effort" validEfforts) l1 /\
     normalize_recommendations id l1 = Ok (map reset_expected_impact l1) /\
     normalize_recommendations id (map reset_expected_impact l1)
     = Ok (map reset_expected_impact l1)) /\
  (forall v k,
     k <> "bounds_x" -> k <> "bounds_y" -> k <> "bounds_width" -> k <> "bounds_height" ->
     get_opt (reset_bounds v) k = get_opt v k) /\
  (forall v k, k <> "expected_impact" ->
     get_opt (reset_expected_impact v) k = get_opt v k) /\
  (forall s,
     normalized validCategories "layout" (normalized validCategories "layout" s)
     = normalized validCategories "layout" s /\
     normalized validSeverities "medium" (normalized validSeverities "medium" s)
     = normalized validSeverities "medium" s /\
     normalized validPriorities "medium" (normalized validPriorities "medium" s)
     = normalized validPriorities "medium" s /\
     normalized validEfforts "medium" (normalized validEfforts "medium" s)
     = normalized validEfforts "medium" s).
Proof.
  split.
  { intros l l1 H. apply normalize_issues_mapM in H.
    split.
    { eapply mapM_Forall; [|exact H]. intros x v Hv.
      apply (validate_issue_members _ _ Hv). }
    split.
    { eapply mapM_Forall; [|exact H]. intros x v Hv.
      apply (validate_issue_members _ _ Hv). }
    assert (H1 : mapM (validate_issue id) l1 = Ok (map reset_bounds l1)).
    { eapply mapM_again; [apply validate_issue_again|exact H]. }
    split; [apply normalize_issues_mapM, H1|].
    apply normalize_issues_mapM.
    erewrite mapM_again; [|apply validate_issue_again|exact H1].
    f_equal. rewrite map_map. apply map_ext_in. intros v Hin.
    apply mapM_Forall2 in H.
    assert (Hv : exists x, validate_issue id x = Ok v).
    { clear -H Hin. induction H; simpl in Hin; [contradiction|].
      destruct Hin as [->|Hin]; eauto. }
    destruct Hv as [x Hx].
    destruct (validate_issue_shape _ _ Hx) as (fs & c & s & _ & _ & _ & ->).
    reflexivity. }
  split.
  { intros l l1 H. apply normalize_recommendations_mapM in H.
    split.
    { eapply mapM_Forall; [|exact H]. intros x v Hv.
      apply (validate_recommendation_members _ _ Hv). }
    split.
    { eapply mapM_Forall; [|exact H]. intros x v Hv.
      apply (validate_recommendation_members _ _ Hv). }
    assert (H1 : mapM (validate_recommendation id) l1
                 = Ok (map reset_expected_impact l1)).
    { eapply mapM_again; [apply validate_recommendation_again|exact H]. }
    split; [apply normalize_recommendations_mapM, H1|].
    apply normalize_recommendations_mapM.
    erewrite mapM_again; [|apply validate_recommendation_again|exact H1].
    f_equal. rewrite map_map. apply map_ext_in. intros v Hin.
    apply mapM_Forall2 in H.
    assert (Hv : exists x, validate_recommendation id x = Ok v).
    { clear -H Hin. induction H; simpl in Hin; [contradiction|].
      destruct Hin as [->|Hin]; eauto. }
    destruct Hv as [x Hx].
    destruct (validate_recommendation_shape _ _ Hx) as (fs & p & e & _ & _ & _ & ->).
    reflexivity. }
  split; [apply reset_bounds_other|].
  split; [apply reset_expected_impact_other|].
  intros s. auto using category_stable, severity_stable, priority_stable, effort_stable.
Qed.

Lemma C6_normalize_stable_up_to_renamed_members_witness :
  exists l1,
    normalize_issues "scan-1"
      [JObj [("category", JStr "Mobile"); ("severity", JStr "urgent");
             ("bounds", JObj [("x", JNum 10); ("y", JNum 20);
                              ("width", JNum 300); ("height", JNum 40)])]]
    = Ok l1 /\
    normalize_issues "scan-1" l1 = Ok (map reset_bounds l1) /\
    normalize_issues "scan-1" (map reset_bounds l1) = Ok (map reset_bounds l1).
Proof.
  eexists. split; [reflexivity|].
  apply (proj1 (C6_normalize_stable_up_to_renamed_members "scan-1")
           [JObj [("category", JStr "Mobile"); ("severity", JStr "urgent");
                  ("bounds", JObj [("x", JNum 10); ("y", JNum 20);
                                   ("width", JNum 300); ("height", JNum 40)])]]).
  reflexivity.
Defined.

(** ** The life cycle of the scan row *)

Section Lifecycle.

Variable extract : string -> Region -> option string.
Variable parse : string -> option Analysis.

(** With a storage that accepts the two updates, the row of an admitted
    request goes through one of three histories. *)
Lemma POST_status_histories (sv : Services) (env : Env) (id : string) (req : Request) :
  admitted sv = Some (id, req) ->
  update_completed sv = true -> update_failed sv = true ->
  statuses id (fst (POST extract parse sv env)) =
  match performUXAnalysis extract parse env with
  | Throw _ => [pending; failed]
  | Ok r => if findings_typed r then [pending; completed]
            else [pending; completed; failed]
  end.
Proof.
  intros H Hc Hf. rewrite (POST_statuses extract parse sv env H), Hc, Hf.
  destruct (performUXAnalysis extract parse env) as [r|]; [|reflexivity].
  destruct (findings_typed r); reflexivity.
Qed.

(** When the analysis throws, only the status is written: no score, no
    finding. *)
Lemma POST_analysis_failure (sv : Services) (env : Env) (id : string) (req : Request)
    (e : exn) :
  admitted sv = Some (id, req) ->
  performUXAnalysis extract parse env = Throw e ->
  POST extract parse sv env =
  (InsertScan id (req_userId req) (req_url req) pending
     :: accepted (update_failed sv) (UpdateFailed id),
   FailedResponse id).
Proof.
  intros H He. rewrite (POST_admitted extract parse sv env H).
  unfold run_scan. rewrite He. reflexivity.
Qed.

(** When the analysis returns and every enum member is a string, the row is
    completed with the score, the two counts and the summary, and the caller
    receives them. *)
Lemma POST_analysis_success (sv : Services) (env : Env) (id : string) (req : Request)
    (r : UXAnalysisResult) :
  admitted sv = Some (id, req) ->
  performUXAnalysis extract parse env = Ok r ->
  findings_typed r = true ->
  exists ws,
    POST extract parse sv env =
    ((InsertScan id (req_userId req) (req_url req) pending
        :: accepted (update_completed sv)
             (UpdateCompleted id (r_score r) (List.length (r_issues r))
                (List.length (r_recommendations r)) (r_summary r)) ++ ws)%list,
     CompletedResponse id (req_url req) (r_score r) (List.length (r_issues r))
       (List.length (r_recommendations r)) (r_summary r)) /\
    statuses id ws = [].
Proof.
  intros H Hr Ht. rewrite (POST_admitted extract parse sv env H).
  unfold run_scan. rewrite Hr.
  unfold findings_typed in Ht. apply andb_true_iff in Ht. destruct Ht as [Hi Hc].
  pose proof (store_issues_throws sv id r) as H2. rewrite Hi in H2.
  pose proof (store_recommendations_throws sv id r) as H3. rewrite Hc in H3.
  destruct (store_issues sv id r) as [w2|] eqn:E2; [|discriminate].
  destruct (store_recommendations sv id r) as [w3|] eqn:E3; [|discriminate].
  exists (w2 ++ w3)%list. split; [reflexivity|].
  rewrite statuses_app, (store_issues_statuses _ _ id _ E2),
    (store_recommendations_statuses _ _ id _ E3). reflexivity.
Qed.

End Lifecycle.

(** The scenario of the specification: the service answers a valid object
    with score 85 and no finding; the row is completed and the caller
    receives score 85 and two counts of zero. *)
Lemma POST_clean_page :
  POST sample_extract sample_parse sample_services (env_answering clean_page_text)
  = ([InsertScan "scan-1" (JStr "user-1") (JStr "https://example.com") pending;
      UpdateCompleted "scan-1" (JNum 85) 0 0 (JStr "Clean page.")],
     CompletedResponse "scan-1" (JStr "https://example.com") (JNum 85) 0 0
       (JStr "Clean page.")).
Proof. reflexivity. Qed.

(** No navigation attempt succeeds and the browser is released: the analysis
    returns the result of the catch clause, so the row is completed with
    score 65. *)
Lemma POST_unreachable_page :
  statuses "scan-1"
    (fst (POST sample_extract sample_parse sample_services (env_unreachable true)))
  = [pending; completed] /\
  statuses "scan-1"
    (fst (POST sample_extract sample_parse sample_services (env_unreachable false)))
  = [pending; failed].
Proof. split; reflexivity. Qed.

(** * Further properties of the scan route *)

(** ** Requests that are turned away *)

(** X1: a request that fails the input validation or the authentication, or
    whose scan row the storage refuses, writes nothing, is answered with an
    error of status 400, 401 or 500, and the answer does not depend on the
    browser, the reasoning service or the codec: none of them is consulted. *)
Theorem X1_rejected_request_has_no_effect
    (extract : string -> Region -> option string)
    (parse : string -> option Analysis) (sv : Services) (env : Env) :
  admitted sv = None ->
  fst (POST extract parse sv env) = [] /\
  (exists code message,
     snd (POST extract parse sv env) = ErrorResponse code message /\
     (code = 400 \/ code = 401 \/ code = 500)) /\
  (forall extract' parse' env',
     POST extract' parse' sv env' = POST extract parse sv env).
Proof.
  unfold admitted, POST. destruct (request_json sv) as [r|].
  - destruct (truthy (req_url r)), (truthy (req_userId r)), (create_client sv),
      (auth_error sv), (user_matches (auth_user sv) (req_userId r));
      simpl; try destruct (insert_scan sv); try discriminate; intros _;
      (split; [reflexivity|]); (split; [|reflexivity]);
      eexists _, _; (split; [reflexivity|]); auto.
  - intros _. split; [reflexivity|]. split; [|reflexivity].
    eexists _, _. split; [reflexivity|]. auto.
Qed.

Lemma X1_rejected_request_has_no_effect_witness :
  fst (POST sample_extract sample_parse
         {| request_json := Some {| req_url := JStr "https://example.com";
                                    req_userId := JStr "user-2" |};
            create_client := true; auth_error := false; auth_user := Some "user-1";
            insert_scan := Some "scan-1";
            update_completed := true; insert_issues := true;
            insert_recommendations := true; update_failed := true |}
         (env_answering clean_page_text)) = [].
Proof.
  apply (X1_rejected_request_has_no_effect sample_extract sample_parse). reflexivity.
Defined.

(** ** What [performUXAnalysis] returns *)

Lemma analyze_page_finish
    (extract : string -> Region -> option string)
    (parse : string -> option Analysis) (env : Env) (r : UXAnalysisResult) :
  analyze_page extract parse env = Ok r -> exists a, r = finish a.
Proof.
  unfold analyze_page.
  destruct (launch env); simpl; [|discriminate].
  destruct (page_setup env); simpl; [|discriminate].
  destruct (navigate env) as [[|]|]; simpl; try discriminate.
  destruct (completion env) as [[text|]|]; try discriminate.
  destruct (String.eqb text EmptyString); [discriminate|].
  unfold synthesize. destruct (match_braces text) as [json|]; [|discriminate].
  destruct (crop_stage extract (page_screenshot env) _ _) as [a|]; simpl; [|discriminate].
  intros H. inversion H. eauto.
Qed.

(** X2: the only exception that leaves [performUXAnalysis] is the failure of
    [browser.close] in the finally clause: the function throws exactly when
    the browser was launched and closing it fails, and the error is then that
    of the close, whatever happened before. *)
Theorem X2_only_close_failure_escapes
    (extract : string -> Region -> option string)
    (parse : string -> option Analysis) (env : Env) :
  (throws (performUXAnalysis extract parse env)
   = (launch env && negb (browser_close env))%bool) /\
  (forall e, performUXAnalysis extract parse env = Throw e -> e = Error "browser.close").
Proof.
  split; [apply performUXAnalysis_throws|].
  unfold performUXAnalysis.
  destruct (launch env); [destruct (browser_close env)|]; intros e H;
    inversion H; reflexivity.
Qed.

(** X3: whenever [performUXAnalysis] returns, the score and the summary of
    the result are truthy: a score of 0, null or a missing score, and an
    empty or missing summary, never reach the caller. *)
Theorem X3_result_score_and_summary_truthy
    (extract : string -> Region -> option string)
    (parse : string -> option Analysis) (env : Env) (r : UXAnalysisResult) :
  performUXAnalysis extract parse env = Ok r ->
  truthy (r_score r) = true /\ truthy (r_summary r) = true.
Proof.
  unfold performUXAnalysis.
  destruct (analyze_page extract parse env) as [r0|] eqn:E.
  - destruct (analyze_page_finish _ _ _ E) as [a ->].
    assert (H : truthy (r_score (finish a)) = true /\ truthy (r_summary (finish a)) = true).
    { split; apply truthy_js_or; reflexivity. }
    destruct (launch env); [destruct (browser_close env)|]; intros H0;
      inversion H0; subst; exact H.
  - destruct (launch env); [destruct (browser_close env)|]; intros H0;
      inversion H0; subst; split; reflexivity.
Qed.

Lemma X3_result_score_and_summary_truthy_witness :
  truthy (JNum 70) = true /\ truthy (JStr default_summary) = true.
Proof.
  apply (@X3_result_score_and_summary_truthy sample_extract sample_parse
           (env_answering zero_score_text)
           {| r_score := JNum 70; r_issues := []; r_recommendations := [];
              r_summary := JStr default_summary |}).
  reflexivity.
Defined.

(** X4: when the guarded region of [performUXAnalysis] fails (for instance
    because no navigation attempt succeeds) and the browser is released,
    [POST] does not mark the scan as failed: it answers completed with score
    65, one issue and one recommendation, writes completed to the row and
    stores the fixed issue and the fixed recommendation of the catch clause. *)
Theorem X4_failed_analysis_is_reported_completed
    (extract : string -> Region -> option string)
    (parse : string -> option Analysis) (sv : Services) (env : Env)
    (id : string) (req : Request) (e : exn) :
  admitted sv = Some (id, req) ->
  analyze_page extract parse env = Throw e ->
  launch env = false \/ browser_close env = true ->
  snd (POST extract parse sv env)
  = CompletedResponse id (req_url req) (JNum 65) 1 1 (r_summary failure_result) /\
  statuses id (fst (POST extract parse sv env))
  = pending :: (if update_completed sv then [completed] else []) /\
  exists issue_row rec_row,
    fst (POST extract parse sv env)
    = (InsertScan id (req_userId req) (req_url req) pending
       :: accepted (update_completed sv)
            (UpdateCompleted id (JNum 65) 1 1 (r_summary failure_result))
       ++ accepted (insert_issues sv) (InsertIssues [issue_row])
       ++ accepted (insert_recommendations sv) (InsertRecommendations [rec_row]))%list /\
    get_opt issue_row "scan_id" = JStr id /\
    get_opt issue_row "severity" = JStr "high" /\
    get_opt rec_row "priority" = JStr "high".
Proof.
  intros Ha He Hc.
  assert (Hp : performUXAnalysis extract parse env = Ok failure_result).
  { rewrite performUXAnalysis_released by exact Hc. rewrite He. reflexivity. }
  split; [|split].
  - rewrite (POST_admitted extract parse sv env Ha). unfold run_scan. rewrite Hp.
    reflexivity.
  - rewrite (POST_statuses extract parse sv env Ha), Hp. simpl.
    rewrite app_nil_r. reflexivity.
  - rewrite (POST_admitted extract parse sv env Ha). unfold run_scan. rewrite Hp.
    eexists _, _. split; [reflexivity|]. repeat split.
Qed.

Lemma X4_failed_analysis_is_reported_completed_witness :
  snd (POST sample_extract sample_parse sample_services (env_unreachable true))
  = CompletedResponse "scan-1" (JStr "https://example.com") (JNum 65) 1 1
      (r_summary failure_result).
Proof.
  apply (@X4_failed_analysis_is_reported_completed sample_extract sample_parse
           sample_services (env_unreachable true) "scan-1"
           {| req_url := JStr "https://example.com"; req_userId := JStr "user-1" |}
           (Error "Failed to load page after multiple attempts")).
  - reflexivity.
  - reflexivity.
  - right. reflexivity.
Defined.

Lemma crop_stage_no_screenshot
    (extract : string -> Region -> option string)
    (screenshot : option string) (pd : PageData) (a : Analysis) :
  screenshot = None \/ screenshot = Some EmptyString ->
  crop_stage extract screenshot pd a = Ok a.
Proof.
  intros [->| ->]; unfold crop_stage; [reflexivity|].
  destruct (issues a) as [[|i l]|]; reflexivity.
Qed.

(** X5: when the full-page screenshot could not be taken, the crop stage is
    skipped altogether: the result is the parsed analysis (or the parse
    fallback) with the defaults of the return statement, no finding is
    inspected, and a malformed finding cannot make the function fall back to
    the result of the catch clause. *)
Theorem X5_without_screenshot_findings_as_parsed
    (extract : string -> Region -> option string)
    (parse : string -> option Analysis) (env : Env) (text span : string) :
  reaches_synthesis env text ->
  browser_close env = true ->
  page_screenshot env = None \/ page_screenshot env = Some EmptyString ->
  match_braces text = Some span ->
  performUXAnalysis extract parse env
  = Ok (finish match parse span with Some a => a | None => parse_fallback end).
Proof.
  intros Hr Hc Hs Hm.
  rewrite performUXAnalysis_released by (right; exact Hc).
  rewrite (analyze_page_reaches extract parse Hr).
  rewrite (synthesize_span extract parse _ _ _ Hm).
  rewrite crop_stage_no_screenshot by exact Hs. reflexivity.
Qed.

Lemma X5_without_screenshot_findings_as_parsed_witness :
  performUXAnalysis sample_extract sample_parse
    {| launch := true; page_setup := true;
       goto_networkidle2 := false; goto_domcontentloaded := true; goto_load := true;
       page_screenshot := None; page_evaluate := Some sample_page;
       completion := Some (Some missing_title_text); browser_close := true |}
  = Ok {| r_score := JNum 70;
          r_issues := [JObj [("category", JStr "layout")]];
          r_recommendations := [JObj [("priority", JStr "high")]];
          r_summary := JStr default_summary |}.
Proof.
  apply (@X5_without_screenshot_findings_as_parsed sample_extract sample_parse
           _ missing_title_text missing_title_text).
  - unfold reaches_synthesis; simpl. repeat split; auto. discriminate.
  - reflexivity.
  - left. reflexivity.
  - reflexivity.
Defined.

(** ** What the crop stage changes *)

Lemma crop_issue_equiv
    (extract : string -> Region -> option string)
    (shot : string) (pd : PageData) (x x' : JsValue) :
  crop_issue extract shot pd x = Ok x' -> crop_equiv x' x.
Proof.
  intros H. pose proof (crop_issue_untouched extract shot pd x) as Hr.
  rewrite H in Hr. destruct x; simpl in Hr; try contradiction; exact Hr.
Qed.

Lemma crop_recommendation_equiv
    (extract : string -> Region -> option string)
    (shot : string) (pd : PageData) (x x' : JsValue) :
  crop_recommendation extract shot pd x = Ok x' -> crop_equiv x' x.
Proof.
  intros H. pose proof (crop_recommendation_untouched extract shot pd x) as Hr.
  rewrite H in Hr. unfold untouched_recommendation in Hr.
  destruct (get x "title") as [t|]; simpl in Hr; [|contradiction].
  destruct t; simpl in Hr; try contradiction. exact Hr.
Qed.

Lemma mapM_equiv (f : JsValue -> result JsValue) (l l' : list JsValue) :
  (forall x x', f x = Ok x' -> crop_equiv x' x) ->
  mapM f l = Ok l' -> Forall2 crop_equiv l' l.
Proof.
  intros Hf H. apply mapM_Forall2 in H.
  induction H; constructor; auto.
Qed.

Lemma crop_recommendations_equiv
    (extract : string -> Region -> option string)
    (shot : string) (pd : PageData) (l l' : list JsValue) :
  crop_recommendations extract shot pd l = Ok l' ->
  Forall2 crop_equiv l' l /\ skipn 3 l' = skipn 3 l.
Proof.
  unfold crop_recommendations.
  destruct (mapM (crop_recommendation extract shot pd) (firstn 3 l)) as [done|] eqn:E;
    cbn [bind]; [|discriminate].
  intros H. injection H as <-.
  pose proof (mapM_length _ _ E) as Hl.
  split.
  - rewrite <- (firstn_skipn 3 l) at 2.
    apply Forall2_app; [|apply Forall2_crop_equiv_refl].
    eapply mapM_equiv; [apply crop_recommendation_equiv|exact E].
  - rewrite skipn_app, skipn_all2 by (rewrite Hl, length_firstn; lia).
    rewrite Hl, length_firstn.
    destruct (Nat.le_gt_cases 3 (List.length l)) as [Hn|Hn].
    + rewrite Nat.min_l by exact Hn. reflexivity.
    + destruct l as [|? [|? [|? ?]]]; simpl in Hn; try lia; reflexivity.
Qed.

(** X6: the crop stage only adds images: when it returns, the score and the
    summary are unchanged, the issues and the recommendations are the same in
    number and order, and every member of a finding other than [screenshot]
    and [bounds] keeps its value. *)
Theorem X6_crop_stage_only_adds_images
    (extract : string -> Region -> option string)
    (screenshot : option string) (pd : PageData) (a a' : Analysis) :
  crop_stage extract screenshot pd a = Ok a' ->
  score a' = score a /\ summary a' = summary a /\
  List.length (or_empty (issues a')) = List.length (or_empty (issues a)) /\
  List.length (or_empty (recommendations a'))
  = List.length (or_empty (recommendations a)) /\
  Forall2 crop_equiv (or_empty (issues a')) (or_empty (issues a)) /\
  Forall2 crop_equiv (or_empty (recommendations a')) (or_empty (recommendations a)).
Proof.
  intros H.
  assert (He : Forall2 crop_equiv (or_empty (issues a')) (or_empty (issues a)) /\
               Forall2 crop_equiv (or_empty (recommendations a'))
                 (or_empty (recommendations a))).
  { revert H. unfold crop_stage.
    destruct screenshot as [shot|];
      [|intros H; inversion H; split; apply Forall2_crop_equiv_refl].
    destruct (issues a) as [[|i l]|] eqn:Hi;
      try (intros H; inversion H; subst; rewrite Hi;
           split; apply Forall2_crop_equiv_refl).
    destruct (String.eqb shot EmptyString);
      [intros H; inversion H; subst; rewrite Hi;
       split; apply Forall2_crop_equiv_refl|].
    destruct (mapM (crop_issue extract shot pd) (i :: l)) as [is'|] eqn:Em;
      cbn [bind]; [|discriminate].
    assert (Hq : Forall2 crop_equiv is' (i :: l))
      by (eapply mapM_equiv; [apply crop_issue_equiv|exact Em]).
    destruct (recommendations a) as [[|r rs]|] eqn:Hr.
    - intros H; inversion H; simpl. split; [exact Hq|]. constructor.
    - destruct (crop_recommendations extract shot pd (r :: rs)) as [rs'|] eqn:Ec;
        cbn [bind]; [|discriminate].
      intros H; inversion H; simpl. split; [exact Hq|].
      apply (crop_recommendations_equiv _ _ _ _ Ec).
    - intros H; inversion H; simpl. split; [exact Hq|]. constructor. }
  destruct (crop_stage_keeps_score _ _ _ _ H) as [H1 H2].
  destruct He as [Hi Hr].
  repeat split; try assumption.
  - apply (Forall2_length Hi).
  - apply (Forall2_length Hr).
Qed.

Lemma X6_crop_stage_only_adds_images_witness :
  exists a',
    crop_stage sample_extract (Some "iVBORw0KGgoAAAANSUhEUgAAB4A") sample_page
      parse_fallback = Ok a' /\
    score a' = JNum 70 /\
    List.length (or_empty (issues a')) = 1%nat.
Proof.
  eexists. split; [reflexivity|].
  destruct (@X6_crop_stage_only_adds_images sample_extract
              (Some "iVBORw0KGgoAAAANSUhEUgAAB4A") sample_page parse_fallback _ eq_refl)
    as (Hs & _ & Hl & _).
  split; [exact Hs | exact Hl].
Defined.

Lemma issue_bounds_exact (pd : PageData) (v : JsValue) (b : Bounds) :
  issue_bounds pd v = Some b -> exists c, v = JStr c /\ In c validCategories.
Proof.
  unfold issue_bounds. destruct v; try discriminate. intros H. exists s. split; [reflexivity|].
  destruct (String.eqb s "layout") eqn:E1;
    [apply String.eqb_eq in E1; subst; simpl; auto|].
  destruct (String.eqb s "conversion") eqn:E2;
    [apply String.eqb_eq in E2; subst; simpl; auto|].
  destruct (String.eqb s "accessibility") eqn:E3;
    [apply String.eqb_eq in E3; subst; simpl; auto|].
  destruct (String.eqb s "mobile") eqn:E4;
    [apply String.eqb_eq in E4; subst; simpl; auto|].
  destruct (String.eqb s "performance") eqn:E5;
    [apply String.eqb_eq in E5; subst; simpl; auto 6|].
  discriminate.
Qed.

(** X7: the crop stage compares the raw category with the five lower-case
    names: an issue is changed by its loop turn only when its category is
    exactly one of them.  A category that the validator would still accept
    after lower-casing and trimming (such as "Layout ") gets no image. *)
Theorem X7_crop_needs_exact_category
    (extract : string -> Region -> option string)
    (shot : string) (pd : PageData) (issue issue' : JsValue) :
  crop_issue extract shot pd issue = Ok issue' ->
  issue' <> issue ->
  exists c, get_opt issue "category" = JStr c /\ In c validCategories.
Proof.
  unfold crop_issue. destruct issue; try (intros H; inversion H; congruence).
  simpl.
  destruct (issue_bounds pd (lookup "category" fields)) as [b|] eqn:E.
  - intros _ _. apply (issue_bounds_exact _ _ E).
  - intros H; inversion H; congruence.
Qed.

Lemma X7_crop_needs_exact_category_witness :
  exists c,
    get_opt (JObj [("category", JStr "layout"); ("title", JStr "Crowded header")])
      "category" = JStr c /\ In c validCategories.
Proof.
  apply (@X7_crop_needs_exact_category sample_extract "iVBORw0KGgoAAAANSUhEUgAAB4A"
           sample_page
           (JObj [("category", JStr "layout"); ("title", JStr "Crowded header")])
           (JObj [("category", JStr "layout"); ("title", JStr "Crowded header");
                  ("screenshot", JStr "iVBORw0KGgoAAAANSUhEUgAA");
                  ("bounds", JObj [("x", JNum 0); ("y", JNum 0);
                                   ("width", JNum 1920); ("height", JNum 80)])])).
  - reflexivity.
  - discriminate.
Defined.

(** X8: only the first three recommendations are examined.  The loop throws
    exactly when one of the first three has no string for title; when it
    returns, the list has the same length, the recommendations from the
    fourth on are returned as they were (whatever their title is), and the
    first three differ at most by the image. *)
Theorem X8_only_first_three_recommendations
    (extract : string -> Region -> option string)
    (shot : string) (pd : PageData) (l : list JsValue) :
  throws (crop_recommendations extract shot pd l)
  = negb (forallb has_string_title (firstn 3 l)) /\
  (forall l', crop_recommendations extract shot pd l = Ok l' ->
     List.length l' = List.length l /\
     skipn 3 l' = skipn 3 l /\
     Forall2 crop_equiv l' l).
Proof.
  split; [apply crop_recommendations_throws|].
  intros l' H. destruct (crop_recommendations_equiv _ _ _ _ H) as [Hq Hs].
  split; [apply (Forall2_length Hq)|]. split; assumption.
Qed.

Lemma X8_only_first_three_recommendations_witness :
  let l := [JObj [("title", JStr "Shorten the form")];
            JObj [("title", JStr "Add alt texts")];
            JObj [("title", JStr "Fix the header")];
            JNull] in
  exists l',
    crop_recommendations sample_extract "iVBORw0KGgoAAAANSUhEUgAAB4A" sample_page l = Ok l' /\
    skipn 3 l' = [JNull].
Proof.
  cbv zeta. eexists. split; [reflexivity|].
  apply (proj2 (X8_only_first_three_recommendations sample_extract
                  "iVBORw0KGgoAAAANSUhEUgAAB4A" sample_page
                  [JObj [("title", JStr "Shorten the form")];
                   JObj [("title", JStr "Add alt texts")];
                   JObj [("title", JStr "Fix the header")];
                   JNull])).
  reflexivity.
Defined.

(** ** Geometry of the crop region *)

(** X9: for a rectangle of positive size that lies inside the viewport
    horizontally, the region asked of the codec has a positive width and a
    positive height of at most 400, starts at non-negative coordinates,
    stays inside the viewport horizontally and contains the rectangle
    horizontally. *)
Theorem X9_visible_rectangle_gives_proper_region (b : Bounds) (vp : Viewport) :
  0 < bwidth b -> 0 < bheight b -> 0 <= bx b -> bx b + bwidth b <= vwidth vp ->
  let r := crop_region b vp in
  0 <= left r /\ 0 <= top r /\
  0 < width r /\ left r + width r <= vwidth vp /\
  0 < height r <= 400 /\
  left r <= bx b /\ bx b + bwidth b <= left r + width r.
Proof.
  intros Hw Hh Hx Hr. unfold crop_region, padding, max_crop_height. simpl. lia.
Qed.

Lemma X9_visible_rectangle_gives_proper_region_witness :
  let r := crop_region {| bx := 860; by_ := 400; bwidth := 200; bheight := 48 |}
                       {| vwidth := 1920; vheight := 1080 |} in
  0 <= left r /\ 0 <= top r /\
  0 < width r /\ left r + width r <= 1920 /\
  0 < height r <= 400 /\
  left r <= 860 /\ 860 + 200 <= left r + width r.
Proof.
  apply (X9_visible_rectangle_gives_proper_region
           {| bx := 860; by_ := 400; bwidth := 200; bheight := 48 |}
           {| vwidth := 1920; vheight := 1080 |}); simpl; lia.
Defined.

(** X10: the width of the region is clamped to the viewport but not to zero:
    for a rectangle of positive width the region has a positive width exactly
    when the padded left edge lies inside the viewport; a rectangle that
    starts 20 pixels or more to the right of the viewport gives a width that
    is zero or negative. *)
Theorem X10_region_width_may_be_empty (b : Bounds) (vp : Viewport) :
  0 < bwidth b ->
  let r := crop_region b vp in
  (0 < width r <-> Z.max 0 (bx b - 20) < vwidth vp) /\
  (vwidth vp + 20 <= bx b -> width r <= 0).
Proof.
  intros Hw. unfold crop_region, padding, max_crop_height. simpl. lia.
Qed.

Lemma X10_region_width_may_be_empty_witness :
  width (crop_region {| bx := 2000; by_ := 0; bwidth := 100; bheight := 50 |}
                     {| vwidth := 1920; vheight := 1080 |}) <= 0.
Proof.
  apply (X10_region_width_may_be_empty
           {| bx := 2000; by_ := 0; bwidth := 100; bheight := 50 |}
           {| vwidth := 1920; vheight := 1080 |}); simpl; lia.
Defined.

(** ** What the validator stores *)

Lemma validate_issue_error (id : string) (x : JsValue) (e : exn) :
  validate_issue id x = Throw e -> e = TypeError.
Proof.
  unfold validate_issue. destruct x; simpl; try (intros H; inversion H; reflexivity).
  destruct (lookup "category" fields); simpl; try (intros H; inversion H; reflexivity).
  destruct (lookup "severity" fields); simpl; intros H; inversion H; reflexivity.
Qed.

Lemma validate_recommendation_error (id : string) (x : JsValue) (e : exn) :
  validate_recommendation id x = Throw e -> e = TypeError.
Proof.
  unfold validate_recommendation.
  destruct x; simpl; try (intros H; inversion H; reflexivity).
  destruct (lookup "priority" fields); simpl; try (intros H; inversion H; reflexivity).
  destruct (lookup "effort" fields); simpl; intros H; inversion H; reflexivity.
Qed.

Lemma mapM_error {A B : Type} (f : A -> result B) (l : list A) (e e0 : exn) :
  (forall x e', f x = Throw e' -> e' = e0) -> mapM f l = Throw e -> e = e0.
Proof.
  intros Hf. induction l as [|a l IH]; simpl; [discriminate|].
  destruct (f a) eqn:E; simpl.
  - destruct (mapM f l); simpl; [discriminate|]. intros H. inversion H; subst. auto.
  - intros H. inversion H; subst. eauto.
Qed.

Lemma normalize_lengths (id : string) :
  (forall l vs, normalize_issues id l = Ok vs -> List.length vs = List.length l) /\
  (forall l vs, normalize_recommendations id l = Ok vs ->
     List.length vs = List.length l).
Proof.
  split; intros l vs H.
  - apply normalize_issues_mapM in H. apply (mapM_length _ _ H).
  - apply normalize_recommendations_mapM in H. apply (mapM_length _ _ H).
Qed.

(** X11: the validator stores one record for every finding it is given: the
    filter after the map never removes a record, because the placeholders are
    not empty.  Every record carries the identifier of the scan, and its
    title, description and impact (for a recommendation: title, description,
    implementation and expected impact) are truthy, as the NOT NULL columns
    of the schema require. *)
Theorem X11_validator_keeps_every_finding (id : string) :
  (forall l vs, normalize_issues id l = Ok vs ->
     List.length vs = List.length l /\
     Forall (fun v =>
               get_opt v "scan_id" = JStr id /\
               truthy (get_opt v "title") = true /\
               truthy (get_opt v "description") = true /\
               truthy (get_opt v "impact") = true) vs) /\
  (forall l vs, normalize_recommendations id l = Ok vs ->
     List.length vs = List.length l /\
     Forall (fun v =>
               get_opt v "scan_id" = JStr id /\
               truthy (get_opt v "title") = true /\
               truthy (get_opt v "description") = true /\
               truthy (get_opt v "implementation") = true /\
               truthy (get_opt v "expected_impact") = true) vs).
Proof.
  split; intros l vs H.
  - apply normalize_issues_mapM in H. split; [apply (mapM_length _ _ H)|].
    eapply mapM_Forall; [|exact H]. intros x v Hv.
    destruct (validate_issue_shape _ _ Hv) as (fs & c & s & _ & _ & _ & ->).
    simpl. rewrite !truthy_js_or by reflexivity. auto.
  - apply normalize_recommendations_mapM in H. split; [apply (mapM_length _ _ H)|].
    eapply mapM_Forall; [|exact H]. intros x v Hv.
    destruct (validate_recommendation_shape _ _ Hv) as (fs & p & e & _ & _ & _ & ->).
    simpl. rewrite !truthy_js_or by reflexivity. auto.
Qed.

Lemma X11_validator_keeps_every_finding_witness :
  exists vs,
    normalize_issues "scan-1"
      [JObj [("category", JStr "mobile"); ("severity", JStr "low")];
       JObj [("category", JStr "other"); ("severity", JStr "low");
             ("title", JStr EmptyString)]] = Ok vs /\
    List.length vs = 2%nat.
Proof.
  eexists. split; [reflexivity|].
  apply (proj1 (X11_validator_keeps_every_finding "scan-1")
           [JObj [("category", JStr "mobile"); ("severity", JStr "low")];
            JObj [("category", JStr "other"); ("severity", JStr "low");
                  ("title", JStr EmptyString)]]).
  reflexivity.
Defined.

Lemma normalize_issues_outcome (id : string) (l : list JsValue) :
  (forallb issue_enums_typed l = true /\ exists vs, normalize_issues id l = Ok vs) \/
  (forallb issue_enums_typed l = false /\ normalize_issues id l = Throw TypeError).
Proof.
  pose proof (mapM_throws (validate_issue id) issue_enums_typed l
                (validate_issue_throws id)) as H.
  unfold normalize_issues.
  destruct (mapM (validate_issue id) l) as [vs|e] eqn:E; simpl in *.
  - left. destruct (forallb issue_enums_typed l); [|discriminate]. eauto.
  - right. destruct (forallb issue_enums_typed l); [discriminate|].
    split; [reflexivity|]. f_equal.
    eapply mapM_error; [|exact E]. apply validate_issue_error.
Qed.

Lemma normalize_recommendations_outcome (id : string) (l : list JsValue) :
  (forallb recommendation_enums_typed l = true
   /\ exists vs, normalize_recommendations id l = Ok vs) \/
  (forallb recommendation_enums_typed l = false
   /\ normalize_recommendations id l = Throw TypeError).
Proof.
  pose proof (mapM_throws (validate_recommendation id) recommendation_enums_typed l
                (validate_recommendation_throws id)) as H.
  unfold normalize_recommendations.
  destruct (mapM (validate_recommendation id) l) as [vs|e] eqn:E; simpl in *.
  - left. destruct (forallb recommendation_enums_typed l); [|discriminate]. eauto.
  - right. destruct (forallb recommendation_enums_typed l); [discriminate|].
    split; [reflexivity|]. f_equal.
    eapply mapM_error; [|exact E]. apply validate_recommendation_error.
Qed.

Lemma forallb_member_false {A : Type} (p : A -> bool) (l1 l2 : list A) (x : A) :
  p x = false -> forallb p (l1 ++ x :: l2)%list = false.
Proof.
  intros H. rewrite forallb_app. simpl. rewrite H.
  apply andb_false_r.
Qed.

(** C5: the code departs from the claim.  For an enum member that is a
    string the validator does what the claim says: the member becomes its
    lower-cased, trimmed form when that is in the closed set and the default
    (layout, medium, medium, medium) otherwise, and the finding is kept.  A
    member that is absent, null or not a string is a value outside the
    closed set as well, but [.toLowerCase()] throws a TypeError on it: the
    finding gets no default, the exception rejects every finding of the list
    with it, the well-formed ones included, and the scan, already marked
    completed, is marked failed without any issue row. *)
Theorem C5_enum_member_rejects_the_findings :
  (forall id x c s,
     get_opt x "category" = JStr c -> get_opt x "severity" = JStr s ->
     exists v,
       validate_issue id x = Ok v /\
       get_opt v "category" = JStr (normalized validCategories "layout" c) /\
       get_opt v "severity" = JStr (normalized validSeverities "medium" s) /\
       issue_complete v = true) /\
  (forall id x p e,
     get_opt x "priority" = JStr p -> get_opt x "effort" = JStr e ->
     exists v,
       validate_recommendation id x = Ok v /\
       get_opt v "priority" = JStr (normalized validPriorities "medium" p) /\
       get_opt v "effort" = JStr (normalized validEfforts "medium" e) /\
       recommendation_complete v = true) /\
  (forall valid d s,
     normalized valid d s
     = if array_includes valid (trim (toLowerCase s)) then trim (toLowerCase s) else d) /\
  normalized validCategories "layout" "Layout " = "layout" /\
  normalized validCategories "layout" " Mobile " = "mobile" /\
  normalized validCategories "layout" "navigation" = "layout" /\
  normalized validSeverities "medium" ("HIGH" ++ nbsp) = "high" /\
  normalized validSeverities "medium" "critical" = "medium" /\
  normalized validPriorities "medium" "Low" = "low" /\
  normalized validEfforts "medium" (nbsp ++ "High ") = "high" /\
  (forall id x,
     issue_enums_typed x = false -> validate_issue id x = Throw TypeError) /\
  (forall id x,
     recommendation_enums_typed x = false ->
     validate_recommendation id x = Throw TypeError) /\
  (forall id l1 x l2,
     issue_enums_typed x = false ->
     normalize_issues id (l1 ++ x :: l2)%list = Throw TypeError) /\
  (forall id l1 x l2,
     recommendation_enums_typed x = false ->
     normalize_recommendations id (l1 ++ x :: l2)%list = Throw TypeError) /\
  validate_issue "scan-1" spaced_issue
  = Ok (JObj [("scan_id", JStr "scan-1");
              ("category", JStr "mobile");
              ("severity", JStr "high");
              ("title", JStr "Menu overlaps the logo");
              ("description", JStr "On a narrow screen");
              ("element", JNull);
              ("impact", JStr "Impact on user experience");
              ("screenshot", JNull);
              ("bounds_x", JNull); ("bounds_y", JNull);
              ("bounds_width", JNull); ("bounds_height", JNull)]) /\
  validate_issue "scan-1" null_category_issue = Throw TypeError /\
  normalize_issues "scan-1" [spaced_issue; null_category_issue] = Throw TypeError /\
  validate_recommendation "scan-1" numeric_effort_recommendation = Throw TypeError /\
  POST sample_extract parse_null_category sample_services
    (env_answering null_category_text)
  = ([InsertScan "scan-1" (JStr "user-1") (JStr "https://example.com") pending;
      UpdateCompleted "scan-1" (JNum 72) 2 0 (JStr "Two issues.");
      UpdateFailed "scan-1"],
     FailedResponse "scan-1").
Proof.
  split; [intros id; apply (proj1 (string_enum_members_normalised id))|].
  split; [intros id; apply (proj1 (proj2 (string_enum_members_normalised id)))|].
  split; [reflexivity|].
  do 7 (split; [reflexivity|]).
  assert (Hi : forall id x,
             issue_enums_typed x = false -> validate_issue id x = Throw TypeError).
  { intros id x H. pose proof (validate_issue_throws id x) as Ht. rewrite H in Ht.
    destruct (validate_issue id x) as [v|e] eqn:E; [discriminate|].
    f_equal. exact (validate_issue_error _ _ E). }
  assert (Hr : forall id x,
             recommendation_enums_typed x = false ->
             validate_recommendation id x = Throw TypeError).
  { intros id x H. pose proof (validate_recommendation_throws id x) as Ht.
    rewrite H in Ht.
    destruct (validate_recommendation id x) as [v|e] eqn:E; [discriminate|].
    f_equal. exact (validate_recommendation_error _ _ E). }
  split; [exact Hi|]. split; [exact Hr|].
  split.
  { intros id l1 x l2 H.
    destruct (normalize_issues_outcome id (l1 ++ x :: l2)%list) as [[Ht _]|[_ Hn]];
      [|exact Hn].
    rewrite (forallb_member_false issue_enums_typed l1 l2 x H) in Ht. discriminate. }
  split.
  { intros id l1 x l2 H.
    destruct (normalize_recommendations_outcome id (l1 ++ x :: l2)%list)
      as [[Ht _]|[_ Hn]]; [|exact Hn].
    rewrite (forallb_member_false recommendation_enums_typed l1 l2 x H) in Ht.
    discriminate. }
  repeat split.
Qed.

Lemma C5_enum_member_rejects_the_findings_witness :
  issue_enums_typed null_category_issue = false /\
  validate_issue "scan-1" null_category_issue = Throw TypeError /\
  normalize_issues "scan-1" ([spaced_issue] ++ null_category_issue :: [])%list
  = Throw TypeError.
Proof.
  pose proof C5_enum_member_rejects_the_findings
    as (_ & _ & _ & _ & _ & _ & _ & _ & _ & _ & Hi & _ & Hl & _).
  split; [reflexivity|]. split.
  - apply (Hi "scan-1" null_category_issue). reflexivity.
  - apply (Hl "scan-1" [spaced_issue] null_category_issue []). reflexivity.
Defined.

(** X12: the validation of a list is all or nothing: it returns exactly when
    every finding of the list has strings for its two enum members, and
    otherwise it raises a TypeError and yields no record at all, also for the
    well-formed findings of the list. *)
Theorem X12_validation_is_all_or_nothing (id : string) (l : list JsValue) :
  ((exists vs, normalize_issues id l = Ok vs) <-> forallb issue_enums_typed l = true) /\
  (forallb issue_enums_typed l = false -> normalize_issues id l = Throw TypeError) /\
  ((exists vs, normalize_recommendations id l = Ok vs)
   <-> forallb recommendation_enums_typed l = true) /\
  (forallb recommendation_enums_typed l = false ->
   normalize_recommendations id l = Throw TypeError).
Proof.
  destruct (normalize_issues_outcome id l) as [[Hi [vs Hv]]|[Hi Hv]];
    destruct (normalize_recommendations_outcome id l) as [[Hr [ws Hw]]|[Hr Hw]];
    rewrite Hi, Hr, Hv, Hw;
    repeat split; try discriminate; eauto;
    intros [? ?]; discriminate.
Qed.

Lemma X12_validation_is_all_or_nothing_witness :
  normalize_issues "scan-1"
    [JObj [("category", JStr "mobile"); ("severity", JStr "low")];
     JObj [("category", JNull); ("severity", JStr "low")]] = Throw TypeError.
Proof.
  apply (proj1 (proj2 (X12_validation_is_all_or_nothing "scan-1"
           [JObj [("category", JStr "mobile"); ("severity", JStr "low")];
            JObj [("category", JNull); ("severity", JStr "low")]]))).
  reflexivity.
Defined.

(** ** The writes and the answer of [POST] *)

Lemma store_issues_rows (sv : Services) (id : string) (r : UXAnalysisResult)
    (rows : list JsValue) :
  normalize_issues id (r_issues r) = Ok rows ->
  store_issues sv id r
  = Ok match rows with
       | [] => []
       | _ :: _ => accepted (insert_issues sv) (InsertIssues rows)
       end.
Proof.
  unfold store_issues. destruct (r_issues r) as [|x l].
  - intros H. inversion H. reflexivity.
  - intros H. rewrite H. simpl. destruct rows; reflexivity.
Qed.

Lemma store_recommendations_rows (sv : Services) (id : string) (r : UXAnalysisResult)
    (rows : list JsValue) :
  normalize_recommendations id (r_recommendations r) = Ok rows ->
  store_recommendations sv id r
  = Ok match rows with
       | [] => []
       | _ :: _ => accepted (insert_recommendations sv) (InsertRecommendations rows)
       end.
Proof.
  unfold store_recommendations. destruct (r_recommendations r) as [|x l].
  - intros H. inversion H. reflexivity.
  - intros H. rewrite H. simpl. destruct rows; reflexivity.
Qed.

Lemma store_issues_type_error (sv : Services) (id : string) (r : UXAnalysisResult) :
  forallb issue_enums_typed (r_issues r) = false ->
  store_issues sv id r = Throw TypeError.
Proof.
  intros H. unfold store_issues.
  destruct (normalize_issues_outcome id (r_issues r)) as [[H' _]|[_ Ht]];
    [congruence|].
  destruct (r_issues r); [discriminate|]. rewrite Ht. reflexivity.
Qed.

Lemma store_recommendations_type_error (sv : Services) (id : string)
    (r : UXAnalysisResult) :
  forallb recommendation_enums_typed (r_recommendations r) = false ->
  store_recommendations sv id r = Throw TypeError.
Proof.
  intros H. unfold store_recommendations.
  destruct (normalize_recommendations_outcome id (r_recommendations r))
    as [[H' _]|[_ Ht]]; [congruence|].
  destruct (r_recommendations r); [discriminate|]. rewrite Ht. reflexivity.
Qed.

(** X13: a finding that the validator cannot handle fails the scan after the
    row was updated, and what is stored depends on where it sits.  If an
    issue has an enum member that is not a string, no issue and no
    recommendation is stored (the recommendations are not examined).  If the
    issues are well formed and a recommendation is not, the issues are
    stored, and the scan is nevertheless answered as failed. *)
Theorem X13_partial_persistence_on_validation_error
    (extract : string -> Region -> option string)
    (parse : string -> option Analysis) (sv : Services) (env : Env)
    (id : string) (req : Request) (r : UXAnalysisResult) :
  admitted sv = Some (id, req) ->
  performUXAnalysis extract parse env = Ok r ->
  let created := InsertScan id (req_userId req) (req_url req) pending in
  let updated := accepted (update_completed sv)
                   (UpdateCompleted id (r_score r) (List.length (r_issues r))
                      (List.length (r_recommendations r)) (r_summary r)) in
  (forallb issue_enums_typed (r_issues r) = false ->
   POST extract parse sv env
   = ((created :: updated) ++ accepted (update_failed sv) (UpdateFailed id),
      FailedResponse id)%list) /\
  (forallb issue_enums_typed (r_issues r) = true ->
   forallb recommendation_enums_typed (r_recommendations r) = false ->
   exists rows,
     normalize_issues id (r_issues r) = Ok rows /\
     List.length rows = List.length (r_issues r) /\
     POST extract parse sv env
     = ((created :: updated
           ++ match rows with
              | [] => []
              | _ :: _ => accepted (insert_issues sv) (InsertIssues rows)
              end)
          ++ accepted (update_failed sv) (UpdateFailed id),
        FailedResponse id)%list).
Proof.
  intros Ha Hp. cbv zeta. rewrite (POST_admitted extract parse sv env Ha).
  unfold run_scan. rewrite Hp. split.
  - intros Hi. rewrite (store_issues_type_error sv id r Hi). reflexivity.
  - intros Hi Hr.
    destruct (normalize_issues_outcome id (r_issues r)) as [[_ [rows Hn]]|[H' _]];
      [|congruence].
    exists rows. split; [exact Hn|].
    split; [apply (proj1 (normalize_lengths id) _ _ Hn)|].
    rewrite (store_issues_rows sv id r Hn).
    rewrite (store_recommendations_type_error sv id r Hr). reflexivity.
Qed.

Lemma X13_partial_persistence_on_validation_error_witness :
  POST sample_extract sample_parse sample_services (env_answering missing_category_text)
  = ([InsertScan "scan-1" (JStr "user-1") (JStr "https://example.com") pending;
      UpdateCompleted "scan-1" (JNum 80) 1 0 (JStr "One issue.");
      UpdateFailed "scan-1"],
     FailedResponse "scan-1").
Proof.
  apply (proj1 (@X13_partial_persistence_on_validation_error
                  sample_extract sample_parse sample_services
                  (env_answering missing_category_text) "scan-1"
                  {| req_url := JStr "https://example.com"; req_userId := JStr "user-1" |}
                  {| r_score := JNum 80;
                     r_issues := [JObj [("title", JStr "Low contrast");
                                        ("description", JStr "Grey on white")]];
                     r_recommendations := [];
                     r_summary := JStr "One issue." |}
                  eq_refl eq_refl)).
  reflexivity.
Defined.

(** X14: on the successful path the three numbers agree: the counts written
    to the scan row, the counts returned to the caller and the numbers of
    issue and recommendation records handed to the storage are the same, and
    an insert is attempted only for a list that is not empty. *)
Theorem X14_counts_agree_with_stored_rows
    (extract : string -> Region -> option string)
    (parse : string -> option Analysis) (sv : Services) (env : Env)
    (id : string) (req : Request) (r : UXAnalysisResult) :
  admitted sv = Some (id, req) ->
  performUXAnalysis extract parse env = Ok r ->
  findings_typed r = true ->
  exists irows rrows,
    normalize_issues id (r_issues r) = Ok irows /\
    normalize_recommendations id (r_recommendations r) = Ok rrows /\
    POST extract parse sv env
    = ((InsertScan id (req_userId req) (req_url req) pending
        :: accepted (update_completed sv)
             (UpdateCompleted id (r_score r) (List.length irows) (List.length rrows)
                (r_summary r))
        ++ match irows with
           | [] => []
           | _ :: _ => accepted (insert_issues sv) (InsertIssues irows)
           end
        ++ match rrows with
           | [] => []
           | _ :: _ =>
               accepted (insert_recommendations sv) (InsertRecommendations rrows)
           end)%list,
       CompletedResponse id (req_url req) (r_score r) (List.length irows)
         (List.length rrows) (r_summary r)).
Proof.
  intros Ha Hp Ht. unfold findings_typed in Ht. apply andb_true_iff in Ht.
  destruct Ht as [Hi Hr].
  destruct (normalize_issues_outcome id (r_issues r)) as [[_ [irows Hn]]|[H' _]];
    [|congruence].
  destruct (normalize_recommendations_outcome id (r_recommendations r))
    as [[_ [rrows Hm]]|[H' _]]; [|congruence].
  exists irows, rrows. split; [exact Hn|]. split; [exact Hm|].
  rewrite (POST_admitted extract parse sv env Ha). unfold run_scan. rewrite Hp.
  rewrite (store_issues_rows sv id r Hn), (store_recommendations_rows sv id r Hm).
  rewrite (proj1 (normalize_lengths id) _ _ Hn), (proj2 (normalize_lengths id) _ _ Hm).
  reflexivity.
Qed.

Lemma X14_counts_agree_with_stored_rows_witness :
  exists irows rrows,
    normalize_issues "scan-1" [] = Ok irows /\
    normalize_recommendations "scan-1" [] = Ok rrows /\
    POST sample_extract sample_parse sample_services (env_answering clean_page_text)
    = ((InsertScan "scan-1" (JStr "user-1") (JStr "https://example.com") pending
        :: accepted true
             (UpdateCompleted "scan-1" (JNum 85) (List.length irows)
                (List.length rrows) (JStr "Clean page."))
        ++ match irows with
           | [] => []
           | _ :: _ => accepted true (InsertIssues irows)
           end
        ++ match rrows with
           | [] => []
           | _ :: _ => accepted true (InsertRecommendations rrows)
           end)%list,
       CompletedResponse "scan-1" (JStr "https://example.com") (JNum 85)
         (List.length irows) (List.length rrows) (JStr "Clean page.")).
Proof.
  apply (@X14_counts_agree_with_stored_rows sample_extract sample_parse
           sample_services (env_answering clean_page_text) "scan-1"
           {| req_url := JStr "https://example.com"; req_userId := JStr "user-1" |}
           {| r_score := JNum 85; r_issues := []; r_recommendations := [];
              r_summary := JStr "Clean page." |}
           eq_refl eq_refl eq_refl).
Defined.

Lemma run_scan_response
    (extract : string -> Region -> option string)
    (parse : string -> option Analysis) (sv : Services) (env : Env)
    (id : string) (url : JsValue) :
  snd (run_scan extract parse sv env id url) =
  match performUXAnalysis extract parse env with
  | Throw e => Throw e
  | Ok r =>
      if findings_typed r then
        Ok (CompletedResponse id url (r_score r) (List.length (r_issues r))
              (List.length (r_recommendations r)) (r_summary r))
      else Throw TypeError
  end.
Proof.
  unfold run_scan, findings_typed.
  destruct (performUXAnalysis extract parse env) as [r|]; [|reflexivity].
  destruct (normalize_issues_outcome id (r_issues r)) as [[Hi [rows Hn]]|[Hi _]].
  - rewrite Hi, (store_issues_rows sv id r Hn). simpl.
    destruct (normalize_recommendations_outcome id (r_recommendations r))
      as [[Hr [rows' Hm]]|[Hr _]].
    + rewrite Hr, (store_recommendations_rows sv id r Hm). reflexivity.
    + rewrite Hr, (store_recommendations_type_error sv id r Hr). reflexivity.
  - rewrite Hi, (store_issues_type_error sv id r Hi). reflexivity.
Qed.

(** X15: once the scan row is created, the answer of [POST] does not depend
    on whether the storage accepts the later writes: two storages that agree
    up to the creation of the row give the same answer.  In particular, when
    the storage rejects the update to completed, the caller is still told
    that the scan is completed, while the row stays pending. *)
Theorem X15_answer_ignores_storage_errors
    (extract : string -> Region -> option string)
    (parse : string -> option Analysis) (sv sv' : Services) (env : Env) :
  request_json sv = request_json sv' ->
  create_client sv = create_client sv' ->
  auth_error sv = auth_error sv' ->
  auth_user sv = auth_user sv' ->
  insert_scan sv = insert_scan sv' ->
  snd (POST extract parse sv env) = snd (POST extract parse sv' env) /\
  (forall id req r,
     admitted sv = Some (id, req) ->
     performUXAnalysis extract parse env = Ok r ->
     findings_typed r = true ->
     update_completed sv = false ->
     statuses id (fst (POST extract parse sv env)) = [pending] /\
     snd (POST extract parse sv env)
     = CompletedResponse id (req_url req) (r_score r) (List.length (r_issues r))
         (List.length (r_recommendations r)) (r_summary r)).
Proof.
  intros H1 H2 H3 H4 H5. split.
  - assert (Ha : admitted sv = admitted sv').
    { unfold admitted. rewrite H1, H2, H3, H4, H5. reflexivity. }
    destruct (admitted sv) as [[id req]|] eqn:E.
    + rewrite (POST_admitted extract parse sv env E).
      rewrite (POST_admitted extract parse sv' env (eq_sym Ha)).
      pose proof (run_scan_response extract parse sv env id (req_url req)) as R.
      pose proof (run_scan_response extract parse sv' env id (req_url req)) as R'.
      destruct (run_scan extract parse sv env id (req_url req)) as [ws res].
      destruct (run_scan extract parse sv' env id (req_url req)) as [ws' res'].
      simpl in R, R'. rewrite <- R' in R. subst res'.
      destruct res; reflexivity.
    + unfold POST. rewrite <- H1, <- H2, <- H3, <- H4, <- H5.
      revert E. unfold admitted.
      destruct (request_json sv) as [r|]; [|reflexivity].
      destruct (truthy (req_url r)), (truthy (req_userId r)), (create_client sv),
        (auth_error sv), (user_matches (auth_user sv) (req_userId r));
        simpl; try reflexivity.
      destruct (insert_scan sv); [discriminate|reflexivity].
  - intros id req r Ha Hp Ht Hu. split.
    + rewrite (POST_statuses extract parse sv env Ha), Hp, Ht, Hu. reflexivity.
    + rewrite (POST_admitted extract parse sv env Ha).
      pose proof (run_scan_response extract parse sv env id (req_url req)) as R.
      rewrite Hp, Ht in R.
      destruct (run_scan extract parse sv env id (req_url req)) as [ws res].
      simpl in R. subst res. reflexivity.
Qed.

Lemma X15_answer_ignores_storage_errors_witness :
  let sv := {| request_json := Some {| req_url := JStr "https://example.com";
                                       req_userId := JStr "user-1" |};
               create_client := true; auth_error := false; auth_user := Some "user-1";
               insert_scan := Some "scan-1";
               update_completed := false; insert_issues := false;
               insert_recommendations := false; update_failed := false |} in
  snd (POST sample_extract sample_parse sv (env_answering clean_page_text))
  = snd (POST sample_extract sample_parse sample_services (env_answering clean_page_text)).
Proof.
  cbv zeta.
  apply (@X15_answer_ignores_storage_errors sample_extract sample_parse);
    reflexivity.
Defined.

(** ** The extraction, again *)

Lemma upto_last_close_app (mid post : string) :
  has_char close_brace post = false ->
  upto_last_close (mid ++ String close_brace post)
  = Some (mid ++ String close_brace EmptyString).
Proof.
  intros H. induction mid as [|c mid IH]; simpl.
  - apply upto_last_close_none in H. rewrite H. reflexivity.
  - rewrite IH. reflexivity.
Qed.

(** X16: when the answer of the reasoning service wraps one object in prose
    (text without an opening brace before it and without a closing brace
    after it), the extraction returns exactly the object, whatever braces the
    object itself contains; and the extraction is idempotent: extracting from
    an extracted span returns the span. *)
Theorem X16_extraction_strips_surrounding_prose (pre mid post : string) :
  has_char open_brace pre = false ->
  has_char close_brace post = false ->
  let object := String open_brace (mid ++ String close_brace EmptyString) in
  match_braces (pre ++ String open_brace (mid ++ String close_brace post)) = Some object /\
  match_braces object = Some object.
Proof.
  intros Hpre Hpost. cbv zeta.
  assert (Hobj : forall q, has_char close_brace q = false ->
            match_braces (String open_brace (mid ++ String close_brace q))
            = Some (String open_brace (mid ++ String close_brace EmptyString))).
  { intros q Hq. simpl. rewrite (upto_last_close_app mid q Hq). reflexivity. }
  split; [|apply Hobj; reflexivity].
  induction pre as [|c pre IH].
  - apply Hobj, Hpost.
  - simpl in Hpre. apply orb_false_iff in Hpre. destruct Hpre as [Hc Hp].
    change (String c pre ++ String open_brace (mid ++ String close_brace post))
      with (String c (pre ++ String open_brace (mid ++ String close_brace post))).
    cbn [match_braces]. rewrite Hc. apply IH, Hp.
Qed.

Lemma X16_extraction_strips_surrounding_prose_witness :
  match_braces "Here is the analysis: {a{b}c} I hope it helps." = Some "{a{b}c}".
Proof.
  apply (X16_extraction_strips_surrounding_prose
           "Here is the analysis: " "a{b}c" " I hope it helps."); reflexivity.
Defined.

(** ** The script run in the page *)

Lemma substring_length (n : nat) (s : string) :
  (String.length (substring 0 n s) <= n)%nat.
Proof.
  revert s. induction n as [|n IH]; intros s; destruct s; simpl; try lia.
  specialize (IH s). lia.
Qed.

Lemma trimStart_length (s : string) : (String.length (trimStart s) <= String.length s)%nat.
Proof.
  induction s as [|c s IH]; simpl; [lia|]. destruct (is_space c); simpl; lia.
Qed.

Lemma trimEnd_length (s : string) : (String.length (trimEnd s) <= String.length s)%nat.
Proof.
  induction s as [|c s IH]; simpl; [lia|].
  destruct (trimEnd s); [destruct (is_space c)|]; simpl in *; lia.
Qed.

Lemma trim_length (s : string) : (String.length (trim s) <= String.length s)%nat.
Proof.
  unfold trim. pose proof (trimEnd_length (trimStart s)). pose proof (trimStart_length s). lia.
Qed.

(** Outside the ASCII range: the no-break space is white space and the
    next-line control U+0085 is not; the letters U+00C0 to U+00DE have a
    lower case 32 places further, the multiplication sign U+00D7 among them
    excepted, and the sharp s U+00DF is a lower-case letter already. *)
Lemma trim_no_break_space :
  trim (nbsp ++ " scan " ++ nbsp) = "scan" /\
  trim (String (ascii_of_nat 133) "x") = String (ascii_of_nat 133) "x".
Proof. split; reflexivity. Qed.

Lemma toLowerCase_beyond_ascii :
  toLowerCase (String (ascii_of_nat 201) "COLE") = String (ascii_of_nat 233) "cole" /\
  toLowerCase (String (ascii_of_nat 222) "x") = String (ascii_of_nat 254) "x" /\
  toLowerCase (String (ascii_of_nat 215) "X") = String (ascii_of_nat 215) "x" /\
  toLowerCase (String (ascii_of_nat 223) "S") = String (ascii_of_nat 223) "s".
Proof. repeat split. Qed.

Section PageScriptProperties.

Variable num : Type.
Variable Math_round : num -> Z.

Lemma getElementInfo_bounded (d : Document num) (selector : string) :
  bounded_collection (getElementInfo Math_round d selector).
Proof.
  unfold getElementInfo, bounded_collection.
  destruct (querySelectorAll d selector) as [els|]; [|split; [simpl; lia|constructor]].
  split.
  - rewrite length_map. apply firstn_le_length.
  - apply Forall_forall. intros i Hi. apply in_map_iff in Hi.
    destruct Hi as (el & <- & _). split; simpl.
    + pose proof (trim_length (substring 0 100 (textContent el))).
      pose proof (substring_length 100 (textContent el)). lia.
    + apply substring_length.
Qed.

(** X17: whatever the page contains, and also when the script fails, the
    page data has at most 20 entries in each of its five element
    collections, the text and the class of every entry have at most 100
    characters and the body text has at most 2000 characters; the prompt
    takes the first 5 headings, buttons and links of the page data at most,
    and all its forms, of which there are at most 20. *)
Theorem X17_page_data_is_bounded (url : string) (page : option (Document num)) :
  let pd := extract_page Math_round url page in
  (String.length (pd_bodyText pd) <= 2000)%nat /\
  bounded_collection (pd_headings pd) /\
  bounded_collection (pd_buttons pd) /\
  bounded_collection (pd_links pd) /\
  bounded_collection (pd_forms pd) /\
  bounded_collection (pd_images pd) /\
  (prompt_headings (prompt_lists pd) = firstn 5 (pd_headings pd)
   /\ List.length (prompt_headings (prompt_lists pd)) <= 5)%nat /\
  (prompt_buttons (prompt_lists pd) = firstn 5 (pd_buttons pd)
   /\ List.length (prompt_buttons (prompt_lists pd)) <= 5)%nat /\
  (prompt_links (prompt_lists pd) = firstn 5 (pd_links pd)
   /\ List.length (prompt_links (prompt_lists pd)) <= 5)%nat /\
  (prompt_forms (prompt_lists pd) = pd_forms pd
   /\ List.length (prompt_forms (prompt_lists pd)) <= 20)%nat.
Proof.
  assert (Hp : forall pd : ExtractedPage,
             bounded_collection (pd_forms pd) ->
             (prompt_headings (prompt_lists pd) = firstn 5 (pd_headings pd)
              /\ List.length (prompt_headings (prompt_lists pd)) <= 5)%nat /\
             (prompt_buttons (prompt_lists pd) = firstn 5 (pd_buttons pd)
              /\ List.length (prompt_buttons (prompt_lists pd)) <= 5)%nat /\
             (prompt_links (prompt_lists pd) = firstn 5 (pd_links pd)
              /\ List.length (prompt_links (prompt_lists pd)) <= 5)%nat /\
             (prompt_forms (prompt_lists pd) = pd_forms pd
              /\ List.length (prompt_forms (prompt_lists pd)) <= 20)%nat).
  { intros pd [Hn _]. unfold prompt_lists.
    cbn [prompt_headings prompt_buttons prompt_links prompt_forms].
    repeat split; try apply firstn_le_length. exact Hn. }
  assert (Hf : let pd := fallback_page url in
               (String.length (pd_bodyText pd) <= 2000)%nat /\
               bounded_collection (pd_headings pd) /\
               bounded_collection (pd_buttons pd) /\
               bounded_collection (pd_links pd) /\
               bounded_collection (pd_forms pd) /\
               bounded_collection (pd_images pd)).
  { cbv zeta. simpl. split; [lia|].
    repeat split; simpl; try lia; constructor. }
  cbv zeta. split; [|split; [|split; [|split; [|split; [|split]]]]];
    try apply Hp;
    unfold extract_page; destruct page as [d|]; try apply Hf;
    unfold page_script;
    destruct (has_match d navigation_selector); simpl; try apply Hf;
    destruct (has_match d header_selector); simpl; try apply Hf;
    destruct (has_match d footer_selector); simpl; try apply Hf;
    destruct (has_match d sidebar_selector); simpl; try apply Hf;
    try apply getElementInfo_bounded; apply substring_length.
Qed.

End PageScriptProperties.

Section PageScriptLandmarks.

Variable num : Type.
Variable Math_round : num -> Z.

Lemma has_match_bounds (d : Document num) (selector : string) (b : bool) :
  has_match d selector = Ok b ->
  (b = true <-> getElementBounds Math_round d selector <> None).
Proof.
  unfold has_match, getElementBounds.
  destruct (querySelectorAll d selector) as [[|el els]|]; intros H; inversion H; subst.
  - split; [discriminate|congruence].
  - split; [discriminate|reflexivity].
Qed.

(** X18: in the data returned by the page script the structural flags and
    the landmark rectangles agree: the page is flagged as having a
    navigation, a header or a footer exactly when the corresponding landmark
    has a rectangle. *)
Theorem X18_flags_agree_with_landmarks (d : Document num) (pd : ExtractedPage) :
  page_script Math_round d = Ok pd ->
  exists eb,
    pd_elementBounds pd = Some eb /\
    (pd_hasNavigation pd = true <-> navigation eb <> None) /\
    (pd_hasHeader pd = true <-> header eb <> None) /\
    (pd_hasFooter pd = true <-> footer eb <> None).
Proof.
  unfold page_script.
  destruct (has_match d navigation_selector) as [n|] eqn:En; simpl; [|discriminate].
  destruct (has_match d header_selector) as [h|] eqn:Eh; simpl; [|discriminate].
  destruct (has_match d footer_selector) as [f|] eqn:Ef; simpl; [|discriminate].
  destruct (has_match d sidebar_selector) as [sb|] eqn:Es; simpl; [|discriminate].
  intros H. injection H as <-. eexists. split; [reflexivity|]. simpl.
  split; [apply has_match_bounds, En|].
  split; [apply has_match_bounds, Eh|apply has_match_bounds, Ef].
Qed.

(** X19: when the script cannot run in the page, or throws, the page data
    has a viewport of 1920 by 1080 and no landmark, so the crop stage can
    attach an image to performance issues only (the top 400 pixels of the
    page) and to no recommendation. *)
Theorem X19_failed_extraction_limits_crops (url : string) (page : option (Document num)) :
  page = None \/ (exists d e, page = Some d /\ page_script Math_round d = Throw e) ->
  let pd := crop_view (extract_page Math_round url page) in
  pd = minimal_pageData /\
  (forall category b,
     issue_bounds pd category = Some b ->
     category = JStr "performance" /\
     b = {| bx := 0; by_ := 0; bwidth := 1920; bheight := 400 |}) /\
  (forall title, recommendation_bounds pd title = None).
Proof.
  intros H. cbv zeta.
  assert (Hpd : crop_view (extract_page Math_round url page) = minimal_pageData).
  { destruct H as [->|(d & e & -> & He)]; [reflexivity|].
    unfold extract_page. rewrite He. reflexivity. }
  rewrite Hpd. split; [reflexivity|]. split.
  - intros category b. unfold issue_bounds. destruct category; try discriminate.
    destruct (String.eqb s "layout"); [discriminate|].
    destruct (String.eqb s "conversion"); [discriminate|].
    destruct (String.eqb s "accessibility"); [discriminate|].
    destruct (String.eqb s "mobile"); [discriminate|].
    destruct (String.eqb s "performance") eqn:E; [|discriminate].
    apply String.eqb_eq in E. subst. intros H0. inversion H0. split; reflexivity.
  - intros title. unfold recommendation_bounds.
    repeat match goal with
           | |- context [if ?c then _ else _] => destruct c
           end; reflexivity.
Qed.

End PageScriptLandmarks.

(** A page whose selectors are all rejected. *)
Lemma X19_failed_extraction_limits_crops_witness :
  crop_view (extract_page (fun z : Z => z) "https://example.com"
               (Some {| doc_title := "Home"; location_href := "https://example.com/";
                        querySelectorAll := fun _ => None;
                        innerWidth := 1280; innerHeight := 720;
                        body_innerText := "Welcome" |}))
  = minimal_pageData.
Proof.
  apply (@X19_failed_extraction_limits_crops Z (fun z => z) "https://example.com").
  right. eexists _, _. split; reflexivity.
Defined.

Lemma X18_flags_agree_with_landmarks_witness :
  exists pd,
    page_script (fun z : Z => z) sample_document = Ok pd /\
    exists eb,
      pd_elementBounds pd = Some eb /\
      (pd_hasNavigation pd = true <-> navigation eb <> None) /\
      (pd_hasHeader pd = true <-> header eb <> None) /\
      (pd_hasFooter pd = true <-> footer eb <> None).
Proof.
  eexists. split; [reflexivity|].
  apply (@X18_flags_agree_with_landmarks Z (fun z => z) sample_document _ eq_refl).
Defined.

(** * The history route *)

Section ScansRouteProperties.

Variable Row : Type.
Variable parseInt : string -> option Z.

(** X20: the history route returns a page of scans only to the caller who is
    authenticated as the user named in the query: whenever the answer is a
    page, the [userId] of the query is not empty, the authentication
    succeeded with that very identifier, and the scans are those that the
    storage returned for the requested range. *)
Theorem X20_history_only_for_the_authenticated_user
    (sv : ScansServices Row) (scans : list Row) (total : Z)
    (limit offset : option Z) (hasMore : bool) :
  GET parseInt sv = ScansPage scans total limit offset hasMore ->
  exists uid data,
    q_userId sv = Some uid /\ uid <> EmptyString /\
    q_auth_error sv = false /\ q_auth_user sv = Some uid /\
    select_scans sv (page_offset parseInt sv)
      (nan_add (nan_add (page_offset parseInt sv) (page_limit parseInt sv)) (Some (-1)))
    = Some data /\
    scans = match data with Some l => l | None => [] end.
Proof.
  unfold GET. destruct (q_userId sv) as [uid|]; [|discriminate].
  destruct (String.eqb uid EmptyString) eqn:Eu; [discriminate|].
  destruct (q_create_client sv); simpl; [|discriminate].
  destruct (q_auth_error sv); simpl; [discriminate|].
  destruct (q_auth_user sv) as [u|]; simpl; [|discriminate].
  destruct (String.eqb u uid) eqn:E; simpl; [|discriminate].
  apply String.eqb_eq in E. subst u.
  destruct (select_scans sv _ _) as [data|] eqn:Es; [|discriminate].
  intros H. inversion H. exists uid, data.
  repeat split; auto.
  intros ->. discriminate.
Qed.

(** X21: a page reports [hasMore] exactly when the total is greater than
    offset + limit; the range asked of the storage holds [limit] rows
    starting at [offset]; and when the count is not available the total is 0,
    so that with a non-negative offset and limit [hasMore] is false whatever
    the scans returned.  With a limit or an offset that is not a number
    [hasMore] is false. *)
Theorem X21_pagination_of_a_page
    (sv : ScansServices Row) (scans : list Row) (total : Z)
    (limit offset : option Z) (hasMore : bool) :
  GET parseInt sv = ScansPage scans total limit offset hasMore ->
  limit = page_limit parseInt sv /\ offset = page_offset parseInt sv /\
  total = match count_scans sv with Some c => c | None => 0 end /\
  (forall l o, limit = Some l -> offset = Some o ->
     (hasMore = true <-> o + l < total) /\
     requested_range parseInt sv = (Some o, Some (o + l - 1)) /\
     (count_scans sv = None -> 0 <= o + l -> hasMore = false)) /\
  (limit = None \/ offset = None -> hasMore = false).
Proof.
  unfold GET. destruct (q_userId sv) as [uid|]; [|discriminate].
  destruct (String.eqb uid EmptyString); [discriminate|].
  destruct (q_create_client sv); simpl; [|discriminate].
  destruct (q_auth_error sv || _)%bool; [discriminate|].
  destruct (select_scans sv _ _) as [data|]; [|discriminate].
  intros H. injection H as _ <- <- <- <-.
  split; [reflexivity|]. split; [reflexivity|]. split; [reflexivity|]. split.
  - intros l o Hl Ho. unfold requested_range. rewrite Hl, Ho. simpl.
    split; [apply Z.ltb_lt|]. split; [reflexivity|].
    intros Hc Hn. rewrite Hc. apply Z.ltb_ge. exact Hn.
  - intros [H|H]; rewrite H; [destruct (page_offset parseInt sv)|]; reflexivity.
Qed.

(** X22: the defaults of the query: when [limit] and [offset] are absent or
    empty, and [parseInt] reads "10" and "0" as 10 and 0, the storage is asked
    for the rows 0 to 9 and a page reports limit 10, offset 0 and [hasMore]
    exactly when the total exceeds 10. *)
Theorem X22_default_page_is_the_first_ten (sv : ScansServices Row) :
  parseInt "10" = Some 10 -> parseInt "0" = Some 0 ->
  q_limit sv = None \/ q_limit sv = Some EmptyString ->
  q_offset sv = None \/ q_offset sv = Some EmptyString ->
  requested_range parseInt sv = (Some 0, Some 9) /\
  forall scans total limit offset hasMore,
    GET parseInt sv = ScansPage scans total limit offset hasMore ->
    limit = Some 10 /\ offset = Some 0 /\ (hasMore = true <-> 10 < total).
Proof.
  intros H10 H0 Hl Ho.
  assert (El : page_limit parseInt sv = Some 10).
  { unfold page_limit. destruct Hl as [-> | ->]; exact H10. }
  assert (Eo : page_offset parseInt sv = Some 0).
  { unfold page_offset. destruct Ho as [-> | ->]; exact H0. }
  split; [unfold requested_range; rewrite El, Eo; reflexivity|].
  intros scans total limit offset hasMore. unfold GET. rewrite El, Eo.
  destruct (q_userId sv) as [uid|]; [|discriminate].
  destruct (String.eqb uid EmptyString); [discriminate|].
  destruct (q_create_client sv); simpl; [|discriminate].
  destruct (q_auth_error sv || _)%bool; [discriminate|].
  destruct (select_scans sv _ _) as [data|]; [|discriminate].
  intros H. injection H as _ <- <- <- <-.
  split; [reflexivity|]. split; [reflexivity|]. apply Z.ltb_lt.
Qed.

End ScansRouteProperties.

Lemma X20_history_only_for_the_authenticated_user_witness :
  exists uid data,
    q_userId sample_history = Some uid /\ uid <> EmptyString /\
    q_auth_error sample_history = false /\ q_auth_user sample_history = Some uid /\
    select_scans sample_history (page_offset sample_parseInt sample_history)
      (nan_add (nan_add (page_offset sample_parseInt sample_history)
                  (page_limit sample_parseInt sample_history)) (Some (-1)))
    = Some data /\
    [3; 2; 1]%nat = match data with Some l => l | None => [] end.
Proof.
  apply (@X20_history_only_for_the_authenticated_user nat sample_parseInt
           sample_history [3; 2; 1]%nat 25 (Some 10) (Some 0) true).
  reflexivity.
Defined.

Lemma X21_pagination_of_a_page_witness :
  Some 10 = page_limit sample_parseInt sample_history /\
  Some 0 = page_offset sample_parseInt sample_history /\
  25 = match count_scans sample_history with Some c => c | None => 0 end.
Proof.
  destruct (@X21_pagination_of_a_page nat sample_parseInt sample_history
              [3; 2; 1]%nat 25 (Some 10) (Some 0) true eq_refl)
    as (H1 & H2 & H3 & _).
  split; [exact H1|]. split; [exact H2|exact H3].
Defined.

Lemma X22_default_page_is_the_first_ten_witness :
  requested_range sample_parseInt sample_history = (Some 0, Some 9).
Proof.
  apply (@X22_default_page_is_the_first_ten nat sample_parseInt sample_history).
  - reflexivity.
  - reflexivity.
  - left. reflexivity.
  - right. reflexivity.
Defined.

(** * The report page *)

Section GroupingProperties.

Variable A : Type.
Variable key : A -> string.

Lemma group_of_push (k k' : string) (x : A) (acc : list (string * list A)) :
  group_of k (push_group k' x acc)
  = if String.eqb k' k then (group_of k acc ++ [x])%list else group_of k acc.
Proof.
  induction acc as [|[k0 l] r IH]; simpl.
  - destruct (String.eqb k' k); reflexivity.
  - destruct (String.eqb k0 k') eqn:E0; simpl.
    + apply String.eqb_eq in E0. subst k0.
      destruct (String.eqb k' k); reflexivity.
    + rewrite IH. destruct (String.eqb k' k) eqn:E; [|reflexivity].
      apply String.eqb_eq in E. subst k'. rewrite E0. reflexivity.
Qed.

Lemma fold_group_step_throw (rows : list A) (e : exn) :
  fold_left (group_step key) rows (Throw e) = Throw e.
Proof. induction rows as [|x r IH]; simpl; [reflexivity|exact IH]. Qed.

Lemma group_step_ok (acc : list (string * list A)) (x : A) :
  array_includes object_prototype_names (key x) = false ->
  group_step key (Ok acc) x = Ok (push_group (key x) x acc).
Proof. intros H. unfold group_step. cbn [bind]. rewrite H. reflexivity. Qed.

Lemma group_step_bad (acc : list (string * list A)) (x : A) :
  array_includes object_prototype_names (key x) = true ->
  group_step key (Ok acc) x = Throw TypeError.
Proof. intros H. unfold group_step. cbn [bind]. rewrite H. reflexivity. Qed.

Lemma fold_group_step_ok (rows : list A) (acc : list (string * list A)) :
  Forall (fun x => array_includes object_prototype_names (key x) = false) rows ->
  exists g,
    fold_left (group_step key) rows (Ok acc) = Ok g /\
    forall k, group_of k g
              = (group_of k acc ++ filter (fun x => String.eqb (key x) k) rows)%list.
Proof.
  intros H. revert acc. induction H as [|x r Hx _ IH]; intros acc; cbn [fold_left].
  - exists acc. split; [reflexivity|]. intros k. simpl. rewrite app_nil_r. reflexivity.
  - rewrite (group_step_ok acc x Hx).
    destruct (IH (push_group (key x) x acc)) as (g & Hg & Hk).
    exists g. split; [exact Hg|]. intros k. rewrite Hk, group_of_push.
    cbn [filter]. destruct (String.eqb (key x) k); [rewrite <- app_assoc|]; reflexivity.
Qed.

Lemma fold_group_step_bad (rows : list A) (acc : list (string * list A)) :
  Exists (fun x => array_includes object_prototype_names (key x) = true) rows ->
  fold_left (group_step key) rows (Ok acc) = Throw TypeError.
Proof.
  intros H. revert acc. induction rows as [|x r IH]; intros acc; [inversion H|].
  cbn [fold_left]. destruct (array_includes object_prototype_names (key x)) eqn:E.
  - rewrite (group_step_bad acc x E). apply fold_group_step_throw.
  - rewrite (group_step_ok acc x E). apply IH.
    inversion H; subst; [congruence|assumption].
Qed.

(** X23: the grouping of the report page is a partition: when no key names a
    member of Object.prototype (the categories and priorities that the
    schema admits do not), the group of a key holds exactly the rows with
    that key, in their stored order, so every row is in the group of its own
    key and in no other.  A single row whose key names a member of
    Object.prototype makes the whole grouping throw a TypeError. *)
Theorem X23_grouping_is_a_partition (rows : list A) :
  (Forall (fun x => array_includes object_prototype_names (key x) = false) rows ->
   exists g,
     group_by key rows = Ok g /\
     (forall k, group_of k g = filter (fun x => String.eqb (key x) k) rows) /\
     (forall x k, In x (group_of k g) <-> In x rows /\ key x = k)) /\
  (Exists (fun x => array_includes object_prototype_names (key x) = true) rows ->
   group_by key rows = Throw TypeError).
Proof.
  split.
  - intros H. destruct (fold_group_step_ok [] H) as (g & Hg & Hk).
    exists g. split; [exact Hg|]. split; [exact Hk|].
    intros x k. rewrite Hk. simpl. rewrite filter_In, String.eqb_eq. reflexivity.
  - apply fold_group_step_bad.
Qed.

(** X24: the report page lists the recommendations by priority, high first,
    then medium, then low.  When every priority is one of these three (which
    the schema enforces), the list shown is a rearrangement of the stored
    recommendations: each one is shown exactly once, and the stored order is
    kept inside each group. *)
Theorem X24_every_recommendation_is_listed_once (rows : list A) :
  Forall (fun x => key x = "high" \/ key x = "medium" \/ key x = "low") rows ->
  exists g,
    group_by key rows = Ok g /\
    displayed_by_priority g
    = (filter (fun x => String.eqb (key x) "high") rows
       ++ filter (fun x => String.eqb (key x) "medium") rows
       ++ filter (fun x => String.eqb (key x) "low") rows)%list /\
    Permutation (displayed_by_priority g) rows.
Proof.
  intros H.
  assert (Hok : Forall (fun x => array_includes object_prototype_names (key x) = false) rows).
  { eapply Forall_impl; [|exact H]. intros x [E|[E|E]]; rewrite E; reflexivity. }
  destruct (fold_group_step_ok [] Hok) as (g & Hg & Hk).
  exists g. split; [exact Hg|].
  assert (Hd : displayed_by_priority g
               = (filter (fun x => String.eqb (key x) "high") rows
                  ++ filter (fun x => String.eqb (key x) "medium") rows
                  ++ filter (fun x => String.eqb (key x) "low") rows)%list).
  { unfold displayed_by_priority. rewrite !Hk. reflexivity. }
  split; [exact Hd|]. rewrite Hd. clear Hd Hg Hk Hok g.
  induction H as [|x r Hx _ IH]; simpl; [constructor|].
  destruct Hx as [E|[E|E]]; rewrite E; simpl.
  - apply perm_skip, IH.
  - apply Permutation_sym, Permutation_cons_app, Permutation_sym, IH.
  - rewrite app_assoc. apply Permutation_sym, Permutation_cons_app.
    rewrite <- app_assoc. apply Permutation_sym, IH.
Qed.

End GroupingProperties.

Lemma X23_grouping_is_a_partition_witness :
  group_by fst [("layout", "Crowded header"); ("constructor", "Odd category")]
  = Throw TypeError.
Proof.
  apply (proj2 (X23_grouping_is_a_partition fst
                  [("layout", "Crowded header"); ("constructor", "Odd category")])).
  right. left. reflexivity.
Defined.

Lemma X24_every_recommendation_is_listed_once_witness :
  exists g,
    group_by fst sample_recommendation_rows = Ok g /\
    displayed_by_priority g
    = (filter (fun x => String.eqb (fst x) "high") sample_recommendation_rows
       ++ filter (fun x => String.eqb (fst x) "medium") sample_recommendation_rows
       ++ filter (fun x => String.eqb (fst x) "low") sample_recommendation_rows)%list /\
    Permutation (displayed_by_priority g) sample_recommendation_rows.
Proof.
  apply (@X24_every_recommendation_is_listed_once (string * string) fst
           sample_recommendation_rows).
  unfold sample_recommendation_rows.
  repeat (apply Forall_cons; [simpl; auto|]). apply Forall_nil.
Defined.

(** * Keywords of the recommendation titles *)

Lemma includes_cons (needle : string) (c : ascii) (s : string) :
  includes needle s = true -> includes needle (String c s) = true.
Proof. intros H. simpl. rewrite H. apply orb_true_r. Qed.

Lemma prefix_app (a s : string) :
  String.prefix a s = true -> exists rest, s = a ++ rest.
Proof.
  revert s. induction a as [|x a IH]; intros s; simpl.
  - intros _. exists s. reflexivity.
  - destruct s as [|y s]; simpl; [intros H; discriminate H|].
    destruct (ascii_dec x y) as [E|E]; [subst y|intros H; discriminate H].
    intros H. destruct (IH s H) as [rest E]. subst s. exists rest. reflexivity.
Qed.

Lemma includes_performance_form (s : string) :
  includes "performance" s = true -> includes "form" s = true.
Proof.
  induction s as [|c s IH]; [discriminate|].
  intros H. cbn [includes] in H. apply orb_true_iff in H. destruct H as [H|H].
  - destruct (prefix_app _ _ H) as [rest E]. simpl in E. injection E as -> ->.
    reflexivity.
  - apply includes_cons, IH, H.
Qed.

Lemma includes_navigation_nav (s : string) :
  includes "navigation" s = true -> includes "nav" s = true.
Proof.
  induction s as [|c s IH]; [discriminate|].
  intros H. cbn [includes] in H. apply orb_true_iff in H. destruct H as [H|H].
  - destruct (prefix_app _ _ H) as [rest E]. simpl in E. injection E as -> ->.
    reflexivity.
  - apply includes_cons, IH, H.
Qed.

(** X25: the keyword "form" is also found inside longer words: a
    recommendation whose title mentions "performance" (in any letter case)
    and none of "button", "cta" and "nav" is matched to the first form of
    the page, and is illustrated with the image of that form. *)
Theorem X25_performance_titles_match_the_form (pd : PageData) (title : string) :
  includes "performance" (toLowerCase title) = true ->
  includes "button" (toLowerCase title) = false ->
  includes "cta" (toLowerCase title) = false ->
  includes "nav" (toLowerCase title) = false ->
  recommendation_bounds pd title = landmark pd forms.
Proof.
  intros Hp Hb Hc Hn. unfold recommendation_bounds. cbv zeta.
  assert (Hnav : includes "navigation" (toLowerCase title) = false).
  { destruct (includes "navigation" (toLowerCase title)) eqn:E; [|reflexivity].
    apply includes_navigation_nav in E. congruence. }
  rewrite Hb, Hc, Hnav, Hn, (includes_performance_form _ Hp). reflexivity.
Qed.

Lemma X25_performance_titles_match_the_form_witness :
  recommendation_bounds sample_page "Improve Performance of the page"
  = landmark sample_page forms.
Proof.
  apply X25_performance_titles_match_the_form; reflexivity.
Defined.
